(** * setup_ts.py: the TypeScript build driver of NNI

    A shallow embedding of [setup_ts.py] and the properties of its
    specification.  The script sequences file-system operations, two
    downloads and invocations of the package manager; it is embedded as
    a state-and-exception monad over

    - a directory tree with regular files, directories and symbolic
      links, rooted at the working directory of the script;
    - a trace of the observable events (lines printed, HTTP requests,
      processes started).

    What lies outside the script (the answers of the network, what a
    package-manager run does to the tree, the parser of pre-existing
    JSON text) is a field of the environment record [Env]. *)

From Stdlib Require Import String Ascii ZArith.
From stdpp Require Import gmap strings list fin_maps.
From Equations Require Import Equations.

Open Scope string_scope.
Open Scope list_scope.

(** ** Python strings *)

Module Str.

(** [s.split(sep)] for a one-character separator: the pieces between
    the occurrences of [sep]; never the empty list. *)
Fixpoint split (sep : ascii) (s : string) : list string :=
  match s with
  | EmptyString => [EmptyString]
  | String c s' =>
      if Ascii.eqb c sep then EmptyString :: split sep s'
      else match split sep s' with
           | [] => [String c EmptyString]
           | w :: ws => String c w :: ws
           end
  end.

(** [needle in hay] *)
Fixpoint contains (needle hay : string) : bool :=
  String.prefix needle hay ||
  match hay with
  | EmptyString => false
  | String _ hay' => contains needle hay'
  end.

(** [s.endswith(suffix)] *)
Fixpoint endswith (s suffix : string) : bool :=
  String.eqb s suffix ||
  match s with
  | EmptyString => false
  | String _ s' => endswith s' suffix
  end.

(** Truth value of a string object. *)
Definition nonempty (s : string) : bool :=
  match s with EmptyString => false | String _ _ => true end.

(** [s + '.0'] repeated [k] times. *)
Fixpoint append_zeros (k : nat) (s : string) : string :=
  match k with
  | O => s
  | S k' => append_zeros k' (s +:+ ".0")
  end.

End Str.

(** Truth value of an object that is a string or [None]. *)
Definition truthy (o : option string) : bool :=
  match o with
  | Some s => Str.nonempty s
  | None => false
  end.

(** ** Paths

    A [pathlib.Path] is its list of components.  Empty components and
    ["."] are dropped, as [pathlib] does; a leading slash is kept as the
    component ["/"], which names the root of the absolute name space. *)

Definition path := list string.

Definition is_component (c : string) : bool :=
  negb (String.eqb c "" || String.eqb c ".").

Definition Path (s : string) : path :=
  (if String.prefix "/" s then ["/"] else []) ++ List.filter is_component (Str.split "/" s).

(** [Path(a, b)] *)
Definition Path2 (a b : string) : path :=
  if String.prefix "/" b then Path b else Path a ++ Path b.

(** A path given by a string literal, parsed where it is written. *)
Notation "'Path!' s" :=
  (ltac:(let v := eval vm_compute in (Path s) in exact v))
  (at level 10, s at level 0, only parsing).

(** [p / name] for the name of a directory entry (one component). *)
Definition child (p : path) (name : string) : path := p ++ [name].

(** [os.path.join(a, b)] *)
Definition os_path_join (a b : string) : string :=
  if String.prefix "/" b then b
  else if Str.endswith a "/" || negb (Str.nonempty a) then a +:+ b
  else a +:+ "/" +:+ b.

(** [p.parent] and [p.name] *)
Definition parent (p : path) : path := removelast p.
Definition name (p : path) : string := List.last p "".

(** ** Documents, files and the directory tree *)

(** A JSON document as [json.load] returns it: [dict], [list], [str],
    [int], [bool] and [None] (manifests hold no floating-point number). *)
#[warnings="-register-all"]
Inductive json : Type :=
| JNull
| JBool (b : bool)
| JNum (n : Z)
| JStr (s : string)
| JArr (items : list json)
| JObj (fields : gmap string json).

(** What a regular file holds: text that the script did not write, or
    the text [json.dump(doc, f, indent=2)] wrote for a document. *)
Inductive content : Type :=
| Raw (text : string)
| JsonText (doc : json).

#[warnings="-register-all"]
Inductive node : Type :=
| File (c : content)
| Dir (entries : gmap string node)
| Symlink (target : path).

(** A member of a tar or zip archive. *)
Inductive member : Type :=
| MDir
| MFile (c : content).

Inductive archive_format : Type := tar_xz | tar_gz | zip.

(** The body of an HTTP response: an archive in some format, or bytes
    that are no archive at all. *)
Inductive payload : Type :=
| Archive (fmt : archive_format) (members : list (string * member))
| Garbage.

Record response : Type := Response {
  status_code : Z;
  resp_content : payload
}.

(** ** Exceptions *)

Inductive exn : Type :=
| RuntimeError (msg : string)
| KeyError (key : string)
| TypeError
| JSONDecodeError
| FileNotFoundError (p : path)
| FileExistsError (p : path)
| IsADirectoryError (p : path)
| NotADirectoryError (p : path)
| OSError (msg : string)
| SameFileError
| ReadError
| BadZipFile
| ConnectionError (url : string)
| HTTPError (status : Z)
| CalledProcessError (returncode : Z) (cmd : list string).

Inductive result (A : Type) : Type :=
| Ok (a : A)
| Raise (e : exn).
Arguments Ok {A} a.
Arguments Raise {A} e.

(** ** Observable events *)

Inductive event : Type :=
| Printed (line : string)
| PrintedDoc (prefix : string) (doc : json)
| HttpGet (url : string)
| Run (argv : list string) (cwd : string) (env_PATH : option string).

(** How a child process ended: its return code, or the program could not
    be started at all. *)
Inductive outcome : Type :=
| Exit (returncode : Z)
| NoSuchProgram.

(** ** The environment of one run *)

Record Env : Type := {
  sys_platform : string;
  sys_exec_prefix : string;
  environ : gmap string string;
  (** [str(Path().resolve())] *)
  cwd : string;
  (** [jupyterlab.__version__], or [None] when the import fails *)
  jupyterlab_version : option string;
  (** the answer to [requests.get(url)]; [None] is a connection error *)
  requests_get : string -> option response;
  (** what running [argv] in [cwd] does to the tree, and how it ends *)
  subprocess : list string -> string -> option string -> node -> outcome * node;
  (** [json.loads] on text the script did not write *)
  json_loads : string -> option json
}.

Record state : Type := State {
  fs : node;
  trace : list event
}.

(** ** The monad of the script: state and exceptions

    A computation takes the state and returns a value or a raised
    exception, together with the state reached: what was done before an
    exception was raised stays done. *)

Definition M (A : Type) : Type := state -> result A * state.

Definition ret {A} (a : A) : M A := fun s => (Ok a, s).

Definition raise {A} (e : exn) : M A := fun s => (Raise e, s).

Definition bind {A B} (m : M A) (k : A -> M B) : M B :=
  fun s =>
    match m s with
    | (Ok a, s') => k a s'
    | (Raise e, s') => (Raise e, s')
    end.

(** [try: m  except Exception as e: handler(e)] *)
Definition try_except {A} (m : M A) (handler : exn -> M A) : M A :=
  fun s =>
    match m s with
    | (Ok a, s') => (Ok a, s')
    | (Raise e, s') => handler e s'
    end.

Definition get_fs : M node := fun s => (Ok (fs s), s).

Definition set_fs (t : node) : M unit := fun s => (Ok tt, State t (trace s)).

Definition emit (ev : event) : M unit :=
  fun s => (Ok tt, State (fs s) (trace s ++ [ev])).

Declare Scope script_scope.
Delimit Scope script_scope with script.
Notation "x <- m ;; k" := (bind m (fun x => k))
  (at level 100, m at next level, right associativity) : script_scope.
Notation "m ;; k" := (bind m (fun _ => k))
  (at level 100, right associativity) : script_scope.
Open Scope script_scope.

(** [for x in l: body(x)] *)
Fixpoint for_ {A} (l : list A) (body : A -> M unit) : M unit :=
  match l with
  | [] => ret tt
  | x :: l' => body x ;; for_ l' body
  end.

(** [if c: m] *)
Definition when (c : bool) (m : M unit) : M unit := if c then m else ret tt.

(** ** The directory tree *)

(** The node at a path, following directories only. *)
Fixpoint walk (n : node) (p : path) : option node :=
  match p with
  | [] => Some n
  | c :: p' =>
      match n with
      | Dir es =>
          match es !! c with
          | Some m => walk m p'
          | None => None
          end
      | _ => None
      end
  end.

(** Replace or create the node at [p]; the parent of [p] has to be a
    directory of the tree, otherwise the tree is returned as it is. *)
Fixpoint put (n : node) (p : path) (new : node) : node :=
  match p with
  | [] => new
  | c :: p' =>
      match n with
      | Dir es =>
          match es !! c, p' with
          | Some m, _ => Dir (<[c := put m p' new]> es)
          | None, [] => Dir (<[c := new]> es)
          | None, _ :: _ => n
          end
      | _ => n
      end
  end.

(** Remove the node at [p] with all below it. *)
Fixpoint del (n : node) (p : path) : node :=
  match p with
  | [] => n
  | c :: p' =>
      match n with
      | Dir es =>
          match p' with
          | [] => Dir (delete c es)
          | _ :: _ =>
              match es !! c with
              | Some m => Dir (<[c := del m p']> es)
              | None => n
              end
          end
      | _ => n
      end
  end.

(** Make [p] and its missing ancestors directories; [None] when a
    component of [p] is there and is no directory. *)
Fixpoint mkdirs (n : node) (p : path) : option node :=
  match n with
  | Dir es =>
      match p with
      | [] => Some n
      | c :: p' =>
          match mkdirs (default (Dir ∅) (es !! c)) p' with
          | Some m => Some (Dir (<[c := m]> es))
          | None => None
          end
      end
  | _ => None
  end.

(** *** Path resolution

    [resolve links root follow cur done rest] walks the components
    [rest] from the directory [cur], which is the node at the physical
    path [done] of [root], and returns the physical path that
    [done/rest] denotes: a path whose parent is a directory of the tree
    and whose last component may be missing.  A symbolic link met on
    the way is replaced by its target; the last component is replaced
    only when [follow] is set.  At most [links] links are traversed
    (ELOOP), a missing or non-directory component in the middle gives
    [None]. *)
Fixpoint resolve (links : nat) (root : node) (follow : bool)
    : node -> path -> path -> option path :=
  fix go (cur : node) (done rest : path) {struct rest} : option path :=
    match rest with
    | [] => Some done
    | c :: rest' =>
        match cur with
        | Dir es =>
            match es !! c with
            | Some (Symlink t) =>
                if negb follow && bool_decide (rest' = []) then Some (done ++ [c])
                else
                  match links with
                  | O => None
                  | S l => resolve l root follow root [] (t ++ rest')
                  end
            | Some m => go m (done ++ [c]) rest'
            | None =>
                match rest' with
                | [] => Some (done ++ [c])
                | _ :: _ => None
                end
            end
        | _ => None
        end
    end.

Definition MAXSYMLINKS : nat := 40.

Definition locate (root : node) (follow : bool) (p : path) : option path :=
  resolve MAXSYMLINKS root follow root [] p.

(** [os.lstat] and [os.stat]: the node a path denotes, without and with
    following a link in the last component. *)
Definition lstat (root : node) (p : path) : option node :=
  match locate root false p with
  | Some q => walk root q
  | None => None
  end.

Definition stat (root : node) (p : path) : option node :=
  match locate root true p with
  | Some q => walk root q
  | None => None
  end.

Definition is_Dir (o : option node) : bool :=
  match o with Some (Dir _) => true | _ => false end.
Definition is_File (o : option node) : bool :=
  match o with Some (File _) => true | _ => false end.
Definition is_Symlink (o : option node) : bool :=
  match o with Some (Symlink _) => true | _ => false end.
Definition is_Some_node (o : option node) : bool :=
  match o with Some _ => true | None => false end.

(** Proper, non-empty prefixes of a path, the shortest first. *)
Fixpoint ancestors_from (acc p : path) : list path :=
  match p with
  | [] => []
  | c :: p' =>
      match p' with
      | [] => []
      | _ :: _ => (acc ++ [c]) :: ancestors_from (acc ++ [c]) p'
      end
  end.

Definition ancestors (p : path) : list path := ancestors_from [] p.

(** ** The library calls of the script

    Each definition gives the effect of one call of [pathlib], [os],
    [shutil], [tarfile], [json], [requests] or [subprocess] on the tree
    and the trace.  Permissions, special files and the contents of
    symbolic links inside a copied tree are not modelled: [copytree]
    carries a subtree over as it is. *)

Section Library.

Variable E : Env.

Definition is_symlink (p : path) : M bool :=
  t <- get_fs ;; ret (is_Symlink (lstat t p)).

Definition is_file (p : path) : M bool :=
  t <- get_fs ;; ret (is_File (stat t p)).

Definition is_dir (p : path) : M bool :=
  t <- get_fs ;; ret (is_Dir (stat t p)).

Definition exists_ (p : path) : M bool :=
  t <- get_fs ;; ret (is_Some_node (stat t p)).

(** [Path.unlink], [os.remove] *)
Definition unlink (p : path) : M unit :=
  t <- get_fs ;;
  match locate t false p with
  | Some q =>
      match walk t q with
      | Some (Dir _) => raise (IsADirectoryError p)
      | Some _ => set_fs (del t q)
      | None => raise (FileNotFoundError p)
      end
  | None => raise (FileNotFoundError p)
  end.

(** [shutil.rmtree(p, ignore_errors=...)]: only a directory that is
    not reached through a link in the last component is removed. *)
Definition rmtree (p : path) (ignore_errors : bool) : M unit :=
  let fail e := if ignore_errors then ret tt else raise e in
  t <- get_fs ;;
  match locate t false p with
  | Some q =>
      match walk t q with
      | Some (Dir _) => set_fs (del t q)
      | Some (Symlink _) => fail (OSError "Cannot call rmtree on a symbolic link")
      | Some (File _) => fail (NotADirectoryError p)
      | None => fail (FileNotFoundError p)
      end
  | None => fail (FileNotFoundError p)
  end.

(** Create a node where nothing is: [os.mkdir], [os.symlink]. *)
Definition mknode (p : path) (new : node) : M unit :=
  t <- get_fs ;;
  match locate t false p with
  | Some q =>
      match walk t q with
      | None => set_fs (put t q new)
      | Some _ => raise (FileExistsError p)
      end
  | None => raise (FileNotFoundError p)
  end.

(** [Path.mkdir(exist_ok=...)] *)
Definition mkdir (p : path) (exist_ok : bool) : M unit :=
  try_except (mknode p (Dir ∅))
    (fun e =>
       match e with
       | FileExistsError _ =>
           d <- is_dir p ;;
           if exist_ok && d then ret tt else raise e
       | _ => raise e
       end).

(** The first half of [os.makedirs(p)]: the missing ancestors of [p]
    are made, the shortest first. *)
Definition makedirs_parents (p : path) : M unit :=
  for_ (ancestors p)
    (fun q =>
       there <- exists_ q ;;
       if there then ret tt
       else try_except (mknode q (Dir ∅))
              (fun e => match e with FileExistsError _ => ret tt | _ => raise e end)).

(** [Path.symlink_to]; the node records the path the link stands for. *)
Definition symlink_to (link target : path) (target_is_directory : bool) : M unit :=
  mknode link (Symlink target).

(** [open(p).read()] *)
Definition read_file (p : path) : M content :=
  t <- get_fs ;;
  match stat t p with
  | Some (File c) => ret c
  | Some (Dir _) => raise (IsADirectoryError p)
  | _ => raise (FileNotFoundError p)
  end.

(** [open(p, 'w').write(c)] *)
Definition write_file (p : path) (c : content) : M unit :=
  t <- get_fs ;;
  match locate t true p with
  | Some q =>
      match walk t q with
      | Some (Dir _) => raise (IsADirectoryError p)
      | _ => set_fs (put t q (File c))
      end
  | None => raise (FileNotFoundError p)
  end.

(** [os.path.samefile], false when either path does not exist *)
Definition samefile (t : node) (p q : path) : bool :=
  match locate t true p, locate t true q with
  | Some p', Some q' =>
      is_Some_node (walk t p') && is_Some_node (walk t q') && bool_decide (p' = q')
  | _, _ => false
  end.

(** [shutil.copyfile(src, dst)] *)
Definition copyfile (src dst : path) : M unit :=
  t <- get_fs ;;
  if samefile t src dst then raise SameFileError
  else c <- read_file src ;; write_file dst c.

(** [shutil.copy(src, dst)] *)
Definition copy (src dst : path) : M unit :=
  d <- is_dir dst ;;
  copyfile src (if d then child dst (name src) else dst).

(** [shutil.copytree(src, dst)]: [os.makedirs(dst)], which fails when
    [dst] is there, and the entries of [src] copied into it; the
    directory is created with its entries in one step. *)
Definition copytree (src dst : path) : M unit :=
  t <- get_fs ;;
  match stat t src with
  | Some (Dir es) =>
      makedirs_parents dst ;;
      mknode dst (Dir es)
  | Some _ => raise (NotADirectoryError src)
  | None => raise (FileNotFoundError src)
  end.

(** [Path.iterdir()]: the names of the entries *)
Definition iterdir (p : path) : M (list string) :=
  t <- get_fs ;;
  match stat t p with
  | Some (Dir es) => ret (map fst (map_to_list es))
  | Some _ => raise (NotADirectoryError p)
  | None => raise (FileNotFoundError p)
  end.

(** [Path.rename(dst)], that is [os.rename]: on Windows the
    destination must not exist; elsewhere a file replaces a file and
    a directory replaces an empty directory. *)
Definition rename (src dst : path) : M unit :=
  t <- get_fs ;;
  match locate t false src, locate t false dst with
  | Some q1, Some q2 =>
      match walk t q1 with
      | None => raise (FileNotFoundError src)
      | Some n =>
          if bool_decide (q1 = q2) then ret tt
          else if bool_decide (q1 `prefix_of` q2) then raise (OSError "Invalid argument")
          else
            match walk t q2 with
            | None => set_fs (put (del t q1) q2 n)
            | Some old =>
                if String.eqb (sys_platform E) "win32" then raise (FileExistsError dst)
                else
                  match n, old with
                  | Dir _, Dir es =>
                      match map_to_list es with
                      | [] => set_fs (put (del t q1) q2 n)
                      | _ :: _ => raise (OSError "Directory not empty")
                      end
                  | Dir _, _ => raise (NotADirectoryError dst)
                  | _, Dir _ => raise (IsADirectoryError dst)
                  | _, _ => set_fs (put (del t q1) q2 n)
                  end
            end
      end
  | None, _ => raise (FileNotFoundError src)
  | _, None => raise (FileNotFoundError dst)
  end.

(** One member of [tarball.extractall(dest)], written below the
    physical directory [d]. *)
Definition extract_member (d : path) (m : string * member) : M unit :=
  t <- get_fs ;;
  let q := d ++ Path (fst m) in
  match mkdirs t (parent q) with
  | None => raise (NotADirectoryError q)
  | Some t' =>
      set_fs t' ;;
      match snd m, walk t' q with
      | MDir, None => set_fs (put t' q (Dir ∅))
      | MDir, Some (Dir _) => ret tt
      | MDir, Some _ => raise (FileExistsError q)
      | MFile c, Some (Dir _) => raise (IsADirectoryError q)
      | MFile c, _ => set_fs (put t' q (File c))
      end
  end.

(** [tarball.extractall(dest)] *)
Definition extractall (members : list (string * member)) (dest : path) : M unit :=
  t <- get_fs ;;
  match locate t true dest with
  | Some d =>
      if is_Dir (walk t d) then for_ members (extract_member d)
      else raise (NotADirectoryError dest)
  | None => raise (FileNotFoundError dest)
  end.

(** [tarfile.open(fileobj=BytesIO(data), mode='r:xz')] and ['r:gz'] *)
Definition tarfile_open (fmt : archive_format) (data : payload)
    : result (list (string * member)) :=
  match data, fmt with
  | Archive tar_xz ms, tar_xz => Ok ms
  | Archive tar_gz ms, tar_gz => Ok ms
  | _, _ => Raise ReadError
  end.

(** [ZipFile(BytesIO(data))] *)
Definition ZipFile (data : payload) : result (list (string * member)) :=
  match data with
  | Archive zip ms => Ok ms
  | _ => Raise BadZipFile
  end.

Definition lift {A} (r : result A) : M A :=
  match r with
  | Ok a => ret a
  | Raise e => raise e
  end.

(** [requests.get(url)] and [resp.raise_for_status()] *)
Definition requests_get_ (url : string) : M response :=
  emit (HttpGet url) ;;
  match requests_get E url with
  | Some r => ret r
  | None => raise (ConnectionError url)
  end.

Definition raise_for_status (r : response) : M unit :=
  if (400 <=? status_code r)%Z && (status_code r <? 600)%Z
  then raise (HTTPError (status_code r))
  else ret tt.

(** [subprocess.run(argv, cwd=cwd, check=True, env=...)] *)
Definition subprocess_run (argv : list string) (dir : string) (env_PATH : option string)
    : M unit :=
  emit (Run argv dir env_PATH) ;;
  t <- get_fs ;;
  set_fs (snd (subprocess E argv dir env_PATH t)) ;;
  match fst (subprocess E argv dir env_PATH t) with
  | Exit 0 => ret tt
  | Exit rc => raise (CalledProcessError rc argv)
  | NoSuchProgram => raise (FileNotFoundError [List.hd "" argv])
  end.

(** [json.load(open(p))] *)
Definition json_load (p : path) : M json :=
  c <- read_file p ;;
  match c with
  | JsonText doc => ret doc
  | Raw text =>
      match json_loads E text with
      | Some doc => ret doc
      | None => raise JSONDecodeError
      end
  end.

(** [json.dump(doc, open(p, 'w'), indent=2)] *)
Definition json_dump (doc : json) (p : path) : M unit :=
  write_file p (JsonText doc).

(** [doc[key]] and [doc[key] = v] on a loaded document *)
Definition getitem (doc : json) (key : string) : M json :=
  match doc with
  | JObj d =>
      match d !! key with
      | Some v => ret v
      | None => raise (KeyError key)
      end
  | _ => raise TypeError
  end.

Definition setitem (doc : json) (key : string) (v : json) : M json :=
  match doc with
  | JObj d => ret (JObj (<[key := v]> d))
  | _ => raise TypeError
  end.

(** [print(line, flush=True)] *)
Definition print (line : string) : M unit := emit (Printed line).

End Library.

(** ** Module-level bindings of setup_ts.py *)

Definition node_version : string := "v16.3.0".
Definition yarn_version : string := "v1.22.10".

Definition _get_jupyter_lab_version (E : Env) : string :=
  match jupyterlab_version E with
  | Some v => v
  | None => "3.x"
  end.

Definition jupyter_lab_major_version (E : Env) : string :=
  List.hd "" (Str.split "." (_get_jupyter_lab_version E)).

(** What the platform branch (lines 77-102) binds. *)
Record Platform : Type := {
  node_executable : string;
  node_spec : string;
  node_download_url : string;
  node_extractor : payload -> result (list (string * member));
  node_executable_in_tarball : string;
  yarn_executable : string;
  yarn_download_url : string;
  path_env_seperator : string
}.

Definition platform_branch (platform : string) : result Platform :=
  if String.eqb platform "linux" || String.eqb platform "darwin" then
    let node_spec := "node-" +:+ node_version +:+ "-" +:+ platform +:+ "-x64" in
    Ok {| node_executable := "node";
          node_spec := node_spec;
          node_download_url :=
            "https://nodejs.org/dist/" +:+ node_version +:+ "/" +:+ node_spec +:+ ".tar.xz";
          node_extractor := fun data => tarfile_open tar_xz data;
          node_executable_in_tarball := "bin/node";
          yarn_executable := "yarn";
          yarn_download_url :=
            "https://github.com/yarnpkg/yarn/releases/download/" +:+ yarn_version
            +:+ "/yarn-" +:+ yarn_version +:+ ".tar.gz";
          path_env_seperator := ":" |}
  else if String.eqb platform "win32" then
    let node_spec := "node-" +:+ node_version +:+ "-win-x64" in
    Ok {| node_executable := "node.exe";
          node_spec := node_spec;
          node_download_url :=
            "https://nodejs.org/dist/" +:+ node_version +:+ "/" +:+ node_spec +:+ ".zip";
          node_extractor := fun data => ZipFile data;
          node_executable_in_tarball := "node.exe";
          yarn_executable := "yarn.cmd";
          yarn_download_url :=
            "https://github.com/yarnpkg/yarn/releases/download/" +:+ yarn_version
            +:+ "/yarn-" +:+ yarn_version +:+ ".tar.gz";
          path_env_seperator := ";" |}
  else Raise (RuntimeError "Unsupported system").

(** All the bindings the functions of the module read: the platform
    branch and the package-manager environment of lines 251-254. *)
Record Globals : Type := {
  plat :> Platform;
  _yarn_env_PATH : string;
  _yarn_path : string
}.

(** Executing the module top to bottom. *)
Definition load (E : Env) : result Globals :=
  match platform_branch (sys_platform E) with
  | Raise e => Raise e
  | Ok P =>
      match environ E !! "PATH" with
      | None => Raise (KeyError "PATH")
      | Some PATH =>
          Ok {| plat := P;
                _yarn_env_PATH := cwd E +:+ "/nni_node" +:+ path_env_seperator P +:+ PATH;
                _yarn_path := cwd E +:+ "/toolchain/yarn/bin/" +:+ yarn_executable P |}
      end
  end.

Definition generated_files : list string := [
  "ts/nni_manager/dist";
  "ts/nni_manager/node_modules";
  "ts/webui/build";
  "ts/webui/node_modules";
  "ts/nni_manager/.nyc_output";
  "ts/nni_manager/coverage";
  "ts/nni_manager/exp_profile.json";
  "ts/nni_manager/metrics.json";
  "ts/nni_manager/trial_jobs.json"
].

Definition ESC : string := String (ascii_of_nat 27) "".
Definition LF : string := String (ascii_of_nat 10) "".
Definition QUOTE : string := String (ascii_of_nat 34) "".

Inductive color : Type := yellow | cyan.

(** [traceback.format_exc()]: the text for the exception being handled. *)
Definition exn_name (e : exn) : string :=
  match e with
  | RuntimeError _ => "RuntimeError"
  | KeyError _ => "KeyError"
  | TypeError => "TypeError"
  | JSONDecodeError => "json.decoder.JSONDecodeError"
  | FileNotFoundError _ => "FileNotFoundError"
  | FileExistsError _ => "FileExistsError"
  | IsADirectoryError _ => "IsADirectoryError"
  | NotADirectoryError _ => "NotADirectoryError"
  | OSError _ => "OSError"
  | SameFileError => "shutil.SameFileError"
  | ReadError => "tarfile.ReadError"
  | BadZipFile => "zipfile.BadZipFile"
  | ConnectionError _ => "requests.exceptions.ConnectionError"
  | HTTPError _ => "requests.exceptions.HTTPError"
  | CalledProcessError _ _ => "subprocess.CalledProcessError"
  end.

Definition format_exc (e : exn) : string :=
  "Traceback (most recent call last):" +:+ LF +:+ exn_name e +:+ LF.

(** The [while] loop of lines 234-235:
    [while len(version.split('.')) < 3: version = version + '.0'] *)
Equations? pad_version (version : string) : string
    by wf (3 - length (Str.split "." version)) lt :=
  pad_version version with decide (length (Str.split "." version) < 3) => {
    | left _ := pad_version (version +:+ ".0");
    | right _ := version }.
Proof.
  assert (Hne : forall s, Str.split "." s <> []).
  { clear. intros [|c s]; simpl; [done|].
    destruct (Ascii.eqb c "."); [done|]. by destruct (Str.split "." s). }
  assert (Hlen : forall s, length (Str.split "." (s +:+ ".0")) = S (length (Str.split "." s))).
  { clear -Hne. induction s as [|c s IH]; simpl; [reflexivity|].
    destruct (Ascii.eqb c "."); simpl; [by rewrite IH|].
    pose proof (Hne s). pose proof (Hne (s +:+ ".0")).
    destruct (Str.split "." (s +:+ ".0")) eqn:E1, (Str.split "." s) eqn:E2;
      simpl in *; try done; lia. }
  rewrite Hlen. lia.
Qed.

(** ** The functions of setup_ts.py *)

Section Script.

Variable E : Env.
Variable G : Globals.

Definition environ_get (key : string) : option string := environ E !! key.

Definition _print (msg : string) (c : color) : M unit :=
  let color_code := match c with yellow => "33" | cyan => "36" end in
  if String.eqb (sys_platform E) "win32" then print msg
  else print (ESC +:+ "[1;" +:+ color_code +:+ "m# " +:+ msg +:+ " " +:+ ESC +:+ "[0m").

Definition _yarn (path : string) (args : list string) : M unit :=
  if truthy (environ_get "GLOBAL_TOOLCHAIN")
  then subprocess_run E ("yarn" :: args) path None
  else subprocess_run E (_yarn_path G :: args) path (Some (_yarn_env_PATH G)).

(** The text [os.path.relpath(target, link.parent)] is what the link
    holds; the node records [target], the path that text stands for
    in the directory of the link. *)
Definition _symlink (target link : path) : M unit :=
  d <- is_dir target ;;
  symlink_to link target d.

Definition download_toolchain : M unit :=
  present <- is_file (Path2 "toolchain/node" (node_executable_in_tarball G)) ;;
  if present then ret tt
  else
    mkdir (Path! "toolchain") true ;;
    _print ("Downloading node.js from " +:+ node_download_url G) cyan ;;
    resp <- requests_get_ E (node_download_url G) ;;
    raise_for_status resp ;;
    _print "Extracting node.js" cyan ;;
    tarball <- lift (node_extractor G (resp_content resp)) ;;
    extractall tarball (Path! "toolchain") ;;
    rmtree (Path! "toolchain/node") true ;;
    rename E (Path2 "toolchain" (node_spec G)) (Path! "toolchain/node") ;;
    _print ("Downloading yarn from " +:+ yarn_download_url G) cyan ;;
    resp <- requests_get_ E (yarn_download_url G) ;;
    raise_for_status resp ;;
    _print "Extracting yarn" cyan ;;
    tarball <- lift (tarfile_open tar_gz (resp_content resp)) ;;
    extractall tarball (Path! "toolchain") ;;
    rmtree (Path! "toolchain/yarn") true ;;
    rename E (Path! ("toolchain/yarn-" +:+ yarn_version)) (Path! "toolchain/yarn").

Definition update_package : M unit :=
  when (String.eqb (jupyter_lab_major_version E) "2")
    (package_json <- json_load E (Path! "ts/jupyter_extension/package.json") ;;
     json_dump package_json (Path! "ts/jupyter_extension/.package_default.json") ;;
     scripts <- getitem package_json "scripts" ;;
     scripts <- setitem scripts "build" (JStr "tsc && jupyter labextension link .") ;;
     package_json <- setitem package_json "scripts" scripts ;;
     dependencies <- getitem package_json "dependencies" ;;
     dependencies <- setitem dependencies "@jupyterlab/application" (JStr "^2.3.0") ;;
     package_json <- setitem package_json "dependencies" dependencies ;;
     dependencies <- getitem package_json "dependencies" ;;
     dependencies <- setitem dependencies "@jupyterlab/launcher" (JStr "^2.3.0") ;;
     package_json <- setitem package_json "dependencies" dependencies ;;
     jupyterlab <- getitem package_json "jupyterlab" ;;
     jupyterlab <- setitem jupyterlab "outputDir" (JStr "build") ;;
     package_json <- setitem package_json "jupyterlab" jupyterlab ;;
     json_dump package_json (Path! "ts/jupyter_extension/package.json") ;;
     emit (PrintedDoc "updated package.json with " package_json)).

Definition restore_package : M unit :=
  when (String.eqb (jupyter_lab_major_version E) "2")
    (package_json <- json_load E (Path! "ts/jupyter_extension/.package_default.json") ;;
     emit (PrintedDoc "stored package.json with " package_json) ;;
     json_dump package_json (Path! "ts/jupyter_extension/package.json") ;;
     unlink (Path! "ts/jupyter_extension/.package_default.json")).

Definition prepare_nni_node : M unit :=
  rmtree (Path! "nni_node") true ;;
  mkdir (Path! "nni_node") false ;;
  write_file (Path! "nni_node/__init__.py")
    (Raw (QUOTE +:+ QUOTE +:+ QUOTE +:+ "NNI node.js modules."
          +:+ QUOTE +:+ QUOTE +:+ QUOTE +:+ LF)) ;;
  let node_src := Path2 "toolchain/node" (node_executable_in_tarball G) in
  let node_dst := Path2 "nni_node" (node_executable G) in
  copy node_src node_dst.

Definition compile_ts (release : option string) : M unit :=
  _print "Building NNI manager" cyan ;;
  _yarn "ts/nni_manager" [] ;;
  _yarn "ts/nni_manager" ["build"] ;;
  rmtree (Path! "ts/nni_manager/dist/config") true ;;
  copytree (Path! "ts/nni_manager/config") (Path! "ts/nni_manager/dist/config") ;;
  _print "Building web UI" cyan ;;
  _yarn "ts/webui" [] ;;
  _yarn "ts/webui" ["build"] ;;
  _print "Building JupyterLab extension" cyan ;;
  if truthy release then
    _yarn "ts/jupyter_extension" [] ;;
    _yarn "ts/jupyter_extension" ["build"]
  else
    try_except
      (_yarn "ts/jupyter_extension" [] ;;
       _yarn "ts/jupyter_extension" ["build"])
      (fun e =>
         _print "Failed to build JupyterLab extension, skip for develop mode" yellow ;;
         _print (format_exc e) yellow).

(** Lines 209-213: the notebook extension, linked. *)
Definition symlink_jupyter : M unit :=
  if String.eqb (jupyter_lab_major_version E) "2" then
    _symlink (Path! "ts/jupyter_extension/build") (Path! "nni_node/jupyter-extension") ;;
    _symlink (Path (os_path_join (sys_exec_prefix E) "share/jupyter/lab/extensions"))
             (Path! "nni_node/jupyter-extension/extensions")
  else
    there <- exists_ (Path! "ts/jupyter_extension/dist") ;;
    if there then
      _symlink (Path! "ts/jupyter_extension/dist") (Path! "nni_node/jupyter-extension")
    else ret tt.

Definition symlink_nni_node : M unit :=
  _print "Creating symlinks" cyan ;;
  names <- iterdir (Path! "ts/nni_manager/dist") ;;
  for_ names
    (fun nm => _symlink (child (Path! "ts/nni_manager/dist") nm) (child (Path! "nni_node") nm)) ;;
  _symlink (Path! "ts/nni_manager/package.json") (Path! "nni_node/package.json") ;;
  _symlink (Path! "ts/nni_manager/node_modules") (Path! "nni_node/node_modules") ;;
  _symlink (Path! "ts/webui/build") (Path! "nni_node/static") ;;
  symlink_jupyter.

(** Lines 227-230: one round of the loop over the manager module's
    build output. *)
Definition copy_entry (nm : string) : M unit :=
  let path := child (Path! "ts/nni_manager/dist") nm in
  d <- is_dir path ;;
  if d then copytree path (child (Path! "nni_node") nm)
  else if negb (String.eqb nm "nni_manager.tsbuildinfo")
       then copyfile path (child (Path! "nni_node") nm)
       else ret tt.

(** Lines 226-230: the entries of the manager module's build output. *)
Definition copy_dist_entries : M unit :=
  names <- iterdir (Path! "ts/nni_manager/dist") ;;
  for_ names copy_entry.

(** Lines 232-237: the manifest of the output directory. *)
Definition write_manifest (version : option string) : M unit :=
  package_json <- json_load E (Path! "ts/nni_manager/package.json") ;;
  package_json <-
    (if truthy version
     then setitem package_json "version" (JStr (pad_version (default "" version)))
     else ret package_json) ;;
  json_dump package_json (Path! "nni_node/package.json").

(** Lines 244-248: the notebook extension, copied. *)
Definition copy_jupyter (version : option string) : M unit :=
  if String.eqb (jupyter_lab_major_version E) "2" then
    copytree (Path! "ts/jupyter_extension/build") (Path! "nni_node/jupyter-extension/build") ;;
    copytree (Path (os_path_join (sys_exec_prefix E) "share/jupyter/lab/extensions"))
             (Path! "nni_node/jupyter-extension/extensions")
  else
    there <- (if truthy version then ret true
              else exists_ (Path! "ts/jupyter_extension/dist")) ;;
    if there then
      copytree (Path! "ts/jupyter_extension/dist") (Path! "nni_node/jupyter-extension")
    else ret tt.

Definition copy_nni_node (version : option string) : M unit :=
  _print "Copying files" cyan ;;
  copy_dist_entries ;;
  write_manifest version ;;
  _yarn "ts/nni_manager" ["--prod"; "--cwd"; cwd E +:+ "/nni_node"] ;;
  copytree (Path! "ts/webui/build") (Path! "nni_node/static") ;;
  copy_jupyter version.

Definition build (release : option string) : M unit :=
  when (truthy release || negb (truthy (environ_get "GLOBAL_TOOLCHAIN")))
    download_toolchain ;;
  prepare_nni_node ;;
  update_package ;;
  compile_ts release ;;
  (if truthy release || String.eqb (sys_platform E) "win32"
   then copy_nni_node release
   else symlink_nni_node) ;;
  restore_package.

Definition clean (clean_all : bool) : M unit :=
  rmtree (Path! "nni_node") true ;;
  for_ generated_files
    (fun file_or_dir =>
       let path := Path file_or_dir in
       l <- is_symlink path ;;
       f <- (if l then ret true else is_file path) ;;
       if f then unlink path
       else
         d <- is_dir path ;;
         if d then rmtree path false else ret tt) ;;
  when clean_all (rmtree (Path! "toolchain") true).

End Script.

(** ** A sample checkout

    A small tree and environments on which the functions are run: the
    three modules with their manifests and build outputs, and a
    toolchain that was downloaded before. *)

Module Sample.

Definition dir (entries : list (string * node)) : node := Dir (list_to_map entries).

Definition obj (fields : list (string * json)) : json := JObj (list_to_map fields).

Definition manager_manifest : json :=
  obj [("name", JStr "nni"); ("version", JStr "999.0.0-developing")].

(** The extension manifest as [update_package] rewrites it. *)
Definition patched_extension_manifest : json :=
  obj [("name", JStr "nni-jupyter-extension");
       ("scripts", obj [("build", JStr "tsc && jupyter labextension link .")]);
       ("dependencies", obj [("@jupyterlab/application", JStr "^2.3.0");
                             ("@jupyterlab/launcher", JStr "^2.3.0")]);
       ("jupyterlab", obj [("extension", JBool true); ("outputDir", JStr "build")])].

Definition extension_manifest : json :=
  obj [("name", JStr "nni-jupyter-extension");
       ("scripts", obj [("build", JStr "tsc && jupyter labextension build .")]);
       ("dependencies", obj [("@jupyterlab/application", JStr "^3.0.11")]);
       ("jupyterlab", obj [("extension", JBool true); ("outputDir", JStr "dist")])].

Definition toolchain : node :=
  dir [("node", dir [("bin", dir [("node", File (Raw "node-binary"))])]);
       ("yarn", dir [("bin", dir [("yarn", File (Raw "yarn-script"))])])].

(** The build output of the manager module, and the output directory
    as [prepare_nni_node] leaves it. *)
Definition dist : gmap string node :=
  list_to_map [("main.js", File (Raw "main"));
               ("nni_manager.tsbuildinfo", File (Raw "build-cache"));
               ("common", dir [("log.js", File (Raw "log"))])].

Definition output : gmap string node :=
  list_to_map [("__init__.py", File (Raw "marker"));
               ("node", File (Raw "node-binary"))].

Definition ts : node :=
  dir [("nni_manager",
        dir [("package.json", File (JsonText manager_manifest));
             ("config", dir [("default.yml", File (Raw "config"))]);
             ("node_modules", dir []);
             ("dist", Dir dist)]);
       ("webui", dir [("build", dir [("index.html", File (Raw "html"))])]);
       ("jupyter_extension",
        dir [("package.json", File (JsonText extension_manifest))])].

(** The checkout with the toolchain, a fresh one without, and one
    with the output directory as [prepare_nni_node] leaves it. *)
Definition tree : node := dir [("toolchain", toolchain); ("ts", ts)].
Definition fresh_tree : node := dir [("ts", ts)].
Definition windows_tree : node :=
  dir [("toolchain", dir [("node", dir [("node.exe", File (Raw "node-binary"))])]);
       ("ts", ts)].
Definition prepared_tree : node :=
  dir [("toolchain", toolchain); ("ts", ts); ("nni_node", Dir output)].

(** A package manager that always succeeds and changes nothing, and
    one whose runs in [failing] end with return code 1. *)
Definition yarn_ok (argv : list string) (cwd : string) (env_PATH : option string)
    (t : node) : outcome * node :=
  (Exit 0, t).

Definition yarn_failing_in (failing : string) (argv : list string) (cwd : string)
    (env_PATH : option string) (t : node) : outcome * node :=
  if String.eqb cwd failing then (Exit 1, t) else (Exit 0, t).

Definition env (platform : string) (jupyterlab : option string)
    (GLOBAL_TOOLCHAIN : option string)
    (yarn : list string -> string -> option string -> node -> outcome * node) : Env :=
  {| sys_platform := platform;
     sys_exec_prefix := "/usr";
     environ :=
       match GLOBAL_TOOLCHAIN with
       | Some v => <["GLOBAL_TOOLCHAIN" := v]> {["PATH" := "/usr/bin"]}
       | None => {["PATH" := "/usr/bin"]}
       end;
     cwd := "/home/dev/nni";
     jupyterlab_version := jupyterlab;
     requests_get := fun _ => None;
     subprocess := yarn;
     json_loads := fun _ => None |}.

(** The bindings of the module on a platform, as [load] computes them
    in [env]. *)
Definition platform_of (platform : string) : Platform :=
  match platform_branch platform with
  | Ok P => P
  | Raise _ =>
      {| node_executable := ""; node_spec := ""; node_download_url := "";
         node_extractor := ZipFile; node_executable_in_tarball := "";
         yarn_executable := ""; yarn_download_url := ""; path_env_seperator := "" |}
  end.

Definition globals (platform : string) : Globals :=
  let P := platform_of platform in
  {| plat := P;
     _yarn_env_PATH := "/home/dev/nni/nni_node" +:+ path_env_seperator P +:+ "/usr/bin";
     _yarn_path := "/home/dev/nni/toolchain/yarn/bin/" +:+ yarn_executable P |}.

Definition start (t : node) : state := State t [].

(** The two archives of the toolchain for Linux, and a network that
    serves them. *)
Definition node_archive : list (string * member) :=
  [("node-v16.3.0-linux-x64", MDir);
   ("node-v16.3.0-linux-x64/bin", MDir);
   ("node-v16.3.0-linux-x64/bin/node", MFile (Raw "node-binary"));
   ("node-v16.3.0-linux-x64/README.md", MFile (Raw "readme"))].

Definition yarn_archive : list (string * member) :=
  [("yarn-v1.22.10/bin/yarn", MFile (Raw "yarn-script"));
   ("yarn-v1.22.10/package.json", MFile (Raw "yarn-manifest"))].

Definition node_url : string :=
  Eval vm_compute in node_download_url (platform_of "linux").

Definition yarn_url : string :=
  Eval vm_compute in yarn_download_url (platform_of "linux").

Definition mirror (url : string) : option response :=
  if String.eqb url node_url then Some (Response 200 (Archive tar_xz node_archive))
  else if String.eqb url yarn_url then Some (Response 200 (Archive tar_gz yarn_archive))
  else None.

Definition online : Env :=
  {| sys_platform := "linux";
     sys_exec_prefix := "/usr";
     environ := {["PATH" := "/usr/bin"]};
     cwd := "/home/dev/nni";
     jupyterlab_version := Some "3.0.14";
     requests_get := mirror;
     subprocess := yarn_ok;
     json_loads := fun _ => None |}.

End Sample.

(** ** Predicates used in the statements *)

(** Two paths part ways: at some position both have a component and
    the components differ. *)
Fixpoint diverge (p q : path) : bool :=
  match p, q with
  | a :: p', b :: q' => if String.eqb a b then diverge p' q' else true
  | _, _ => false
  end.

(** No symbolic link is met when [p] is walked from [n], the last
    component included. *)
Fixpoint linkfree (n : node) (p : path) {struct p} : bool :=
  match n with
  | Symlink _ => false
  | File _ => true
  | Dir es =>
      match p with
      | [] => true
      | c :: p' =>
          match es !! c with
          | Some m => linkfree m p'
          | None => true
          end
      end
  end.

(** The two results are the same kind of node; files and links are
    equal, directories may differ in what they hold. *)
Definition same_kind (o1 o2 : option node) : Prop :=
  match o1, o2 with
  | None, None => True
  | Some (File c1), Some (File c2) => c1 = c2
  | Some (Symlink t1), Some (Symlink t2) => t1 = t2
  | Some (Dir _), Some (Dir _) => True
  | _, _ => False
  end.

(** A computation keeps an invariant of the state, whether it returns
    or raises. *)
Definition preserves {A} (I : state -> Prop) (m : M A) : Prop :=
  forall s, I s -> I (snd (m s)).

(** The requests made, in a trace. *)
Definition is_HttpGet (ev : event) : bool :=
  match ev with HttpGet _ => true | _ => false end.

Definition downloads (tr : list event) : list event := List.filter is_HttpGet tr.

(** [top] is a directory of the tree and none of its entries is a
    symbolic link. *)
Definition plain_dir (top : string) (t : node) : Prop :=
  is_Dir (walk t [top]) = true /\ forall nm, is_Symlink (walk t [top; nm]) = false.

(** What became of an entry of the build output in the output
    directory: a directory and a regular file are there as they are in
    the source, except the build cache, which is not written. *)
Definition entry_copied (t0 t' : node) (nm : string) (n : node) : Prop :=
  match n with
  | Dir d => walk t' ["nni_node"; nm] = Some (Dir d)
  | File f =>
      walk t' ["nni_node"; nm]
      = if String.eqb nm "nni_manager.tsbuildinfo" then walk t0 ["nni_node"; nm]
        else Some (File f)
  | Symlink _ => True
  end.

(** Which arm of the notebook-extension conditional runs. *)
Inductive jupyter_arm : Type := legacy_arm | newer_arm | no_arm.

(** The conditions of lines 209 and 212. *)
Definition symlink_jupyter_arm (E : Env) (t : node) : jupyter_arm :=
  if String.eqb (jupyter_lab_major_version E) "2" then legacy_arm
  else if is_Some_node (stat t (Path! "ts/jupyter_extension/dist")) then newer_arm
  else no_arm.

(** The conditions of lines 244 and 247. *)
Definition copy_jupyter_arm (E : Env) (version : option string) (t : node) : jupyter_arm :=
  if String.eqb (jupyter_lab_major_version E) "2" then legacy_arm
  else if truthy version || is_Some_node (stat t (Path! "ts/jupyter_extension/dist"))
       then newer_arm
  else no_arm.


(** The processes started, in a trace. *)
Definition is_Run (ev : event) : bool :=
  match ev with Run _ _ _ => true | _ => false end.

Definition runs (tr : list event) : list event := List.filter is_Run tr.

(** The process that [_yarn(path, *args)] starts (lines 256-260). *)
Definition yarn_event (E : Env) (G : Globals) (path : string) (args : list string) : event :=
  if truthy (environ_get E "GLOBAL_TOOLCHAIN") then Run ("yarn" :: args) path None
  else Run (_yarn_path G :: args) path (Some (_yarn_env_PATH G)).

(** The calls of [_yarn] in [compile_ts] (lines 172-189), in the order
    of the text; and the one of the assembler that [build] chooses, the
    reinstall of line 240 when it is the copy strategy. *)
Definition compile_commands (E : Env) (G : Globals) : list event :=
  [yarn_event E G "ts/nni_manager" [];
   yarn_event E G "ts/nni_manager" ["build"];
   yarn_event E G "ts/webui" [];
   yarn_event E G "ts/webui" ["build"];
   yarn_event E G "ts/jupyter_extension" [];
   yarn_event E G "ts/jupyter_extension" ["build"]].

Definition assemble_commands (E : Env) (G : Globals) (release : option string)
    : list event :=
  if truthy release || String.eqb (sys_platform E) "win32"
  then [yarn_event E G "ts/nni_manager" ["--prod"; "--cwd"; cwd E +:+ "/nni_node"]]
  else [].

(** [m] starts the processes [cmds], in this order and no other, as far
    as it gets; when it returns it has started the first [least] of them
    at least. *)
Definition runs_prefix {A} (cmds : list event) (least : nat) (m : M A) : Prop :=
  forall s, exists k,
    k <= length cmds /\
    runs (trace (snd (m s))) = runs (trace s) ++ firstn k cmds /\
    (forall a, fst (m s) = Ok a -> least <= k).
(** * Properties *)

(** ** The monad *)

Lemma bind_Ok {A B} (m : M A) (k : A -> M B) s a s' :
  m s = (Ok a, s') -> bind m k s = k a s'.
Proof. intros H. unfold bind. by rewrite H. Qed.

Lemma bind_Raise {A B} (m : M A) (k : A -> M B) s e s' :
  m s = (Raise e, s') -> bind m k s = (Raise e, s').
Proof. intros H. unfold bind. by rewrite H. Qed.

Lemma bind_inv_Ok {A B} (m : M A) (k : A -> M B) s b s2 :
  bind m k s = (Ok b, s2) ->
  exists a s1, m s = (Ok a, s1) /\ k a s1 = (Ok b, s2).
Proof.
  unfold bind. destruct (m s) as [[a|e] s1]; [eauto | discriminate].
Qed.

Lemma bind_assoc {A B C} (m : M A) (f : A -> M B) (g : B -> M C) s :
  bind (bind m f) g s = bind m (fun x => bind (f x) g) s.
Proof. unfold bind. by destruct (m s) as [[a|e] s1]. Qed.

Lemma for_app {A} (l1 l2 : list A) (body : A -> M unit) s :
  for_ (l1 ++ l2) body s = bind (for_ l1 body) (fun _ => for_ l2 body) s.
Proof.
  revert s. induction l1 as [|x l1 IH]; intros s; simpl; [reflexivity|].
  unfold bind. destruct (body x s) as [[[]|e] s1]; [|reflexivity].
  rewrite IH. reflexivity.
Qed.

(** ** Strings *)

Lemma split_nonempty sep s : Str.split sep s <> [].
Proof.
  destruct s as [|c s]; simpl; [done|].
  destruct (Ascii.eqb c sep); [done|]. by destruct (Str.split sep s).
Qed.

Lemma split_append_zero s :
  length (Str.split "." (s +:+ ".0")) = S (length (Str.split "." s)).
Proof.
  induction s as [|c s IH]; simpl; [reflexivity|].
  destruct (Ascii.eqb c "."); simpl; [by rewrite IH|].
  pose proof (split_nonempty "." s). pose proof (split_nonempty "." (s +:+ ".0")).
  destruct (Str.split "." (s +:+ ".0")) eqn:E1, (Str.split "." s) eqn:E2;
    simpl in *; try done; lia.
Qed.

Lemma split_append_zeros k s :
  length (Str.split "." (Str.append_zeros k s)) = k + length (Str.split "." s).
Proof.
  revert s. induction k as [|k IH]; intros s; simpl; [reflexivity|].
  rewrite IH, split_append_zero. lia.
Qed.

(** The loop appends [".0"] exactly as often as parts are missing. *)
Lemma pad_version_zeros version :
  pad_version version
  = Str.append_zeros (3 - length (Str.split "." version)) version.
Proof.
  remember (3 - length (Str.split "." version)) as k eqn:Hk.
  revert version Hk. induction k as [|k IH]; intros version Hk.
  - rewrite pad_version_equation_1. simpl.
    destruct (decide (length (Str.split "." version) < 3)); simpl; [lia|reflexivity].
  - rewrite pad_version_equation_1. simpl.
    destruct (decide (length (Str.split "." version) < 3)); simpl; [|lia].
    apply IH. rewrite split_append_zero. lia.
Qed.

(** ** Reading a document does not change the state *)

Lemma read_file_state p s r s1 : read_file p s = (r, s1) -> s1 = s.
Proof.
  unfold read_file, bind, get_fs. destruct (stat (fs s) p) as [[c|es|t]|];
    unfold ret, raise; congruence.
Qed.

Lemma json_load_state E p s r s1 : json_load E p s = (r, s1) -> s1 = s.
Proof.
  unfold json_load, bind. destruct (read_file p s) as [[c|e] s2] eqn:Hr.
  - apply read_file_state in Hr. subst s2.
    destruct c as [text|doc]; [destruct (json_loads E text)|];
      unfold ret, raise; congruence.
  - apply read_file_state in Hr. congruence.
Qed.


(** ** The directory tree: walking after an update *)

Lemma walk_app n p q :
  walk n (p ++ q) = match walk n p with Some m => walk m q | None => None end.
Proof.
  revert n. induction p as [|c p IH]; intros n; simpl; [reflexivity|].
  destruct n as [?|es|?]; try reflexivity.
  destruct (es !! c); [apply IH | reflexivity].
Qed.

Lemma parent_cons c c' p : parent (c :: c' :: p) = c :: parent (c' :: p).
Proof. reflexivity. Qed.

Lemma parent_snoc p c : parent (p ++ [c]) = p.
Proof. unfold parent. apply removelast_last. Qed.

Lemma name_snoc p c : name (p ++ [c]) = c.
Proof. unfold name. apply last_last. Qed.

Lemma parent_name p : p <> [] -> p = parent p ++ [name p].
Proof. intros H. unfold parent, name. by apply app_removelast_last. Qed.

(** A node that is reached has a directory above it. *)
Lemma walk_parent n p x :
  walk n p = Some x -> p <> [] -> is_Dir (walk n (parent p)) = true.
Proof.
  revert n. induction p as [|c p IH]; intros n Hw Hne; [done|].
  destruct p as [|c' p].
  - simpl in *. by destruct n as [?|es|?].
  - rewrite parent_cons. simpl in Hw |- *.
    destruct n as [?|es|?]; try discriminate.
    destruct (es !! c) as [m|]; [|discriminate].
    by apply IH.
Qed.

Lemma walk_put_same n p x :
  p <> [] -> is_Dir (walk n (parent p)) = true -> walk (put n p x) p = Some x.
Proof.
  revert n. induction p as [|c p IH]; intros n Hne Hd; [done|].
  destruct p as [|c' p].
  - simpl in *. destruct n as [?|es|?]; try discriminate.
    destruct (es !! c); simpl; by rewrite lookup_insert_eq.
  - rewrite parent_cons in Hd. simpl in Hd.
    destruct n as [?|es|?]; try discriminate.
    destruct (es !! c) as [m|] eqn:Hm; [|discriminate].
    cbn [put]. rewrite Hm. cbn [walk]. rewrite lookup_insert_eq.
    by apply IH.
Qed.

Lemma diverge_nil_r p : diverge p [] = false.
Proof. by destruct p. Qed.

Lemma diverge_sym p q : diverge p q = diverge q p.
Proof.
  revert q. induction p as [|a p IH]; intros [|b q]; simpl; try reflexivity.
  rewrite (String.eqb_sym b a). destruct (String.eqb a b); [apply IH|reflexivity].
Qed.

Lemma walk_put_diverge n p q x :
  diverge p q = true -> walk (put n q x) p = walk n p.
Proof.
  revert n q. induction p as [|a p IH]; intros n [|b q] Hd; try discriminate.
  cbn [diverge] in Hd. cbn [put].
  destruct n as [?|es|?]; try reflexivity.
  destruct (String.eqb_spec a b) as [->|Hab].
  - destruct (es !! b) as [m|] eqn:Hm.
    + cbn [walk]. rewrite lookup_insert_eq, Hm. by apply IH.
    + destruct q; [by rewrite diverge_nil_r in Hd | reflexivity].
  - destruct (es !! b) as [m|] eqn:Hm.
    + cbn [walk]. by rewrite lookup_insert_ne.
    + destruct q; [|reflexivity]. cbn [walk]. by rewrite lookup_insert_ne.
Qed.

(** Writing below a path leaves the kind of node at the path. *)
Lemma walk_put_above n p c r x :
  same_kind (walk (put n (p ++ c :: r) x) p) (walk n p).
Proof.
  revert n. induction p as [|a p IH]; intros n.
  - cbn [app walk put]. destruct n as [f|es|t]; simpl; try done.
    destruct (es !! c), r; done.
  - cbn [app put]. destruct n as [f|es|t]; simpl; try done.
    destruct (es !! a) as [m|] eqn:Hm.
    + rewrite lookup_insert_eq. apply IH.
    + destruct (p ++ c :: r) eqn:Hp; [by destruct p|]. cbn [walk]. rewrite Hm. done.
Qed.

Lemma walk_del_same n p : p <> [] -> walk (del n p) p = None.
Proof.
  revert n. induction p as [|c p IH]; intros n Hne; [done|].
  cbn [del]. destruct n as [f|es|t]; try reflexivity.
  destruct p as [|c' p].
  - cbn [walk]. by rewrite lookup_delete_eq.
  - destruct (es !! c) as [m|] eqn:Hm.
    + cbn [walk]. rewrite lookup_insert_eq. by apply IH.
    + cbn [walk]. by rewrite Hm.
Qed.

Lemma walk_del_diverge n p q :
  diverge p q = true -> walk (del n q) p = walk n p.
Proof.
  revert n q. induction p as [|a p IH]; intros n [|b q] Hd; try discriminate.
  cbn [diverge] in Hd. cbn [del].
  destruct n as [?|es|?]; try reflexivity.
  destruct (String.eqb_spec a b) as [->|Hab].
  - destruct q as [|b' q]; [by rewrite diverge_nil_r in Hd|].
    destruct (es !! b) as [m|] eqn:Hm; [|reflexivity].
    cbn [walk]. rewrite lookup_insert_eq, Hm. by apply IH.
  - destruct q as [|b' q].
    + cbn [walk]. by rewrite lookup_delete_ne.
    + destruct (es !! b) as [m|] eqn:Hm; [|reflexivity].
      cbn [walk]. by rewrite lookup_insert_ne.
Qed.

(** What is missing stays missing when something is removed. *)
Lemma walk_del_None n p q : walk n p = None -> walk (del n q) p = None.
Proof.
  revert n q. induction p as [|a p IH]; intros n q Hw; [discriminate|].
  destruct q as [|b q]; [exact Hw|].
  cbn [del]. destruct n as [?|es|?]; try reflexivity.
  destruct q as [|b' q].
  - cbn [walk] in *. destruct (decide (b = a)) as [->|Hne].
    + by rewrite lookup_delete_eq.
    + rewrite lookup_delete_ne by done. exact Hw.
  - destruct (es !! b) as [m|] eqn:Hm; [|exact Hw].
    cbn [walk] in *. destruct (decide (b = a)) as [->|Hne].
    + rewrite lookup_insert_eq. rewrite Hm in Hw. by apply IH.
    + rewrite lookup_insert_ne by done. exact Hw.
Qed.

Lemma same_kind_refl o : same_kind o o.
Proof. by destruct o as [[?|?|?]|]. Qed.

Lemma del_cons_ne es a q :
  q <> [] ->
  del (Dir es) (a :: q)
  = match es !! a with Some m => Dir (<[a := del m q]> es) | None => Dir es end.
Proof. by destruct q. Qed.

Lemma walk_del_above n p c r :
  same_kind (walk (del n (p ++ c :: r)) p) (walk n p).
Proof.
  revert n. induction p as [|a p IH]; intros n.
  - cbn [app walk del]. destruct n as [f|es|t]; simpl; try done.
    destruct r; [done|]. by destruct (es !! c).
  - cbn [app]. destruct n as [f|es|t]; try (cbn [del]; apply same_kind_refl).
    rewrite del_cons_ne by (by destruct p).
    destruct (es !! a) as [m|] eqn:Hm.
    + cbn [walk]. rewrite lookup_insert_eq, Hm. apply IH.
    + apply same_kind_refl.
Qed.

Lemma same_kind_Dir o1 o2 : same_kind o1 o2 -> is_Dir o1 = is_Dir o2.
Proof. destruct o1 as [[?|?|?]|], o2 as [[?|?|?]|]; simpl; done. Qed.

Lemma same_kind_File o c : same_kind o (Some (File c)) -> o = Some (File c).
Proof. destruct o as [[?|?|?]|]; simpl; try done. by intros ->. Qed.

Lemma same_kind_None o : same_kind o None -> o = None.
Proof. by destruct o as [[?|?|?]|]. Qed.

(** ** Path resolution where no link is met *)

Lemma resolve_nil links root follow cur done :
  resolve links root follow cur done [] = Some done.
Proof. by destruct links. Qed.

Lemma resolve_cons links root follow cur done c rest :
  resolve links root follow cur done (c :: rest)
  = match cur with
    | Dir es =>
        match es !! c with
        | Some (Symlink t) =>
            if negb follow && bool_decide (rest = []) then Some (done ++ [c])
            else match links with
                 | O => None
                 | S l => resolve l root follow root [] (t ++ rest)
                 end
        | Some m => resolve links root follow m (done ++ [c]) rest
        | None => match rest with [] => Some (done ++ [c]) | _ :: _ => None end
        end
    | _ => None
    end.
Proof.
  destruct links; destruct cur as [?|es|?]; try reflexivity;
    destruct (es !! c) as [[?|?|?]|]; reflexivity.
Qed.

Lemma linkfree_Symlink t p : linkfree (Symlink t) p = false.
Proof. by destruct p. Qed.

Lemma linkfree_File c p : linkfree (File c) p = true.
Proof. by destruct p. Qed.

Lemma linkfree_cons es c p :
  linkfree (Dir es) (c :: p)
  = match es !! c with Some m => linkfree m p | None => true end.
Proof. reflexivity. Qed.

(** Below, [ends_real follow cur rest] says that no link has to be
    traversed to resolve [rest] from [cur]: none is met before the last
    component, nor at the last one when links are followed. *)
Definition ends_real (follow : bool) (cur : node) (rest : path) : bool :=
  if follow then linkfree cur rest else linkfree cur (parent rest).

Lemma ends_real_step follow es c m c' rest :
  es !! c = Some m ->
  ends_real follow (Dir es) (c :: c' :: rest) = ends_real follow m (c' :: rest).
Proof.
  intros Hm. unfold ends_real. rewrite parent_cons, !linkfree_cons, Hm.
  reflexivity.
Qed.

Lemma resolve_real links root follow rest : forall cur done,
  ends_real follow cur rest = true ->
  resolve links root follow cur done rest
  = match rest with
    | [] => Some done
    | _ :: _ => if is_Dir (walk cur (parent rest)) then Some (done ++ rest) else None
    end.
Proof.
  induction rest as [|c rest IH]; intros cur done Hreal.
  - apply resolve_nil.
  - rewrite resolve_cons. destruct cur as [f|es|t].
    + destruct rest; reflexivity.
    + destruct rest as [|c' rest].
      * cbn [parent removelast walk is_Dir].
        destruct (es !! c) as [[?|?|t]|] eqn:Hc; try (rewrite resolve_nil; reflexivity);
          try reflexivity.
        destruct follow; [|reflexivity].
        unfold ends_real in Hreal. rewrite linkfree_cons, Hc in Hreal.
        by rewrite linkfree_Symlink in Hreal.
      * destruct (es !! c) as [m|] eqn:Hc.
        -- rewrite (ends_real_step _ _ _ _ _ _ Hc) in Hreal.
           assert (Hm : forall t, m <> Symlink t).
           { intros t ->. unfold ends_real in Hreal.
             destruct follow; by rewrite linkfree_Symlink in Hreal. }
           rewrite parent_cons. cbn [walk]. rewrite Hc.
           replace (done ++ c :: c' :: rest) with ((done ++ [c]) ++ c' :: rest)
             by (by rewrite <- app_assoc).
           destruct m as [f|es'|t]; [| |by destruct (Hm t)];
             rewrite (IH _ _ Hreal); reflexivity.
        -- rewrite parent_cons. cbn [walk]. rewrite Hc. reflexivity.
    + destruct rest as [|c' rest]; [reflexivity|].
      unfold ends_real in Hreal. rewrite parent_cons in Hreal.
      destruct follow; by rewrite linkfree_Symlink in Hreal.
Qed.

Lemma walk_None_parent n p :
  p <> [] -> is_Dir (walk n (parent p)) = false -> walk n p = None.
Proof.
  intros Hne Hd. destruct (walk n p) eqn:Hw; [|reflexivity].
  by rewrite (walk_parent _ _ _ Hw Hne) in Hd.
Qed.

Lemma locate_real t follow p :
  ends_real follow t p = true ->
  locate t follow p
  = match p with
    | [] => Some []
    | _ :: _ => if is_Dir (walk t (parent p)) then Some p else None
    end.
Proof. intros H. unfold locate. by rewrite resolve_real. Qed.

Lemma stat_real t p : linkfree t p = true -> stat t p = walk t p.
Proof.
  intros H. unfold stat. rewrite locate_real by exact H.
  destruct p as [|c p]; [reflexivity|].
  destruct (is_Dir (walk t (parent (c :: p)))) eqn:Hd; [reflexivity|].
  symmetry. by apply walk_None_parent.
Qed.

Lemma lstat_real t p : linkfree t (parent p) = true -> lstat t p = walk t p.
Proof.
  intros H. unfold lstat. rewrite locate_real by exact H.
  destruct p as [|c p]; [reflexivity|].
  destruct (is_Dir (walk t (parent (c :: p)))) eqn:Hd; [reflexivity|].
  symmetry. by apply walk_None_parent.
Qed.

(** A path that is walked through directories meets no link, except
    perhaps at its end. *)
Lemma linkfree_walk n p x :
  walk n p = Some x -> is_Symlink (Some x) = false -> linkfree n p = true.
Proof.
  revert n. induction p as [|c p IH]; intros n Hw Hx.
  - simpl in Hw. injection Hw as ->. by destruct x.
  - simpl in Hw. destruct n as [?|es|?]; try discriminate.
    rewrite linkfree_cons. destruct (es !! c) as [m|]; [|discriminate].
    by apply IH.
Qed.

Lemma linkfree_parent_walk n p :
  is_Dir (walk n (parent p)) = true -> linkfree n (parent p) = true.
Proof.
  intros Hd. destruct (walk n (parent p)) as [x|] eqn:Hw; [|discriminate].
  apply (linkfree_walk _ _ x Hw). by destruct x.
Qed.


Lemma linkfree_nil_app n r : linkfree n [] && linkfree n r = linkfree n r.
Proof. destruct n; destruct r; reflexivity. Qed.

Lemma linkfree_app n p r :
  linkfree n (p ++ r)
  = linkfree n p && match walk n p with Some m => linkfree m r | None => true end.
Proof.
  revert n. induction p as [|c p IH]; intros n.
  - cbn [app walk]. by rewrite linkfree_nil_app.
  - cbn [app]. destruct n as [f|es|t]; [by rewrite !linkfree_File | | by rewrite !linkfree_Symlink].
    rewrite !linkfree_cons. cbn [walk]. destruct (es !! c) as [m|]; [apply IH | reflexivity].
Qed.

Lemma walk_snoc n p c :
  walk n (p ++ [c])
  = match walk n p with Some (Dir es) => es !! c | _ => None end.
Proof.
  rewrite walk_app. destruct (walk n p) as [[?|es|?]|]; try reflexivity.
  cbn [walk]. by destruct (es !! c).
Qed.

(** With a directory above it, a path is free of links unless it ends
    in one. *)
Lemma linkfree_last t p :
  p <> [] -> is_Dir (walk t (parent p)) = true ->
  linkfree t p = negb (is_Symlink (walk t p)).
Proof.
  intros Hne Hd. destruct (exists_last Hne) as (q & c & ->).
  rewrite parent_snoc in Hd.
  rewrite linkfree_app, walk_snoc.
  assert (Hq : linkfree t q = true).
  { destruct (walk t q) as [x|] eqn:Hw; [|discriminate].
    apply (linkfree_walk _ _ x Hw). by destruct x. }
  rewrite Hq. destruct (walk t q) as [[?|es|?]|]; try discriminate.
  rewrite linkfree_cons. by destruct (es !! c) as [[?|?|?]|].
Qed.

Lemma locate_parent t follow p :
  p <> [] -> is_Dir (walk t (parent p)) = true ->
  (follow = false \/ is_Symlink (walk t p) = false) ->
  locate t follow p = Some p.
Proof.
  intros Hne Hd Hf. rewrite locate_real.
  - destruct p; [done|]. by rewrite Hd.
  - unfold ends_real. destruct follow.
    + destruct Hf as [|Hf]; [done|]. rewrite linkfree_last by done. by rewrite Hf.
    + by apply linkfree_parent_walk.
Qed.

Lemma locate_walk t follow p x :
  walk t p = Some x -> (follow = false \/ is_Symlink (Some x) = false) ->
  locate t follow p = Some p.
Proof.
  intros Hw Hf. destruct p as [|c p].
  - unfold locate. apply resolve_nil.
  - apply locate_parent; [done | by eapply walk_parent | by rewrite Hw].
Qed.

Lemma stat_walk t p x :
  walk t p = Some x -> is_Symlink (Some x) = false -> stat t p = Some x.
Proof. intros Hw Hx. rewrite stat_real; [done | by eapply linkfree_walk]. Qed.

(** ** The library calls on paths that are reached through directories *)

Lemma read_file_run p c s :
  walk (fs s) p = Some (File c) -> read_file p s = (Ok c, s).
Proof.
  intros Hw. unfold read_file, bind, get_fs.
  by rewrite (stat_walk _ _ _ Hw).
Qed.

Lemma write_file_run p c s :
  p <> [] -> is_Dir (walk (fs s) (parent p)) = true ->
  is_Symlink (walk (fs s) p) = false -> is_Dir (walk (fs s) p) = false ->
  write_file p c s = (Ok tt, State (put (fs s) p (File c)) (trace s)).
Proof.
  intros Hne Hd Hl Hf. unfold write_file, bind, get_fs.
  rewrite locate_parent by auto.
  by destruct (walk (fs s) p) as [[?|?|?]|].
Qed.

Lemma unlink_run p s :
  is_Some_node (walk (fs s) p) = true -> is_Dir (walk (fs s) p) = false ->
  unlink p s = (Ok tt, State (del (fs s) p) (trace s)).
Proof.
  intros Hx Hf. unfold unlink, bind, get_fs.
  destruct (walk (fs s) p) as [x|] eqn:Hw; [|discriminate].
  rewrite (locate_walk _ false _ _ Hw) by auto. rewrite Hw.
  by destruct x.
Qed.

Lemma getitem_state doc key s r s1 : getitem doc key s = (r, s1) -> s1 = s.
Proof.
  unfold getitem. destruct doc as [| | | | |d]; unfold raise, ret; try congruence.
  destruct (d !! key); congruence.
Qed.

Lemma setitem_state doc key v s r s1 : setitem doc key v s = (r, s1) -> s1 = s.
Proof. unfold setitem. destruct doc; unfold raise, ret; congruence. Qed.

Lemma when_true m : when true m = m.
Proof. reflexivity. Qed.

Lemma json_load_run E p doc s :
  walk (fs s) p = Some (File (JsonText doc)) -> json_load E p s = (Ok doc, s).
Proof.
  intros Hw. unfold json_load. by rewrite (bind_Ok _ _ _ _ _ (read_file_run _ _ _ Hw)).
Qed.


(** ** Invariants of computations *)

Section Preserves.

Context {I : state -> Prop}.

Lemma preserves_ret {A} (a : A) : preserves I (ret a).
Proof. by intros s Hs. Qed.

Lemma preserves_raise {A} (e : exn) : preserves I (raise (A := A) e).
Proof. by intros s Hs. Qed.

Lemma preserves_bind {A B} (m : M A) (k : A -> M B) :
  preserves I m -> (forall a, preserves I (k a)) -> preserves I (bind m k).
Proof.
  intros Hm Hk s Hs. unfold bind. specialize (Hm s Hs).
  destruct (m s) as [[a|e] s1]; [by apply Hk | exact Hm].
Qed.

Lemma preserves_try_except {A} (m : M A) (handler : exn -> M A) :
  preserves I m -> (forall e, preserves I (handler e)) ->
  preserves I (try_except m handler).
Proof.
  intros Hm Hh s Hs. unfold try_except. specialize (Hm s Hs).
  destruct (m s) as [[a|e] s1]; [exact Hm | by apply Hh].
Qed.

Lemma preserves_for {A} (l : list A) (body : A -> M unit) :
  (forall x, preserves I (body x)) -> preserves I (for_ l body).
Proof.
  intros Hb. induction l as [|x l IH]; [apply preserves_ret|].
  apply preserves_bind; [apply Hb | by intros _].
Qed.

Lemma preserves_when (c : bool) (m : M unit) :
  preserves I m -> preserves I (when c m).
Proof. destruct c; [done | intros _; apply preserves_ret]. Qed.

Lemma preserves_lift {A} (r : result A) : preserves I (lift r).
Proof. destruct r; [apply preserves_ret | apply preserves_raise]. Qed.

Lemma preserves_get_fs : preserves I get_fs.
Proof. by intros s Hs. Qed.

End Preserves.

(** One step of a proof that a computation keeps an invariant: the
    rule for the construct at the head. *)
Ltac preserve_step :=
  lazymatch goal with
  | |- preserves _ (bind _ _) => apply preserves_bind; [|intros ?]
  | |- preserves _ (ret _) => apply preserves_ret
  | |- preserves _ (raise _) => apply preserves_raise
  | |- preserves _ (try_except _ _) => apply preserves_try_except; [|intros ?]
  | |- preserves _ (for_ _ _) => apply preserves_for; intros ?
  | |- preserves _ (when _ _) => apply preserves_when
  | |- preserves _ (lift _) => apply preserves_lift
  | |- preserves _ get_fs => apply preserves_get_fs
  | |- preserves _ (match ?x with _ => _ end) => destruct x
  end.

Ltac preserve := repeat preserve_step.

(** ** No request is made outside [download_toolchain] *)

Create HintDb quiet.

Section Quiet.

Variable d : list event.

Let I (s : state) : Prop := downloads (trace s) = d.

Lemma quiet_set_fs t : preserves I (set_fs t).
Proof. by intros s Hs. Qed.

Lemma quiet_emit ev : is_HttpGet ev = false -> preserves I (emit ev).
Proof.
  intros Hev s Hs. unfold I, emit, downloads in *. cbn [snd trace].
  rewrite List.filter_app. cbn [List.filter]. rewrite Hev. by rewrite app_nil_r.
Qed.

#[local] Hint Resolve quiet_set_fs quiet_emit : quiet.

Ltac quiet := preserve; auto with quiet.

Lemma quiet_is_symlink p : preserves I (is_symlink p).
Proof. unfold is_symlink. quiet. Qed.
Lemma quiet_is_file p : preserves I (is_file p).
Proof. unfold is_file. quiet. Qed.
Lemma quiet_is_dir p : preserves I (is_dir p).
Proof. unfold is_dir. quiet. Qed.
Lemma quiet_exists_ p : preserves I (exists_ p).
Proof. unfold exists_. quiet. Qed.
Lemma quiet_unlink p : preserves I (unlink p).
Proof. unfold unlink. quiet. Qed.
Lemma quiet_rmtree p b : preserves I (rmtree p b).
Proof. unfold rmtree. quiet. Qed.
Lemma quiet_mknode p x : preserves I (mknode p x).
Proof. unfold mknode. quiet. Qed.
#[local] Hint Resolve quiet_is_symlink quiet_is_file quiet_is_dir quiet_exists_
  quiet_unlink quiet_rmtree quiet_mknode : quiet.
Lemma quiet_mkdir p b : preserves I (mkdir p b).
Proof. unfold mkdir. quiet. Qed.
Lemma quiet_makedirs_parents p : preserves I (makedirs_parents p).
Proof. unfold makedirs_parents. quiet. Qed.
Lemma quiet_symlink_to p q b : preserves I (symlink_to p q b).
Proof. unfold symlink_to. quiet. Qed.
Lemma quiet_read_file p : preserves I (read_file p).
Proof. unfold read_file. quiet. Qed.
Lemma quiet_write_file p c : preserves I (write_file p c).
Proof. unfold write_file. quiet. Qed.
#[local] Hint Resolve quiet_mkdir quiet_makedirs_parents quiet_symlink_to quiet_read_file
  quiet_write_file : quiet.
Lemma quiet_copyfile p q : preserves I (copyfile p q).
Proof. unfold copyfile. quiet. Qed.
#[local] Hint Resolve quiet_copyfile : quiet.
Lemma quiet_copy p q : preserves I (copy p q).
Proof. unfold copy. quiet. Qed.
Lemma quiet_copytree p q : preserves I (copytree p q).
Proof. unfold copytree. quiet. Qed.
Lemma quiet_iterdir p : preserves I (iterdir p).
Proof. unfold iterdir. quiet. Qed.
Lemma quiet_rename E p q : preserves I (rename E p q).
Proof. unfold rename. quiet. Qed.
Lemma quiet_extract_member p m : preserves I (extract_member p m).
Proof. unfold extract_member. quiet. Qed.
#[local] Hint Resolve quiet_copy quiet_copytree quiet_iterdir quiet_rename
  quiet_extract_member : quiet.
Lemma quiet_extractall ms p : preserves I (extractall ms p).
Proof. unfold extractall. quiet. Qed.
Lemma quiet_raise_for_status r : preserves I (raise_for_status r).
Proof. unfold raise_for_status. quiet. Qed.
Lemma quiet_subprocess_run E argv dir env : preserves I (subprocess_run E argv dir env).
Proof. unfold subprocess_run. quiet. Qed.
Lemma quiet_json_load E p : preserves I (json_load E p).
Proof. unfold json_load. quiet. Qed.
Lemma quiet_json_dump doc p : preserves I (json_dump doc p).
Proof. unfold json_dump. quiet. Qed.
Lemma quiet_getitem doc k : preserves I (getitem doc k).
Proof. unfold getitem. quiet. Qed.
Lemma quiet_setitem doc k v : preserves I (setitem doc k v).
Proof. unfold setitem. quiet. Qed.
Lemma quiet_print line : preserves I (print line).
Proof. unfold print. quiet. Qed.
#[local] Hint Resolve quiet_extractall quiet_raise_for_status quiet_subprocess_run
  quiet_json_load quiet_json_dump quiet_getitem quiet_setitem quiet_print : quiet.

Variable E : Env.
Variable G : Globals.

Lemma quiet__print msg c : preserves I (_print E msg c).
Proof. unfold _print. quiet. Qed.
Lemma quiet__yarn path args : preserves I (_yarn E G path args).
Proof. unfold _yarn. quiet. Qed.
Lemma quiet__symlink p q : preserves I (_symlink p q).
Proof. unfold _symlink. quiet. Qed.
#[local] Hint Resolve quiet__print quiet__yarn quiet__symlink : quiet.
Lemma quiet_update_package : preserves I (update_package E).
Proof. unfold update_package. quiet. Qed.
Lemma quiet_restore_package : preserves I (restore_package E).
Proof. unfold restore_package. quiet. Qed.
Lemma quiet_prepare_nni_node : preserves I (prepare_nni_node G).
Proof. unfold prepare_nni_node. quiet. Qed.
Lemma quiet_compile_ts release : preserves I (compile_ts E G release).
Proof. unfold compile_ts. quiet. Qed.
Lemma quiet_symlink_jupyter : preserves I (symlink_jupyter E).
Proof. unfold symlink_jupyter. quiet. Qed.
Lemma quiet_copy_jupyter version : preserves I (copy_jupyter E version).
Proof. unfold copy_jupyter. quiet. Qed.
Lemma quiet_copy_dist_entries : preserves I copy_dist_entries.
Proof. unfold copy_dist_entries, copy_entry. quiet. Qed.
Lemma quiet_write_manifest version : preserves I (write_manifest E version).
Proof. unfold write_manifest. quiet. Qed.
#[local] Hint Resolve quiet_symlink_jupyter quiet_copy_jupyter quiet_copy_dist_entries
  quiet_write_manifest : quiet.
Lemma quiet_symlink_nni_node : preserves I (symlink_nni_node E).
Proof. unfold symlink_nni_node. quiet. Qed.
Lemma quiet_copy_nni_node version : preserves I (copy_nni_node E G version).
Proof. unfold copy_nni_node. quiet. Qed.

End Quiet.

(** ** What the platform branch binds, as paths *)

Lemma load_platform E G :
  load E = Ok G -> platform_branch (sys_platform E) = Ok (plat G).
Proof.
  unfold load. destruct (platform_branch (sys_platform E)) as [P|e]; [|discriminate].
  destruct (environ E !! "PATH"); [|discriminate].
  intros H. injection H as <-. reflexivity.
Qed.

Lemma platform_node_src platform P :
  platform_branch platform = Ok P ->
  Path2 "toolchain/node" (node_executable_in_tarball P) = Path! "toolchain/node/bin/node"
  \/ Path2 "toolchain/node" (node_executable_in_tarball P) = Path! "toolchain/node/node.exe".
Proof.
  unfold platform_branch.
  destruct (String.eqb platform "linux" || String.eqb platform "darwin").
  - intros H. injection H as <-. left. vm_compute. reflexivity.
  - destruct (String.eqb platform "win32"); [|discriminate].
    intros H. injection H as <-. right. vm_compute. reflexivity.
Qed.

Lemma linkfree_put_diverge n p q x :
  diverge p q = true -> linkfree (put n q x) p = linkfree n p.
Proof.
  revert n q. induction p as [|a p IH]; intros n [|b q] Hd; try discriminate.
  cbn [diverge] in Hd. cbn [put].
  destruct n as [?|es|?]; try reflexivity.
  destruct (String.eqb_spec a b) as [->|Hab].
  - destruct (es !! b) as [m|] eqn:Hm.
    + rewrite !linkfree_cons, lookup_insert_eq, Hm. by apply IH.
    + destruct q; [by rewrite diverge_nil_r in Hd | reflexivity].
  - destruct (es !! b) as [m|] eqn:Hm.
    + rewrite !linkfree_cons. by rewrite lookup_insert_ne.
    + destruct q; [|reflexivity]. rewrite !linkfree_cons. by rewrite lookup_insert_ne.
Qed.

(** Removing a node brings no link onto a path. *)
Lemma linkfree_del n p q : linkfree n p = true -> linkfree (del n q) p = true.
Proof.
  revert n q. induction p as [|a p IH]; intros n q Hl.
  - destruct q as [|b q]; [exact Hl|]. cbn [del].
    destruct n as [?|es|?]; try done.
    destruct q; [done|]. by destruct (es !! b).
  - destruct q as [|b q]; [exact Hl|]. cbn [del].
    destruct n as [?|es|?]; try done.
    rewrite linkfree_cons in Hl.
    destruct q as [|b' q].
    + rewrite linkfree_cons. destruct (decide (b = a)) as [->|Hne].
      * by rewrite lookup_delete_eq.
      * by rewrite lookup_delete_ne.
    + destruct (es !! b) as [m|] eqn:Hm; [|by rewrite linkfree_cons].
      rewrite linkfree_cons. destruct (decide (b = a)) as [->|Hne].
      * rewrite lookup_insert_eq. rewrite Hm in Hl. by apply IH.
      * by rewrite lookup_insert_ne.
Qed.

(** A one-component path denotes itself when its last component is
    not followed. *)
Lemma locate_single t c q : locate t false [c] = Some q -> q = [c].
Proof.
  unfold locate. rewrite resolve_cons. destruct t as [?|es|?]; try discriminate.
  destruct (es !! c) as [[?|?|?]|]; cbn; rewrite ?resolve_nil; congruence.
Qed.

Lemma rmtree_top c s :
  exists s', rmtree [c] true s = (Ok tt, s') /\
             (fs s' = fs s \/ fs s' = del (fs s) [c]) /\ trace s' = trace s.
Proof.
  unfold rmtree, bind, get_fs.
  destruct (locate (fs s) false [c]) as [q|] eqn:Hq; [|by eexists; eauto].
  apply locate_single in Hq as ->.
  destruct (walk (fs s) [c]) as [[?|?|?]|]; eexists; (split; [reflexivity|]); eauto.
Qed.

Lemma mknode_inv p x s s' :
  mknode p x s = (Ok tt, s') ->
  exists q, locate (fs s) false p = Some q /\ walk (fs s) q = None /\
            s' = State (put (fs s) q x) (trace s).
Proof.
  unfold mknode, bind, get_fs.
  destruct (locate (fs s) false p) as [q|]; [|discriminate].
  destruct (walk (fs s) q) eqn:Hw; [discriminate|].
  unfold set_fs. intros H. injection H as <-. eauto.
Qed.

Lemma mkdir_new_inv p s s' :
  mkdir p false s = (Ok tt, s') ->
  exists q, locate (fs s) false p = Some q /\ walk (fs s) q = None /\
            s' = State (put (fs s) q (Dir ∅)) (trace s).
Proof.
  unfold mkdir, try_except. destruct (mknode p (Dir ∅) s) as [[[]|e] s1] eqn:Hm.
  - intros H. injection H as <-. by apply mknode_inv.
  - destruct e; unfold raise; discriminate.
Qed.

Lemma write_file_inv p c s s' :
  write_file p c s = (Ok tt, s') ->
  exists q, locate (fs s) true p = Some q /\ is_Dir (walk (fs s) q) = false /\
            s' = State (put (fs s) q (File c)) (trace s).
Proof.
  unfold write_file, bind, get_fs.
  destruct (locate (fs s) true p) as [q|]; [|discriminate].
  destruct (walk (fs s) q) as [[?|?|?]|] eqn:Hw; unfold set_fs, raise;
    try discriminate; intros H; injection H as <-;
    (exists q; rewrite Hw; repeat split; reflexivity).
Qed.

Lemma read_file_inv p c s s' :
  read_file p s = (Ok c, s') -> stat (fs s) p = Some (File c) /\ s' = s.
Proof.
  unfold read_file, bind, get_fs.
  destruct (stat (fs s) p) as [[?|?|?]|]; unfold ret, raise; try discriminate.
  intros H. by injection H as <- <-.
Qed.

Lemma copy_inv src dst s s' :
  copy src dst s = (Ok tt, s') -> exists c, stat (fs s) src = Some (File c).
Proof.
  unfold copy, is_dir. unfold bind at 1 2. unfold get_fs, ret at 1.
  unfold copyfile. unfold bind at 1. unfold get_fs.
  destruct (samefile _ _ _); [discriminate|].
  intros H. apply bind_inv_Ok in H as (c & s1 & Hr & _).
  apply read_file_inv in Hr as [Hr _]. eauto.
Qed.

Lemma locate_single_root t c q : locate t false [c] = Some q -> is_Dir (Some t) = true.
Proof.
  unfold locate. rewrite resolve_cons. by destruct t.
Qed.

(** [prepare_nni_node] returns only if the node executable is a file of
    the local toolchain. *)
Lemma prepare_nni_node_inv (G : Globals) (s s' : state) (r : path) :
  Path2 "toolchain/node" (node_executable_in_tarball G) = "toolchain" :: r ->
  linkfree (fs s) ("toolchain" :: r) = true ->
  prepare_nni_node G s = (Ok tt, s') ->
  is_File (walk (fs s) ("toolchain" :: r)) = true.
Proof.
  intros Hsrc Hfree Hrun. unfold prepare_nni_node in Hrun. rewrite Hsrc in Hrun.
  apply bind_inv_Ok in Hrun as ([] & s1 & H1 & Hrun).
  apply bind_inv_Ok in Hrun as ([] & s2 & H2 & Hrun).
  apply bind_inv_Ok in Hrun as ([] & s3 & H3 & Hrun).
  destruct (rmtree_top "nni_node" s) as (s1' & H1' & Hfs1 & _).
  rewrite H1' in H1. injection H1 as ->.
  assert (Hw1 : walk (fs s1) ("toolchain" :: r) = walk (fs s) ("toolchain" :: r)).
  { destruct Hfs1 as [-> | ->]; [reflexivity|]. by apply walk_del_diverge. }
  assert (Hl1 : linkfree (fs s1) ("toolchain" :: r) = true).
  { destruct Hfs1 as [-> | ->]; [exact Hfree|]. by apply linkfree_del. }
  apply mkdir_new_inv in H2 as (q & Hq & Hnone & ->).
  pose proof (locate_single_root _ _ _ Hq) as Hroot.
  apply locate_single in Hq as ->.
  set (t2 := put (fs s1) ["nni_node"] (Dir ∅)) in *.
  assert (Hnni : walk t2 ["nni_node"] = Some (Dir ∅)).
  { apply walk_put_same; [done | exact Hroot]. }
  apply write_file_inv in H3 as (q & Hq & _ & ->). cbn [fs] in Hq.
  rewrite locate_parent in Hq.
  2: done.
  2: { cbn [parent removelast]. by rewrite Hnni. }
  2: { right. change ["nni_node"; "__init__.py"] with (["nni_node"] ++ ["__init__.py"]).
       rewrite walk_snoc, Hnni. reflexivity. }
  injection Hq as <-.
  apply copy_inv in Hrun as (c & Hstat). cbn [fs] in Hstat.
  rewrite stat_real in Hstat.
  - rewrite walk_put_diverge in Hstat by reflexivity. unfold t2 in Hstat.
    rewrite walk_put_diverge in Hstat by reflexivity.
    rewrite <- Hw1. by rewrite Hstat.
  - rewrite linkfree_put_diverge by reflexivity. unfold t2.
    by rewrite linkfree_put_diverge by reflexivity.
Qed.


Lemma rmtree_top_exact c s :
  rmtree [c] true s
  = (Ok tt, if is_Dir (walk (fs s) [c])
            then State (del (fs s) [c]) (trace s) else s).
Proof.
  unfold rmtree, bind, get_fs.
  destruct (locate (fs s) false [c]) as [q|] eqn:Hq.
  - apply locate_single in Hq as ->.
    by destruct (walk (fs s) [c]) as [[?|?|?]|].
  - unfold locate in Hq. rewrite resolve_cons in Hq.
    destruct (fs s) as [?|es|?] eqn:Hfs; try reflexivity.
    destruct (es !! c) as [[?|?|?]|]; cbn in Hq; rewrite ?resolve_nil in Hq; discriminate.
Qed.

Lemma linkfree_extend t p :
  linkfree t (parent p) = true -> is_Symlink (walk t p) = false -> linkfree t p = true.
Proof.
  intros Hpar Hl. destruct (decide (p = [])) as [->|Hne]; [exact Hpar|].
  destruct (exists_last Hne) as (q & c & ->). rewrite parent_snoc in Hpar.
  pose proof (linkfree_app t q []) as Hq. rewrite app_nil_r, Hpar in Hq.
  rewrite linkfree_app, Hpar. rewrite walk_snoc in Hl.
  destruct (walk t q) as [[?|es|?]|]; try reflexivity; [|discriminate].
  rewrite linkfree_cons. by destruct (es !! c) as [[?|?|?]|].
Qed.

(** ** The loop of [clean] *)

(** One round of the loop: whatever is at the path is removed. *)
Lemma clean_round p s :
  p <> [] -> linkfree (fs s) (parent p) = true ->
  exists s',
    (l <- is_symlink p ;;
     f <- (if l then ret true else is_file p) ;;
     if f then unlink p
     else d <- is_dir p ;; if d then rmtree p false else ret tt) s = (Ok tt, s') /\
    trace s' = trace s /\
    (fs s' = del (fs s) p \/ walk (fs s) p = None /\ fs s' = fs s).
Proof.
  intros Hne Hpar.
  unfold is_symlink, is_file, is_dir. unfold bind at 1 2. unfold get_fs at 1, ret at 1.
  rewrite lstat_real by exact Hpar.
  destruct (walk (fs s) p) as [x|] eqn:Hw.
  - assert (Hun : is_Dir (Some x) = false ->
                  unlink p s = (Ok tt, State (del (fs s) p) (trace s))).
    { intros Hd. apply unlink_run; by rewrite Hw. }
    destruct x as [c|es|t].
    + cbn [is_Symlink]. unfold bind at 1 2. unfold get_fs at 1, ret at 1.
      rewrite (stat_walk _ _ _ Hw) by done. cbn [is_File].
      rewrite Hun by done. eexists; split; [reflexivity|]; split; [reflexivity|]; by left.
    + cbn [is_Symlink]. unfold bind at 1 2. unfold get_fs at 1, ret at 1.
      rewrite (stat_walk _ _ _ Hw) by done. cbn [is_File].
      unfold bind at 1 2. unfold get_fs at 1, ret at 1.
      rewrite (stat_walk _ _ _ Hw) by done. cbn [is_Dir].
      unfold rmtree, bind, get_fs.
      rewrite (locate_walk _ false _ _ Hw) by auto. rewrite Hw.
      eexists; split; [reflexivity|]; split; [reflexivity|]; by left.
    + cbn [is_Symlink]. unfold ret at 1. unfold bind at 1.
      rewrite Hun by done. eexists; split; [reflexivity|]; split; [reflexivity|]; by left.
  - cbn [is_Symlink]. unfold bind at 1 2. unfold get_fs at 1, ret at 1.
    assert (Hfree : linkfree (fs s) p = true).
    { apply linkfree_extend; [exact Hpar | by rewrite Hw]. }
    rewrite (stat_real _ _ Hfree), Hw. cbn [is_File].
    unfold bind at 1 2. unfold get_fs at 1, ret at 1.
    rewrite (stat_real _ _ Hfree), Hw. cbn [is_Dir]. unfold ret.
    eexists; split; [reflexivity|]; split; [reflexivity|]; by right.
Qed.

Lemma clean_loop (l : list string) : forall s,
  Forall (fun g => Path g <> [] /\ linkfree (fs s) (parent (Path g)) = true) l ->
  exists s',
    for_ l
      (fun file_or_dir =>
         let path := Path file_or_dir in
         l <- is_symlink path ;;
         f <- (if l then ret true else is_file path) ;;
         if f then unlink path
         else d <- is_dir path ;; if d then rmtree path false else ret tt) s
    = (Ok tt, s') /\
    trace s' = trace s /\
    (forall g, In g l -> walk (fs s') (Path g) = None) /\
    (forall p, walk (fs s) p = None -> walk (fs s') p = None) /\
    (forall p, (forall g, In g l -> diverge p (Path g) = true) ->
               walk (fs s') p = walk (fs s) p) /\
    (forall p, linkfree (fs s) p = true -> linkfree (fs s') p = true).
Proof.
  induction l as [|g l IH]; intros s Hall.
  - exists s. repeat split; try done.
  - apply Forall_cons in Hall as [[Hne Hpar] Hall].
    destruct (clean_round (Path g) s Hne Hpar) as (s1 & Hround & Htr1 & Hfs1).
    assert (Hmono1 : forall p, walk (fs s) p = None -> walk (fs s1) p = None).
    { intros p Hp. destruct Hfs1 as [-> | [_ ->]]; [by apply walk_del_None | exact Hp]. }
    assert (Hfree1 : forall p, linkfree (fs s) p = true -> linkfree (fs s1) p = true).
    { intros p Hp. destruct Hfs1 as [-> | [_ ->]]; [by apply linkfree_del | exact Hp]. }
    assert (Hgone1 : walk (fs s1) (Path g) = None).
    { destruct Hfs1 as [-> | [Hn ->]]; [by apply walk_del_same | exact Hn]. }
    assert (Hframe1 : forall p, diverge p (Path g) = true ->
                                walk (fs s1) p = walk (fs s) p).
    { intros p Hp. destruct Hfs1 as [-> | [_ ->]]; [by apply walk_del_diverge | done]. }
    destruct (IH s1) as (s' & Hloop & Htr & Hgone & Hmono & Hframe & Hfree).
    { eapply Forall_impl; [exact Hall|]. intros g' [? ?]. split; [done|]. by apply Hfree1. }
    exists s'. split.
    { cbn [for_]. rewrite (bind_Ok _ _ _ _ _ Hround). exact Hloop. }
    split; [congruence|]. split; [|split; [|split]].
    + intros g' [<- | Hin]; [by apply Hmono | by apply Hgone].
    + intros p Hp. by apply Hmono, Hmono1.
    + intros p Hp. rewrite Hframe by (intros g' Hin; apply Hp; by right).
      apply Hframe1, Hp. by left.
    + intros p Hp. by apply Hfree, Hfree1.
Qed.

(** ** Creating a node leaves the files that are there *)

Lemma walk_put_absent_File t q x P c :
  walk t q = None -> walk t P = Some (File c) -> walk (put t q x) P = Some (File c).
Proof.
  revert t P. induction q as [|b q IH]; intros t P Hq HP; [discriminate|].
  cbn [put]. destruct t as [?|es|?]; try exact HP.
  destruct P as [|a P]; [discriminate|].
  cbn [walk] in Hq, HP.
  destruct (decide (a = b)) as [->|Hne].
  - destruct (es !! b) as [m|] eqn:Hm; [|discriminate].
    cbn [walk]. rewrite lookup_insert_eq. by apply IH.
  - destruct (es !! b) as [m|] eqn:Hm.
    + cbn [walk]. by rewrite lookup_insert_ne.
    + destruct q; [|exact HP]. cbn [walk]. by rewrite lookup_insert_ne.
Qed.

Section Keeps.

Variable P : path.
Variable c : content.

Let K (s : state) : Prop := walk (fs s) P = Some (File c).

Lemma keep_emit ev : preserves K (emit ev).
Proof. by intros s Hs. Qed.

Lemma keep_mknode p x : preserves K (mknode p x).
Proof.
  intros s Hs. unfold mknode, bind, get_fs.
  destruct (locate (fs s) false p) as [q|]; [|exact Hs].
  destruct (walk (fs s) q) eqn:Hq; [exact Hs|].
  unfold K. cbn [snd set_fs fs]. by apply walk_put_absent_File.
Qed.

Lemma keep_exists_ p : preserves K (exists_ p).
Proof. unfold exists_. preserve. Qed.

Lemma keep_makedirs_parents p : preserves K (makedirs_parents p).
Proof.
  unfold makedirs_parents. preserve; auto using keep_exists_, keep_mknode.
Qed.

Lemma keep_copytree src dst : preserves K (copytree src dst).
Proof.
  unfold copytree. preserve; auto using keep_makedirs_parents, keep_mknode.
Qed.

Lemma keep_copy_jupyter E version : preserves K (copy_jupyter E version).
Proof.
  unfold copy_jupyter. preserve; auto using keep_copytree, keep_exists_.
Qed.

Lemma keep_print E msg col : preserves K (_print E msg col).
Proof. unfold _print, print. preserve; apply keep_emit. Qed.

Lemma keep_yarn E G dir args :
  (forall argv env t, walk (snd (subprocess E argv dir env t)) P = walk t P) ->
  preserves K (_yarn E G dir args).
Proof.
  intros Hframe. unfold _yarn.
  assert (Hrun : forall argv env, preserves K (subprocess_run E argv dir env)).
  { intros argv env s Hs. unfold subprocess_run, emit, get_fs, set_fs.
    unfold bind at 1 2 3. cbn [fs trace].
    assert (Hk : K (State (snd (subprocess E argv dir env (fs s)))
                          (trace s ++ [Run argv dir env]))).
    { unfold K. cbn [fs]. by rewrite Hframe. }
    destruct (fst (subprocess E argv dir env (fs s))) as [[| |]|]; exact Hk. }
  destruct (truthy _); apply Hrun.
Qed.

End Keeps.

(** ** Writing into a directory that holds no link *)

Lemma plain_dir_put top nm x t :
  plain_dir top t -> is_Symlink (Some x) = false -> plain_dir top (put t [top; nm] x).
Proof.
  intros [Hd Hl] Hx. split.
  - rewrite <- Hd. apply same_kind_Dir.
    apply (walk_put_above t [top] nm [] x).
  - intros nm'. destruct (decide (nm' = nm)) as [->|Hne].
    + by rewrite walk_put_same.
    + rewrite walk_put_diverge; [apply Hl|].
      cbn [diverge]. rewrite String.eqb_refl.
      destruct (String.eqb_spec nm' nm); [done|reflexivity].
Qed.

Lemma plain_dir_locate top nm follow t :
  plain_dir top t -> locate t follow [top; nm] = Some [top; nm].
Proof.
  intros [Hd Hl]. apply locate_parent; [done | exact Hd | right; apply Hl].
Qed.

Lemma makedirs_parents_plain top nm s :
  plain_dir top (fs s) -> makedirs_parents [top; nm] s = (Ok tt, s).
Proof.
  intros [Hd Hl]. unfold makedirs_parents. cbn [ancestors ancestors_from app for_].
  unfold exists_. unfold bind at 1 2 3. unfold get_fs, ret at 1.
  destruct (walk (fs s) [top]) as [x|] eqn:Hw; [|discriminate].
  rewrite (stat_walk _ _ _ Hw) by (by destruct x). reflexivity.
Qed.

(** The shape of what [copytree] and [copyfile] do there: nothing, or
    one node put at the destination. *)
Lemma copytree_run top nm src s :
  plain_dir top (fs s) ->
  copytree src [top; nm] s
  = match stat (fs s) src with
    | Some (Dir d) =>
        match walk (fs s) [top; nm] with
        | None => (Ok tt, State (put (fs s) [top; nm] (Dir d)) (trace s))
        | Some _ => (Raise (FileExistsError [top; nm]), s)
        end
    | Some _ => (Raise (NotADirectoryError src), s)
    | None => (Raise (FileNotFoundError src), s)
    end.
Proof.
  intros Hp. unfold copytree. unfold bind at 1. unfold get_fs.
  destruct (stat (fs s) src) as [[?|d|?]|] eqn:Hs; try reflexivity.
  rewrite (bind_Ok _ _ _ _ _ (makedirs_parents_plain top nm s Hp)).
  unfold mknode, bind, get_fs. rewrite (plain_dir_locate _ _ _ _ Hp).
  by destruct (walk (fs s) [top; nm]).
Qed.

Lemma copyfile_run top nm src s :
  plain_dir top (fs s) ->
  copyfile src [top; nm] s
  = if samefile (fs s) src [top; nm] then (Raise SameFileError, s)
    else match stat (fs s) src with
         | Some (File f) =>
             if is_Dir (walk (fs s) [top; nm])
             then (Raise (IsADirectoryError [top; nm]), s)
             else (Ok tt, State (put (fs s) [top; nm] (File f)) (trace s))
         | Some (Dir _) => (Raise (IsADirectoryError src), s)
         | _ => (Raise (FileNotFoundError src), s)
         end.
Proof.
  intros Hp. unfold copyfile. unfold bind at 1. unfold get_fs.
  destruct (samefile (fs s) src [top; nm]); [reflexivity|].
  unfold read_file. unfold bind at 1 2. unfold get_fs.
  destruct (stat (fs s) src) as [[f|?|?]|] eqn:Hs; try reflexivity.
  unfold ret at 1. unfold write_file, bind, get_fs.
  rewrite (plain_dir_locate _ _ _ _ Hp).
  by destruct (walk (fs s) [top; nm]) as [[?|?|?]|].
Qed.

Lemma diverge_child top nm nm' : nm <> nm' -> diverge [top; nm] [top; nm'] = true.
Proof.
  intros Hne. cbn [diverge]. rewrite String.eqb_refl.
  by destruct (String.eqb_spec nm nm').
Qed.

(** ** The copy loop of [copy_nni_node] *)

Lemma copy_entry_run nm s :
  plain_dir "nni_node" (fs s) ->
  copy_entry nm s
  = if is_Dir (stat (fs s) ["ts"; "nni_manager"; "dist"; nm])
    then copytree ["ts"; "nni_manager"; "dist"; nm] ["nni_node"; nm] s
    else if String.eqb nm "nni_manager.tsbuildinfo" then (Ok tt, s)
    else copyfile ["ts"; "nni_manager"; "dist"; nm] ["nni_node"; nm] s.
Proof.
  intros Hp. unfold copy_entry. cbn [child app]. cbv zeta.
  unfold is_dir. unfold bind at 1 2. unfold get_fs, ret at 1.
  destruct (is_Dir _); [reflexivity|]. by destruct (String.eqb _ _).
Qed.

Lemma copy_entry_round nm s :
  plain_dir "nni_node" (fs s) ->
  trace (snd (copy_entry nm s)) = trace s /\
  (snd (copy_entry nm s) = s
   \/ exists x, is_Symlink (Some x) = false /\
                fs (snd (copy_entry nm s)) = put (fs s) ["nni_node"; nm] x) /\
  (fst (copy_entry nm s) = Ok tt ->
   forall n, walk (fs s) ["ts"; "nni_manager"; "dist"; nm] = Some n ->
             entry_copied (fs s) (fs (snd (copy_entry nm s))) nm n).
Proof.
  intros Hp. rewrite copy_entry_run, copytree_run, copyfile_run by exact Hp.
  assert (Hreal : forall n, walk (fs s) ["ts"; "nni_manager"; "dist"; nm] = Some n ->
                    is_Symlink (Some n) = true
                    \/ stat (fs s) ["ts"; "nni_manager"; "dist"; nm] = Some n).
  { intros n Hn. destruct (is_Symlink (Some n)) eqn:Hl; [by left|].
    right. by apply stat_walk. }
  destruct (stat (fs s) ["ts"; "nni_manager"; "dist"; nm]) as [[f|d|l]|] eqn:Hstat;
    cbn [is_Dir].
  - (* a regular file, or a link to one *)
    destruct (String.eqb nm "nni_manager.tsbuildinfo") eqn:Hnm.
    + cbn [fst snd]. repeat split; [by left|].
      intros _ n Hn. destruct (Hreal n Hn) as [Hl|Hs]; [by destruct n|].
      injection Hs as <-. cbn [entry_copied]. by rewrite Hnm.
    + destruct (samefile _ _ _); [cbn [fst snd]; repeat split; [by left | done]|].
      destruct (is_Dir (walk (fs s) ["nni_node"; nm])) eqn:Hd;
        [cbn [fst snd]; repeat split; [by left | done]|].
      cbn [fst snd fs trace]. repeat split; [right; eexists; (split; [|reflexivity]); reflexivity|].
      intros _ n Hn. destruct (Hreal n Hn) as [Hl|Hs]; [by destruct n|].
      injection Hs as <-. cbn [entry_copied]. rewrite Hnm.
      apply walk_put_same; [done | apply Hp].
  - (* a directory, or a link to one *)
    destruct (walk (fs s) ["nni_node"; nm]) eqn:Hw;
      [cbn [fst snd]; repeat split; [by left | done]|].
    cbn [fst snd fs trace]. repeat split; [right; eexists; (split; [|reflexivity]); reflexivity|].
    intros _ n Hn. destruct (Hreal n Hn) as [Hl|Hs]; [by destruct n|].
    injection Hs as <-. cbn [entry_copied].
    apply walk_put_same; [done | apply Hp].
  - (* [stat] follows links and never returns one *)
    destruct (String.eqb nm "nni_manager.tsbuildinfo") eqn:Hnm.
    + cbn [fst snd]. repeat split; [by left|].
      intros _ n Hn. destruct (Hreal n Hn) as [Hl|Hs]; [by destruct n|].
      injection Hs as <-. done.
    + destruct (samefile _ _ _); cbn [fst snd]; repeat split; try (by left); done.
  - (* a dangling link *)
    destruct (String.eqb nm "nni_manager.tsbuildinfo") eqn:Hnm.
    + cbn [fst snd]. repeat split; [by left|].
      intros _ n Hn. destruct (Hreal n Hn) as [Hl|Hs]; [by destruct n | discriminate].
    + destruct (samefile _ _ _); cbn [fst snd]; repeat split; try (by left); done.
Qed.

Lemma copy_loop (names : list string) : forall s,
  NoDup names -> plain_dir "nni_node" (fs s) ->
  trace (snd (for_ names copy_entry s)) = trace s /\
  plain_dir "nni_node" (fs (snd (for_ names copy_entry s))) /\
  (forall p, (forall nm, nm ∈ names -> diverge p ["nni_node"; nm] = true) ->
             walk (fs (snd (for_ names copy_entry s))) p = walk (fs s) p) /\
  (fst (for_ names copy_entry s) = Ok tt ->
   forall nm n, nm ∈ names ->
     walk (fs s) ["ts"; "nni_manager"; "dist"; nm] = Some n ->
     entry_copied (fs s) (fs (snd (for_ names copy_entry s))) nm n).
Proof.
  induction names as [|nm names IH]; intros s Hnd Hp.
  - cbn [for_ ret fst snd]. split; [done|]. split; [done|]. split; [done|].
    intros _ nm n Hin. by apply elem_of_nil in Hin.
  - apply NoDup_cons in Hnd as [Hnotin Hnd].
    destruct (copy_entry_round nm s Hp) as (Htr1 & Hshape1 & Hentry1).
    assert (Hp1 : plain_dir "nni_node" (fs (snd (copy_entry nm s)))).
    { destruct Hshape1 as [-> | (x & Hx & ->)]; [exact Hp | by apply plain_dir_put]. }
    assert (Hframe1 : forall p, diverge p ["nni_node"; nm] = true ->
                        walk (fs (snd (copy_entry nm s))) p = walk (fs s) p).
    { intros p Hd. destruct Hshape1 as [-> | (x & Hx & ->)]; [done|].
      by apply walk_put_diverge. }
    cbn [for_]. unfold bind.
    destruct (copy_entry nm s) as [[[]|e] s1] eqn:Hr; cbn [fst snd] in *.
    + destruct (IH s1 Hnd Hp1) as (Htr & Hp' & Hframe & Hentry).
      split; [congruence|]. split; [exact Hp'|]. split.
      * intros p Hd. rewrite Hframe by (intros nm' Hin; apply Hd; by right).
        apply Hframe1, Hd. by left.
      * intros Hok nm' n Hin Hn.
        apply elem_of_cons in Hin as [->|Hin].
        -- specialize (Hentry1 eq_refl n Hn).
           assert (Hsame : walk (fs (snd (for_ names copy_entry s1))) ["nni_node"; nm]
                           = walk (fs s1) ["nni_node"; nm]).
           { apply Hframe. intros nm' Hin'. apply diverge_child. by intros ->. }
           destruct n; cbn [entry_copied] in *; try done; by rewrite Hsame.
        -- assert (Hne : nm' <> nm) by (by intros ->).
           specialize (Hentry Hok nm' n Hin).
           rewrite Hframe1 in Hentry by reflexivity. specialize (Hentry Hn).
           destruct n; cbn [entry_copied] in *; try done.
           rewrite Hentry. destruct (String.eqb nm' _); [|reflexivity].
           apply Hframe1. by apply diverge_child.
    + split; [exact Htr1|]. split; [exact Hp1|]. split; [|done].
      intros p Hd. apply Hframe1, Hd. by left.
Qed.

Lemma plain_dir_intro top t m :
  walk t [top] = Some (Dir m) ->
  map_Forall (fun _ n => is_Symlink (Some n) = false) m ->
  plain_dir top t.
Proof.
  intros Hw Hm. split; [by rewrite Hw|].
  intros nm. change [top; nm] with ([top] ++ [nm]). rewrite walk_snoc, Hw.
  destruct (m !! nm) as [n|] eqn:Hn; [|reflexivity]. by apply (Hm nm n).
Qed.

Lemma iterdir_run p es s :
  walk (fs s) p = Some (Dir es) -> iterdir p s = (Ok (map fst (map_to_list es)), s).
Proof.
  intros Hw. unfold iterdir, bind, get_fs. by rewrite (stat_walk _ _ _ Hw).
Qed.

Section CopyStrategy.

Variable c : content.

Let manifest : path := Path! "ts/nni_manager/package.json".

(** The invariant of the first half of [copy_nni_node]. *)
Let J (s : state) : Prop :=
  walk (fs s) manifest = Some (File c) /\ plain_dir "nni_node" (fs s).

Lemma keep_copy_entry nm : preserves J (copy_entry nm).
Proof.
  intros s [Hm Hp]. destruct (copy_entry_round nm s Hp) as (_ & Hshape & _).
  destruct Hshape as [-> | (x & Hx & Hfs)]; [by split|].
  split; rewrite Hfs.
  - by rewrite walk_put_diverge.
  - by apply plain_dir_put.
Qed.

Lemma keep_write_output nm x : preserves J (write_file ["nni_node"; nm] x).
Proof.
  intros s [Hm Hp]. unfold write_file, bind, get_fs.
  rewrite (plain_dir_locate _ _ _ _ Hp).
  unfold J.
  destruct (walk (fs s) ["nni_node"; nm]) as [[?|?|?]|]; try (by split);
    unfold set_fs; cbn [snd fs];
    (split; [by rewrite walk_put_diverge | by apply plain_dir_put]).
Qed.

Lemma keep_copy_dist_entries : preserves J copy_dist_entries.
Proof.
  unfold copy_dist_entries. apply preserves_bind; [unfold iterdir; preserve|].
  intros names. apply preserves_for. apply keep_copy_entry.
Qed.

Lemma keep_write_manifest E version : preserves J (write_manifest E version).
Proof.
  unfold write_manifest, json_load, read_file, setitem, json_dump.
  preserve; apply keep_write_output.
Qed.

Lemma copy_nni_node_keeps_manifest E G version s :
  (forall argv env t,
     walk (snd (subprocess E argv "ts/nni_manager" env t)) manifest = walk t manifest) ->
  J s ->
  walk (fs (snd (copy_nni_node E G version s))) manifest = Some (File c).
Proof.
  intros Hyarn HJ. unfold copy_nni_node.
  assert (H1 : preserves J (_print E "Copying files" cyan)).
  { unfold _print, print. preserve; by intros s' Hs'. }
  unfold bind at 1. specialize (H1 s HJ).
  destruct (_print E "Copying files" cyan s) as [[[]|e] s1]; [|apply H1].
  unfold bind at 1. pose proof (keep_copy_dist_entries s1 H1) as H2.
  destruct (copy_dist_entries s1) as [[[]|e] s2]; [|apply H2].
  unfold bind at 1. pose proof (keep_write_manifest E version s2 H2) as H3.
  destruct (write_manifest E version s2) as [[[]|e] s3]; [|apply H3].
  cbn [snd] in H3. destruct H3 as [H3 _].
  revert s3 H3.
  change (preserves (fun s' => walk (fs s') manifest = Some (File c))
            (_yarn E G "ts/nni_manager" ["--prod"; "--cwd"; cwd E +:+ "/nni_node"] ;;
             copytree (Path! "ts/webui/build") (Path! "nni_node/static") ;;
             copy_jupyter E version)).
  apply preserves_bind; [by apply keep_yarn | intros _].
  apply preserves_bind; [apply keep_copytree | intros _].
  apply keep_copy_jupyter.
Qed.

End CopyStrategy.

(** ** Archives and renaming *)

Lemma mkdirs_keeps_file p : forall t t' P c,
  mkdirs t p = Some t' -> walk t P = Some (File c) -> walk t' P = Some (File c).
Proof.
  induction p as [|a p IH]; intros t t' P c Hmk Hw.
  - destruct t; cbn [mkdirs] in Hmk; congruence.
  - destruct t as [?|es|?]; cbn [mkdirs] in Hmk; try discriminate.
    destruct (mkdirs (default (Dir ∅) (es !! a)) p) as [m|] eqn:Hm; [|discriminate].
    injection Hmk as <-. destruct P as [|b P]; [discriminate|].
    cbn [walk] in *. destruct (String.eqb_spec b a) as [->|Hne].
    + rewrite lookup_insert_eq. destruct (es !! a) as [x|]; [|discriminate].
      cbn [default] in Hm. by eapply IH.
    + by rewrite lookup_insert_ne.
Qed.

Lemma mkdirs_is_Dir p : forall t t',
  mkdirs t p = Some t' -> is_Dir (walk t' p) = true.
Proof.
  induction p as [|a p IH]; intros t t' Hmk.
  - destruct t; cbn [mkdirs] in Hmk; try discriminate. by injection Hmk as <-.
  - destruct t as [?|es|?]; cbn [mkdirs] in Hmk; try discriminate.
    destruct (mkdirs (default (Dir ∅) (es !! a)) p) as [m|] eqn:Hm; [|discriminate].
    injection Hmk as <-. cbn [walk]. rewrite lookup_insert_eq. by eapply IH.
Qed.

Lemma put_through_file P : forall t c a r x,
  walk t P = Some (File c) -> put t (P ++ a :: r) x = t.
Proof.
  induction P as [|b P IH]; intros t c a r x Hw.
  - cbn [walk] in Hw. injection Hw as ->. reflexivity.
  - destruct t as [?|es|?]; try discriminate. cbn [walk] in Hw.
    cbn [app put]. destruct (es !! b) as [m|] eqn:Hm; [|discriminate].
    rewrite (IH m c a r x Hw). by rewrite insert_id.
Qed.

(** Two paths part ways, or one runs along the other. *)
Lemma path_trichotomy (p q : path) :
  diverge p q = true \/ (exists r, q = p ++ r) \/ (exists a r, p = q ++ a :: r).
Proof.
  revert q. induction p as [|a p IH]; intros q.
  - right. left. by exists q.
  - destruct q as [|b q].
    + right. right. by exists a, p.
    + cbn [diverge]. destruct (String.eqb_spec a b) as [->|Hne]; [|by left].
      destruct (IH q) as [Hd | [[r ->] | (a' & r & ->)]].
      * by left.
      * right. left. by exists r.
      * right. right. by exists a', r.
Qed.

Lemma walk_below_file t P c a r : walk t P = Some (File c) -> walk t (P ++ a :: r) = None.
Proof. intros Hw. by rewrite walk_app, Hw. Qed.

Lemma walk_prefix_Dir t p a r x : walk t (p ++ a :: r) = Some x -> is_Dir (walk t p) = true.
Proof.
  rewrite walk_app. destruct (walk t p) as [[?|es|?]|]; try discriminate. done.
Qed.

Lemma walk_put_under n p x r :
  p <> [] -> is_Dir (walk n (parent p)) = true -> walk (put n p x) (p ++ r) = walk x r.
Proof. intros Hne Hd. by rewrite walk_app, walk_put_same. Qed.

(** A regular file stays a regular file when a member of an archive is
    extracted, wherever the member goes. *)
Lemma extract_member_keeps_file P d m :
  preserves (fun s => is_File (walk (fs s) P) = true) (extract_member d m).
Proof.
  intros s Hs. unfold extract_member, bind, get_fs.
  destruct (walk (fs s) P) as [[c| |]|] eqn:HP; try discriminate.
  destruct (mkdirs (fs s) (parent (d ++ Path (fst m)))) as [t'|] eqn:Hmk;
    [|cbn [raise snd]; by rewrite HP].
  pose proof (mkdirs_keeps_file _ _ _ _ _ Hmk HP) as HP'.
  pose proof (mkdirs_is_Dir _ _ _ Hmk) as Hpar.
  unfold set_fs at 1. cbn [fs trace].
  set (q := d ++ Path (fst m)) in *.
  assert (Hcase : diverge P q = true \/ q = P \/ (exists a r, q = P ++ a :: r)
                  \/ (exists a r, P = q ++ a :: r)).
  { destruct (path_trichotomy P q) as [Hd | [[[|a r] ->] | H]]; auto.
    - right. left. by rewrite app_nil_r.
    - right. right. left. by exists a, r. }
  assert (Hkeep : forall x, is_Dir (walk t' q) = false -> is_File (Some x) = true ->
                    is_File (walk (put t' q x) P) = true).
  { intros x Hnd Hx. destruct Hcase as [Hd | [-> | [(a & r & Hq) | (a & r & ->)]]].
    - by rewrite walk_put_diverge, HP'.
    - destruct (decide (P = [])) as [->|Hne]; [done|].
      by rewrite walk_put_same.
    - rewrite Hq, (put_through_file _ _ _ _ _ _ HP'). by rewrite HP'.
    - by rewrite (walk_prefix_Dir _ _ _ _ _ HP') in Hnd. }
  destruct (snd m) as [|c0].
  - destruct (walk t' q) as [[?|?|?]|] eqn:Hq; cbn [raise ret set_fs snd fs];
      try by rewrite HP'.
    destruct Hcase as [Hd | [-> | [(a & r & Hq') | (a & r & ->)]]].
    + by rewrite walk_put_diverge, HP'.
    + congruence.
    + rewrite Hq', (put_through_file _ _ _ _ _ _ HP'). by rewrite HP'.
    + rewrite walk_app, Hq in HP'. discriminate.
  - destruct (walk t' q) as [[?|?|?]|] eqn:Hq; cbn [raise ret set_fs snd fs];
      try (by rewrite HP'); apply Hkeep; by rewrite ?Hq.
Qed.

Lemma extractall_keeps_file P ms dest :
  preserves (fun s => is_File (walk (fs s) P) = true) (extractall ms dest).
Proof.
  intros s Hs. unfold extractall, bind, get_fs.
  destruct (locate (fs s) true dest) as [d|]; [|exact Hs].
  destruct (is_Dir (walk (fs s) d)); [|exact Hs].
  apply (preserves_for (I := fun s => is_File (walk (fs s) P) = true)); [|exact Hs].
  intros x. apply extract_member_keeps_file.
Qed.

Lemma extract_member_creates d nm c s s' :
  extract_member d (nm, MFile c) s = (Ok tt, s') ->
  walk (fs s') (d ++ Path nm) = Some (File c).
Proof.
  unfold extract_member, bind, get_fs. cbn [fst snd].
  destruct (mkdirs (fs s) (parent (d ++ Path nm))) as [t'|] eqn:Hmk; [|discriminate].
  pose proof (mkdirs_is_Dir _ _ _ Hmk) as Hpar.
  unfold set_fs at 1. cbn [fs trace].
  assert (Hput : walk (put t' (d ++ Path nm) (File c)) (d ++ Path nm) = Some (File c)).
  { destruct (decide (d ++ Path nm = [])) as [->|Hne]; [done|]. by apply walk_put_same. }
  destruct (walk t' (d ++ Path nm)) as [[?|?|?]|]; unfold set_fs, raise;
    intros H; try discriminate; injection H as <-; exact Hput.
Qed.

Lemma extract_loop_creates d nm c ms : forall s s',
  for_ ms (extract_member d) s = (Ok tt, s') ->
  (nm, MFile c) ∈ ms ->
  is_File (walk (fs s') (d ++ Path nm)) = true.
Proof.
  induction ms as [|m ms IH]; intros s s' Hrun Hin.
  - by apply elem_of_nil in Hin.
  - cbn [for_] in Hrun. apply bind_inv_Ok in Hrun as ([] & s1 & Hm & Hrest).
    apply elem_of_cons in Hin as [<- | Hin].
    + apply extract_member_creates in Hm.
      replace s' with (snd (for_ ms (extract_member d) s1)) by by rewrite Hrest.
      apply (preserves_for (I := fun s => is_File (walk (fs s) (d ++ Path nm)) = true));
        [intros x; apply extract_member_keeps_file|]. cbv beta.
      by rewrite Hm.
    + by eapply IH.
Qed.

Lemma extractall_creates ms dest nm c s s' :
  is_Dir (walk (fs s) dest) = true ->
  extractall ms dest s = (Ok tt, s') ->
  (nm, MFile c) ∈ ms ->
  is_File (walk (fs s') (dest ++ Path nm)) = true.
Proof.
  intros Hd. unfold extractall, bind, get_fs.
  destruct (walk (fs s) dest) as [x|] eqn:Hw; [|discriminate].
  rewrite (locate_walk _ true _ x Hw) by (right; by destruct x).
  rewrite Hw, Hd. apply extract_loop_creates.
Qed.

Lemma rmtree_inv p s s' :
  rmtree p true s = (Ok tt, s') ->
  s' = s \/ exists q, locate (fs s) false p = Some q /\ s' = State (del (fs s) q) (trace s).
Proof.
  unfold rmtree, bind, get_fs.
  destruct (locate (fs s) false p) as [q|]; [|unfold ret; intros H; left; congruence].
  destruct (walk (fs s) q) as [[?|?|?]|]; unfold ret, set_fs; intros H;
    injection H as <-; eauto.
Qed.

Lemma rename_inv E src dst s s' :
  rename E src dst s = (Ok tt, s') ->
  exists q1 q2 n,
    locate (fs s) false src = Some q1 /\ locate (fs s) false dst = Some q2 /\
    walk (fs s) q1 = Some n /\
    ((q1 = q2 /\ s' = s) \/ s' = State (put (del (fs s) q1) q2 n) (trace s)).
Proof.
  unfold rename, bind, get_fs.
  destruct (locate (fs s) false src) as [q1|]; [|destruct (locate _ _ _); discriminate].
  destruct (locate (fs s) false dst) as [q2|]; [|discriminate].
  destruct (walk (fs s) q1) as [n|] eqn:Hn; [|discriminate].
  intros H. exists q1, q2, n. split; [done|]. split; [done|]. split; [done|].
  destruct (bool_decide_reflect (q1 = q2)) as [->|Hne].
  { unfold ret in H. left. split; congruence. }
  right. destruct (bool_decide _); [discriminate|].
  destruct (walk (fs s) q2) as [old|].
  - destruct (String.eqb _ _); [discriminate|].
    destruct n as [?|?|?], old as [?|es|?]; unfold raise, set_fs in H; try discriminate;
      try (injection H as <-; reflexivity).
    destruct (map_to_list es); [|discriminate]. by injection H as <-.
  - unfold set_fs in H. by injection H as <-.
Qed.

(** ** The toolchain *)

Lemma preserves_run {A} (I : state -> Prop) (m : M A) s r s' :
  preserves I m -> m s = (r, s') -> I s -> I s'.
Proof. intros Hm Hrun Hs. specialize (Hm s Hs). by rewrite Hrun in Hm. Qed.

Lemma is_file_run p s : is_file p s = (Ok (is_File (stat (fs s) p)), s).
Proof. reflexivity. Qed.

Lemma _print_fs E msg col s : fs (snd (_print E msg col s)) = fs s.
Proof. unfold _print, print, emit. by destruct (String.eqb _ _). Qed.

Lemma requests_get_inv E url r s s' :
  requests_get_ E url s = (Ok r, s') ->
  requests_get E url = Some r /\ s' = State (fs s) (trace s ++ [HttpGet url]).
Proof.
  unfold requests_get_, bind, emit. destruct (requests_get E url); [|discriminate].
  unfold ret. intros H. by injection H as <- <-.
Qed.

Lemma raise_for_status_inv r s s' : raise_for_status r s = (Ok tt, s') -> s' = s.
Proof.
  unfold raise_for_status. destruct (_ && _); [discriminate|].
  unfold ret. congruence.
Qed.

Lemma lift_inv {A} (r : result A) a s s' : lift r s = (Ok a, s') -> r = Ok a /\ s' = s.
Proof. destruct r; unfold lift, ret, raise; intros H; [|discriminate]. by injection H as <- <-. Qed.

Lemma downloads_snoc tr url : downloads (tr ++ [HttpGet url]) = downloads tr ++ [HttpGet url].
Proof. unfold downloads. by rewrite List.filter_app. Qed.

(** [Path(c).mkdir(exist_ok=True)] returns with a directory at [c],
    when no symbolic link was there. *)
Lemma mkdir_top_inv c s s' :
  mkdir [c] true s = (Ok tt, s') ->
  is_Symlink (walk (fs s) [c]) = false ->
  is_Dir (walk (fs s') [c]) = true /\ trace s' = trace s.
Proof.
  unfold mkdir, try_except. intros Hrun Hlink.
  destruct (mknode [c] (Dir ∅) s) as [[[]|e] s1] eqn:Hmk.
  - injection Hrun as <-. apply mknode_inv in Hmk as (q & Hq & Hnone & ->).
    pose proof (locate_single_root _ _ _ Hq) as Hroot.
    apply locate_single in Hq as ->. cbn [fs trace]. split; [|done].
    by rewrite walk_put_same.
  - assert (s1 = s) as ->.
    { revert Hmk. unfold mknode, bind, get_fs.
      destruct (locate (fs s) false [c]) as [q|]; [|unfold raise; congruence].
      destruct (walk (fs s) q); unfold raise, set_fs; congruence. }
    destruct e; try discriminate.
    unfold is_dir, bind, get_fs, ret in Hrun. cbn [andb] in Hrun.
    destruct (is_Dir (stat (fs s) [c])) eqn:Hd; [|discriminate].
    injection Hrun as <-. split; [|done].
    destruct (walk (fs s) [c]) as [x|] eqn:Hw.
    + by rewrite (stat_walk _ _ _ Hw Hlink) in Hd.
    + unfold stat in Hd. destruct (locate (fs s) true [c]) as [q|] eqn:Hq; [|done].
      destruct (walk (fs s) q) as [x|] eqn:Hx; [|done].
      exfalso. revert Hq. unfold locate. rewrite resolve_cons.
      destruct (fs s) as [?|es|?]; try discriminate.
      cbn [walk] in Hw. destruct (es !! c) as [m|] eqn:Hc; [discriminate|].
      intros Hq. injection Hq as <-. cbn [app walk] in Hx. by rewrite Hc in Hx.
Qed.

Lemma _print_inv E msg col s r s' :
  _print E msg col s = (r, s') ->
  fs s' = fs s /\ downloads (trace s') = downloads (trace s).
Proof.
  intros Hrun. split.
  - pose proof (_print_fs E msg col s) as H. by rewrite Hrun in H.
  - pose proof (quiet__print (downloads (trace s)) E msg col s eq_refl) as H.
    by rewrite Hrun in H.
Qed.

Lemma extractall_downloads ms p s r s' :
  extractall ms p s = (r, s') -> downloads (trace s') = downloads (trace s).
Proof.
  intros Hrun. pose proof (quiet_extractall (downloads (trace s)) ms p s eq_refl) as H.
  by rewrite Hrun in H.
Qed.

Lemma locate_toolchain t follow nm r x :
  walk t ("toolchain" :: nm :: r) = Some x ->
  forall nm', follow = false \/ is_Symlink (walk t ["toolchain"; nm']) = false ->
  locate t follow ["toolchain"; nm'] = Some ["toolchain"; nm'].
Proof.
  intros Hw nm' Hf. apply locate_parent; [done | | exact Hf].
  exact (walk_prefix_Dir _ ["toolchain"] nm r _ Hw).
Qed.

Lemma rmtree_run p q s :
  locate (fs s) false p = Some q ->
  rmtree p true s
  = (Ok tt, if is_Dir (walk (fs s) q) then State (del (fs s) q) (trace s) else s).
Proof.
  intros Hq. unfold rmtree, bind, get_fs. rewrite Hq.
  by destruct (walk (fs s) q) as [[?|?|?]|].
Qed.

Lemma platform_layout platform P :
  platform_branch platform = Ok P ->
  exists spec rel,
    Path (node_spec P) ++ Path (node_executable_in_tarball P) = spec :: rel /\
    Path2 "toolchain" (node_spec P) = ["toolchain"; spec] /\
    Path2 "toolchain/node" (node_executable_in_tarball P) = "toolchain" :: "node" :: rel /\
    String.eqb spec "node" = false /\ rel <> [].
Proof.
  unfold platform_branch.
  destruct (String.eqb_spec platform "linux") as [->|_];
    [|destruct (String.eqb_spec platform "darwin") as [->|_]]; cbn [orb].
  - intros H. injection H as <-. eexists _, _.
    repeat match goal with |- _ /\ _ => split end;
      [vm_compute; reflexivity.. | discriminate].
  - intros H. injection H as <-. eexists _, _.
    repeat match goal with |- _ /\ _ => split end;
      [vm_compute; reflexivity.. | discriminate].
  - destruct (String.eqb platform "win32"); [|discriminate].
    intros H. injection H as <-. eexists _, _.
    repeat match goal with |- _ /\ _ => split end;
      [vm_compute; reflexivity.. | discriminate].
Qed.

Section Toolchain.

Variable E : Env.
Variable G : Globals.

Lemma download_toolchain_present s :
  is_File (stat (fs s) (Path2 "toolchain/node" (node_executable_in_tarball G))) = true ->
  download_toolchain E G s = (Ok tt, s).
Proof.
  intros H. unfold download_toolchain.
  by rewrite (bind_Ok _ _ _ _ _ (is_file_run _ s)), H.
Qed.

(** The second half of [download_toolchain]: the package manager is
    fetched and unpacked next to the runtime, which stays where it
    is. *)
Lemma yarn_half_keeps rel s s1 :
  is_File (walk (fs s) ("toolchain" :: "node" :: rel)) = true ->
  (_print E ("Downloading yarn from " +:+ yarn_download_url G) cyan ;;
   resp <- requests_get_ E (yarn_download_url G) ;;
   raise_for_status resp ;;
   _print E "Extracting yarn" cyan ;;
   tarball <- lift (tarfile_open tar_gz (resp_content resp)) ;;
   extractall tarball ["toolchain"] ;;
   rmtree ["toolchain"; "yarn"] true ;;
   rename E ["toolchain"; "yarn-v1.22.10"] ["toolchain"; "yarn"]) s = (Ok tt, s1) ->
  is_File (walk (fs s1) ("toolchain" :: "node" :: rel)) = true /\
  downloads (trace s1) = downloads (trace s) ++ [HttpGet (yarn_download_url G)].
Proof.
  set (P := "toolchain" :: "node" :: rel). intros HP Hrun.
  apply bind_inv_Ok in Hrun as ([] & sa & Hp1 & Hrun).
  apply bind_inv_Ok in Hrun as (resp & sb & Hget & Hrun).
  apply bind_inv_Ok in Hrun as ([] & sc & Hst & Hrun).
  apply bind_inv_Ok in Hrun as ([] & sd & Hp2 & Hrun).
  apply bind_inv_Ok in Hrun as (ms & se & Hx & Hrun).
  apply bind_inv_Ok in Hrun as ([] & sf & Hext & Hrun).
  apply bind_inv_Ok in Hrun as ([] & sg & Hrm & Hren).
  apply _print_inv in Hp1 as (Hfa & Hta).
  apply requests_get_inv in Hget as (_ & ->).
  apply raise_for_status_inv in Hst as ->.
  apply _print_inv in Hp2 as (Hfd & Htd). cbn [fs trace] in Hfd, Htd.
  rewrite downloads_snoc, Hta in Htd.
  apply lift_inv in Hx as (_ & ->).
  assert (HPf : is_File (walk (fs sf) P) = true).
  { apply (preserves_run _ _ _ _ _ (extractall_keeps_file P ms _) Hext).
    by rewrite Hfd, Hfa. }
  apply extractall_downloads in Hext. rewrite Htd in Hext.
  assert (HPg : is_File (walk (fs sg) P) = true /\ trace sg = trace sf).
  { apply rmtree_inv in Hrm as [-> | (q & Hq & ->)]; [done|]. cbn [fs trace].
    destruct (walk (fs sf) P) as [x|] eqn:Hw; [|discriminate].
    rewrite (locate_toolchain _ _ _ _ _ Hw) in Hq by by left. injection Hq as <-.
    split; [|done]. by rewrite walk_del_diverge, Hw. }
  destruct HPg as (HPg & Htg).
  apply rename_inv in Hren as (q1 & q2 & n & Hq1 & Hq2 & Hn & [[_ ->] | ->]).
  { split; [done|]. by rewrite Htg. }
  cbn [fs trace]. split; [|by rewrite Htg].
  destruct (walk (fs sg) P) as [x|] eqn:Hw; [|discriminate].
  rewrite (locate_toolchain _ _ _ _ _ Hw) in Hq1, Hq2 by by left.
  injection Hq1 as <-. injection Hq2 as <-.
  by rewrite walk_put_diverge, walk_del_diverge, Hw.
Qed.

(** A run of [download_toolchain] that finds no executable and returns
    has made the two requests and left the executable in its place. *)
Lemma download_toolchain_fetches spec rel s s1 :
  Path2 "toolchain" (node_spec G) = ["toolchain"; spec] ->
  Path2 "toolchain/node" (node_executable_in_tarball G) = "toolchain" :: "node" :: rel ->
  String.eqb spec "node" = false ->
  (forall r ms,
     requests_get E (node_download_url G) = Some r ->
     node_extractor G (resp_content r) = Ok ms ->
     exists nm c, (nm, MFile c) ∈ ms /\ Path nm = spec :: rel) ->
  is_Symlink (walk (fs s) ["toolchain"]) = false ->
  is_File (stat (fs s) ("toolchain" :: "node" :: rel)) = false ->
  download_toolchain E G s = (Ok tt, s1) ->
  is_File (walk (fs s1) ("toolchain" :: "node" :: rel)) = true /\
  downloads (trace s1)
  = downloads (trace s) ++ [HttpGet (node_download_url G); HttpGet (yarn_download_url G)].
Proof.
  intros Hspec Hexe Hsn Harch Htop Habs Hrun.
  unfold download_toolchain in Hrun.
  rewrite (bind_Ok _ _ _ _ _ (is_file_run _ s)), Hexe, Habs, Hspec in Hrun.
  apply bind_inv_Ok in Hrun as ([] & sa & Hmk & Hrun).
  apply bind_inv_Ok in Hrun as ([] & sb & Hp1 & Hrun).
  apply bind_inv_Ok in Hrun as (resp & sc & Hget & Hrun).
  apply bind_inv_Ok in Hrun as ([] & sd & Hst & Hrun).
  apply bind_inv_Ok in Hrun as ([] & se & Hp2 & Hrun).
  apply bind_inv_Ok in Hrun as (ms & sf & Hx & Hrun).
  apply bind_inv_Ok in Hrun as ([] & sg & Hext & Hrun).
  apply bind_inv_Ok in Hrun as ([] & sh & Hrm & Hrun).
  apply bind_inv_Ok in Hrun as ([] & si & Hren & Hrun).
  apply mkdir_top_inv in Hmk as (Hda & Hta); [|exact Htop].
  apply _print_inv in Hp1 as (Hfb & Htb). rewrite Hta in Htb.
  apply requests_get_inv in Hget as (Hresp & ->).
  apply raise_for_status_inv in Hst as ->.
  apply _print_inv in Hp2 as (Hfe & Hte). cbn [fs trace] in Hfe, Hte.
  rewrite downloads_snoc, Htb in Hte.
  apply lift_inv in Hx as (Hms & ->).
  destruct (Harch resp ms Hresp Hms) as (nm & c & Hin & Hnm).
  assert (Hfg : is_File (walk (fs sg) ("toolchain" :: spec :: rel)) = true).
  { change ("toolchain" :: spec :: rel) with (["toolchain"] ++ spec :: rel).
    rewrite <- Hnm. eapply extractall_creates; [|exact Hext|exact Hin].
    by rewrite Hfe, Hfb. }
  apply extractall_downloads in Hext. rewrite Hte in Hext.
  assert (Hdv : diverge ("toolchain" :: spec :: rel) ["toolchain"; "node"] = true).
  { cbn [diverge]. by rewrite String.eqb_refl, Hsn. }
  assert (Hh : is_File (walk (fs sh) ("toolchain" :: spec :: rel)) = true
               /\ is_Dir (walk (fs sh) ["toolchain"; "node"]) = false
               /\ trace sh = trace sg).
  { destruct (walk (fs sg) ("toolchain" :: spec :: rel)) as [x|] eqn:Hw; [|discriminate].
    rewrite (rmtree_run _ ["toolchain"; "node"]) in Hrm
      by (apply (locate_toolchain _ _ _ _ _ Hw); by left).
    destruct (is_Dir (walk (fs sg) ["toolchain"; "node"])) eqn:Hnode;
      [assert (sh = State (del (fs sg) ["toolchain"; "node"]) (trace sg)) as ->
         by congruence
      |assert (sh = sg) as -> by congruence].
    - cbn [fs trace].
      rewrite walk_del_diverge, Hw by exact Hdv. rewrite walk_del_same by done.
      split; [exact Hfg | split; reflexivity].
    - rewrite Hw, Hnode. split; [exact Hfg | split; reflexivity]. }
  destruct Hh as (Hfh & Hnh & Hth).
  destruct (walk (fs sh) ("toolchain" :: spec :: rel)) as [x|] eqn:Hw; [|discriminate].
  apply rename_inv in Hren as (q1 & q2 & n & Hq1 & Hq2 & Hn & Hcase).
  rewrite (locate_toolchain _ _ _ _ _ Hw) in Hq1, Hq2 by by left.
  injection Hq1 as <-. injection Hq2 as <-.
  destruct Hcase as [[Heq _] | ->].
  { injection Heq as ->. by rewrite String.eqb_refl in Hsn. }
  apply yarn_half_keeps with (rel := rel) in Hrun.
  - destruct Hrun as (HP & Htr). split; [exact HP|].
    rewrite Htr. cbn [trace]. rewrite Hth, Hext. by rewrite <- app_assoc.
  - cbn [fs]. change ("toolchain" :: "node" :: rel) with (["toolchain"; "node"] ++ rel).
    rewrite walk_put_under; [| done |].
    + change ("toolchain" :: spec :: rel) with (["toolchain"; spec] ++ rel) in Hw.
      rewrite walk_app, Hn in Hw. by rewrite Hw.
    + rewrite (same_kind_Dir _ _ (walk_del_above _ ["toolchain"] spec [])).
      exact (walk_prefix_Dir _ ["toolchain"] spec rel _ Hw).
Qed.

End Toolchain.
(** ** C7: the platform branch *)

Definition supported_platforms : list string := ["linux"; "darwin"; "win32"].

(** C7. On linux and darwin the platform branch binds a non-empty
    executable name, a download URL that contains the pinned node
    version and names a .tar.xz archive, and the tar.xz extractor; on
    win32 the same with a .zip URL and the ZIP extractor; on every other
    platform identifier it raises RuntimeError and so does loading the
    module, binding nothing. *)
Theorem C7_platform_resolution :
  (forall platform, platform = "linux" \/ platform = "darwin" ->
     exists P, platform_branch platform = Ok P /\
       node_executable P <> "" /\
       Str.contains node_version (node_download_url P) = true /\
       Str.endswith (node_download_url P) ".tar.xz" = true /\
       (forall data, node_extractor P data = tarfile_open tar_xz data) /\
       (forall fmt ms, node_extractor P (Archive fmt ms) = Ok ms <-> fmt = tar_xz)) /\
  (exists P, platform_branch "win32" = Ok P /\
       node_executable P <> "" /\
       Str.contains node_version (node_download_url P) = true /\
       Str.endswith (node_download_url P) ".zip" = true /\
       (forall data, node_extractor P data = ZipFile data) /\
       (forall fmt ms, node_extractor P (Archive fmt ms) = Ok ms <-> fmt = zip)) /\
  (forall platform, platform ∉ supported_platforms ->
     platform_branch platform = Raise (RuntimeError "Unsupported system") /\
     forall E, sys_platform E = platform ->
       load E = Raise (RuntimeError "Unsupported system")).
Proof.
  split; [|split].
  - intros platform [-> | ->]; eexists; (split; [reflexivity|]);
      (split; [discriminate|]);
      (split; [vm_compute; reflexivity|]);
      (split; [vm_compute; reflexivity|]);
      (split; [reflexivity|]);
      intros fmt ms;
      (split; [destruct fmt; simpl; congruence | intros ->; reflexivity]).
  - eexists; (split; [reflexivity|]);
      (split; [discriminate|]);
      (split; [vm_compute; reflexivity|]);
      (split; [vm_compute; reflexivity|]);
      (split; [reflexivity|]);
      intros fmt ms;
      (split; [destruct fmt; simpl; congruence | intros ->; reflexivity]).
  - intros platform Hnot.
    assert (Hb : platform_branch platform = Raise (RuntimeError "Unsupported system")).
    { unfold platform_branch, supported_platforms in *.
      destruct (String.eqb_spec platform "linux") as [->|_];
        [exfalso; apply Hnot; apply elem_of_cons; by left|].
      destruct (String.eqb_spec platform "darwin") as [->|_];
        [exfalso; apply Hnot; apply elem_of_cons; right;
         apply elem_of_cons; by left|].
      destruct (String.eqb_spec platform "win32") as [->|_];
        [exfalso; apply Hnot; do 2 (apply elem_of_cons; right);
         apply elem_of_cons; by left|].
      reflexivity. }
    split; [exact Hb|]. intros E HE. unfold load. rewrite HE, Hb. reflexivity.
Qed.

Lemma C7_platform_resolution_witness :
  ("freebsd13" ∉ supported_platforms) /\
  platform_branch "freebsd13" = Raise (RuntimeError "Unsupported system").
Proof.
  assert (H : "freebsd13" ∉ supported_platforms).
  { unfold supported_platforms. intros Hin.
    repeat (apply elem_of_cons in Hin as [Hin|Hin]; [discriminate|]).
    by apply elem_of_nil in Hin. }
  split; [exact H|].
  exact (proj1 (proj2 (proj2 C7_platform_resolution) "freebsd13" H)).
Defined.

(** ** C1: the version written into the manifest *)

(** C1. When the copy strategy writes the manifest for a non-empty
    version string, the file that nni_node/package.json denotes holds the
    source manifest with its version field set to the input followed by
    ".0" as many times as parts are missing from three; the result has
    at least three parts and an input with three parts or more is
    written as it is.  "1", "1.2", "1.2.3" and "1.2.3.4" give "1.0.0",
    "1.2.0", "1.2.3" and "1.2.3.4". *)
Theorem C1_version_padding (E : Env) (version : string) (s s' : state) :
  version <> "" ->
  write_manifest E (Some version) s = (Ok tt, s') ->
  (exists d q,
     json_load E (Path! "ts/nni_manager/package.json") s = (Ok (JObj d), s) /\
     locate (fs s) true (Path! "nni_node/package.json") = Some q /\
     s' = State (put (fs s) q
                   (File (JsonText (JObj (<["version" := JStr (pad_version version)]> d)))))
                (trace s)) /\
  pad_version version
    = Str.append_zeros (3 - length (Str.split "." version)) version /\
  3 <= length (Str.split "." (pad_version version)) /\
  (3 <= length (Str.split "." version) -> pad_version version = version) /\
  pad_version "1" = "1.0.0" /\
  pad_version "1.2" = "1.2.0" /\
  pad_version "1.2.3" = "1.2.3" /\
  pad_version "1.2.3.4" = "1.2.3.4".
Proof.
  intros Hne Hrun. split; [|split; [|split; [|split]]].
  - unfold write_manifest in Hrun.
    apply bind_inv_Ok in Hrun as (doc & s1 & Hload & Hrun).
    pose proof (json_load_state _ _ _ _ _ Hload) as ->.
    apply bind_inv_Ok in Hrun as (doc' & s2 & Hset & Hrun).
    assert (Ht : truthy (Some version) = true) by (by destruct version).
    rewrite Ht in Hset. destruct doc as [| | | | |d]; try discriminate.
    unfold setitem, ret in Hset. injection Hset as <- <-.
    unfold json_dump, write_file, bind, get_fs in Hrun.
    destruct (locate (fs s) true (Path! "nni_node/package.json")) as [q|] eqn:Hq;
      [|discriminate].
    exists d, q. split; [exact Hload|]. split; [reflexivity|].
    destruct (walk (fs s) q) as [[c|es|t]|]; unfold set_fs, raise in Hrun;
      congruence.
  - apply pad_version_zeros.
  - rewrite pad_version_zeros, split_append_zeros. lia.
  - intros H3. rewrite pad_version_zeros.
    replace (3 - length (Str.split "." version)) with 0 by lia. reflexivity.
  - repeat split; vm_compute; reflexivity.
Qed.

Lemma C1_version_padding_witness :
  let E := Sample.env "linux" None None Sample.yarn_ok in
  let s := Sample.start Sample.prepared_tree in
  "1.2" <> "" /\
  write_manifest E (Some "1.2") s
  = (Ok tt,
     State (put (fs s) (Path! "nni_node/package.json")
              (File (JsonText (JObj (<["version" := JStr "1.2.0"]>
                 (list_to_map [("name", JStr "nni");
                               ("version", JStr "999.0.0-developing")]))))))
           []) /\
  pad_version "1.2" = Str.append_zeros (3 - length (Str.split "." "1.2")) "1.2" /\
  3 <= length (Str.split "." (pad_version "1.2")).
Proof.
  intros E s.
  assert (H1 : "1.2" <> "") by discriminate.
  assert (H2 : write_manifest E (Some "1.2") s
    = (Ok tt,
       State (put (fs s) (Path! "nni_node/package.json")
                (File (JsonText (JObj (<["version" := JStr "1.2.0"]>
                   (list_to_map [("name", JStr "nni");
                                 ("version", JStr "999.0.0-developing")]))))))
             [])) by (vm_compute; reflexivity).
  destruct (C1_version_padding E "1.2" s _ H1 H2) as (_ & H3 & H4 & _).
  exact (conj H1 (conj H2 (conj H3 H4))).
Defined.

(** ** C2: patching and restoring the extension manifest *)

Section Manifest.

Variable E : Env.
Hypothesis Hmajor : jupyter_lab_major_version E = "2".

Let pkg : path := Path! "ts/jupyter_extension/package.json".
Let side : path := Path! "ts/jupyter_extension/.package_default.json".

(** What [update_package] leaves behind, whether it returns or raises. *)
Lemma update_package_post s c j :
  walk (fs s) pkg = Some (File c) ->
  json_load E pkg s = (Ok j, s) ->
  is_Dir (walk (fs s) side) = false ->
  is_Symlink (walk (fs s) side) = false ->
  exists r1 s1,
    update_package E s = (r1, s1) /\
    walk (fs s1) side = Some (File (JsonText j)) /\
    (exists c1, walk (fs s1) pkg = Some (File c1)) /\
    forall p, diverge p pkg = true -> diverge p side = true ->
              walk (fs s1) p = walk (fs s) p.
Proof.
  intros Hpkg Hload Hd Hl.
  assert (Hpar : is_Dir (walk (fs s) (parent side)) = true).
  { change (parent side) with (parent pkg). by eapply walk_parent. }
  unfold update_package. rewrite Hmajor. change ("2" =? "2")%string with true.
  rewrite when_true. fold pkg side.
  rewrite (bind_Ok _ _ _ _ _ Hload).
  unfold json_dump at 1.
  rewrite (bind_Ok _ _ _ _ _ (write_file_run side (JsonText j) s ltac:(done) Hpar Hl Hd)).
  set (s_a := State (put (fs s) side (File (JsonText j))) (trace s)).
  assert (Ha_side : walk (fs s_a) side = Some (File (JsonText j))).
  { apply walk_put_same; done. }
  assert (Ha_pkg : walk (fs s_a) pkg = Some (File c)).
  { unfold s_a. cbn [fs]. rewrite walk_put_diverge by reflexivity. exact Hpkg. }
  assert (Ha_frame : forall p, diverge p side = true -> walk (fs s_a) p = walk (fs s) p).
  { intros p Hp. unfold s_a. cbn [fs]. by apply walk_put_diverge. }
  clearbody s_a.
  repeat match goal with
  | |- context [bind (getitem ?d ?k) ?f ?st] =>
      let Hg := fresh "Hg" in
      destruct (getitem d k st) as [[?|?] ?] eqn:Hg;
      pose proof (getitem_state _ _ _ _ _ Hg); subst;
      [rewrite (bind_Ok _ _ _ _ _ Hg) | rewrite (bind_Raise _ _ _ _ _ Hg); eauto 10]
  | |- context [bind (setitem ?d ?k ?v) ?f ?st] =>
      let Hg := fresh "Hg" in
      destruct (setitem d k v st) as [[?|?] ?] eqn:Hg;
      pose proof (setitem_state _ _ _ _ _ _ Hg); subst;
      [rewrite (bind_Ok _ _ _ _ _ Hg) | rewrite (bind_Raise _ _ _ _ _ Hg); eauto 10]
  end.
  unfold json_dump.
  match goal with |- context [bind (write_file pkg ?c') _ s_a] =>
    assert (Hw : write_file pkg c' s_a
                 = (Ok tt, State (put (fs s_a) pkg (File c')) (trace s_a)))
  end.
  { apply write_file_run; [done | by eapply walk_parent | by rewrite Ha_pkg..]. }
  rewrite (bind_Ok _ _ _ _ _ Hw).
  unfold emit. cbn [fs trace].
  eexists _, _. split; [reflexivity|]. cbn [fs]. split; [|split].
  - rewrite walk_put_diverge by reflexivity. exact Ha_side.
  - eexists. apply walk_put_same; [done | by eapply walk_parent].
  - intros p Hp1 Hp2. rewrite walk_put_diverge by done. by apply Ha_frame.
Qed.

Lemma restore_package_post s1 j :
  walk (fs s1) side = Some (File (JsonText j)) ->
  (exists c1, walk (fs s1) pkg = Some (File c1)) ->
  restore_package E s1
  = (Ok tt, State (del (put (fs s1) pkg (File (JsonText j))) side)
                  (trace s1 ++ [PrintedDoc "stored package.json with " j])).
Proof.
  intros Hside [c1 Hpkg].
  unfold restore_package. rewrite Hmajor. change ("2" =? "2")%string with true.
  rewrite when_true. fold pkg side.
  rewrite (bind_Ok _ _ _ _ _ (json_load_run E side j s1 Hside)).
  unfold emit at 1. unfold bind at 1. unfold json_dump.
  set (s_b := State (fs s1) (trace s1 ++ [PrintedDoc "stored package.json with " j])).
  assert (Hw : write_file pkg (JsonText j) s_b
               = (Ok tt, State (put (fs s_b) pkg (File (JsonText j))) (trace s_b))).
  { apply write_file_run; [done | by eapply walk_parent | by (cbn [fs s_b]; rewrite Hpkg)..]. }
  rewrite (bind_Ok _ _ _ _ _ Hw).
  apply unlink_run; cbn [fs s_b];
    rewrite walk_put_diverge by reflexivity; by rewrite Hside.
Qed.

End Manifest.

(** C2. With JupyterLab major version "2", when
    ts/jupyter_extension/package.json is a regular file that loads as a
    document and the sidecar path is free or a regular file:
    restore_package after update_package (whether that returned or
    raised) returns, package.json holds the text of the document it
    held before, so loads field for field as before, the sidecar
    .package_default.json is gone, and the paths apart from these two
    are as before.  With any other major version both functions return
    and leave the state as it is. *)
Theorem C2_patch_restore_roundtrip (E : Env) (s : state) :
  (jupyter_lab_major_version E = "2" ->
   forall c j,
     walk (fs s) (Path! "ts/jupyter_extension/package.json") = Some (File c) ->
     json_load E (Path! "ts/jupyter_extension/package.json") s = (Ok j, s) ->
     is_Dir (walk (fs s) (Path! "ts/jupyter_extension/.package_default.json")) = false ->
     is_Symlink (walk (fs s) (Path! "ts/jupyter_extension/.package_default.json")) = false ->
     exists r1 s1 s2,
       update_package E s = (r1, s1) /\
       restore_package E s1 = (Ok tt, s2) /\
       walk (fs s2) (Path! "ts/jupyter_extension/package.json") = Some (File (JsonText j)) /\
       json_load E (Path! "ts/jupyter_extension/package.json") s2 = (Ok j, s2) /\
       walk (fs s2) (Path! "ts/jupyter_extension/.package_default.json") = None /\
       forall p,
         diverge p (Path! "ts/jupyter_extension/package.json") = true ->
         diverge p (Path! "ts/jupyter_extension/.package_default.json") = true ->
         walk (fs s2) p = walk (fs s) p) /\
  (jupyter_lab_major_version E <> "2" ->
   update_package E s = (Ok tt, s) /\ restore_package E s = (Ok tt, s)).
Proof.
  split.
  - intros Hmajor c j Hpkg Hload Hd Hl.
    destruct (update_package_post E Hmajor s c j Hpkg Hload Hd Hl)
      as (r1 & s1 & Hup & Hside & Hpkg1 & Hframe).
    pose proof (restore_package_post E Hmajor s1 j Hside Hpkg1) as Hre.
    destruct Hpkg1 as [c1 Hpkg1].
    assert (Hfinal : walk (del (put (fs s1) (Path! "ts/jupyter_extension/package.json")
                                  (File (JsonText j)))
                              (Path! "ts/jupyter_extension/.package_default.json"))
                       (Path! "ts/jupyter_extension/package.json")
                     = Some (File (JsonText j))).
    { rewrite walk_del_diverge by reflexivity.
      apply walk_put_same; [done | by eapply walk_parent]. }
    eexists r1, s1, _. split; [exact Hup|]. split; [exact Hre|]. cbn [fs].
    split; [exact Hfinal|]. split; [by apply json_load_run|].
    split; [by apply walk_del_same|].
    intros p Hp1 Hp2. rewrite walk_del_diverge, walk_put_diverge by done.
    by apply Hframe.
  - intros Hmajor. unfold update_package, restore_package.
    destruct (String.eqb_spec (jupyter_lab_major_version E) "2") as [H2|_]; [done|].
    split; reflexivity.
Qed.

Lemma C2_patch_restore_roundtrip_witness :
  let E2 := Sample.env "linux" (Some "2.3.1") None Sample.yarn_ok in
  let E3 := Sample.env "linux" (Some "3.0.14") None Sample.yarn_ok in
  let s := Sample.start Sample.tree in
  (exists r1 s1 s2,
     update_package E2 s = (r1, s1) /\
     restore_package E2 s1 = (Ok tt, s2) /\
     walk (fs s2) (Path! "ts/jupyter_extension/package.json")
       = Some (File (JsonText Sample.extension_manifest)) /\
     json_load E2 (Path! "ts/jupyter_extension/package.json") s2
       = (Ok Sample.extension_manifest, s2) /\
     walk (fs s2) (Path! "ts/jupyter_extension/.package_default.json") = None /\
     forall p,
       diverge p (Path! "ts/jupyter_extension/package.json") = true ->
       diverge p (Path! "ts/jupyter_extension/.package_default.json") = true ->
       walk (fs s2) p = walk (fs s) p) /\
  (update_package E3 s = (Ok tt, s) /\ restore_package E3 s = (Ok tt, s)).
Proof.
  intros E2 E3 s. split.
  - apply (proj1 (C2_patch_restore_roundtrip E2 s))
      with (c := JsonText Sample.extension_manifest);
      vm_compute; reflexivity.
  - apply (proj2 (C2_patch_restore_roundtrip E3 s)).
    vm_compute. discriminate.
Defined.

(** ** C3: the manifest after a failed compilation *)

Lemma patched_manifest_differs :
  Sample.patched_extension_manifest <> Sample.extension_manifest.
Proof.
  intros H.
  apply (f_equal (fun doc => match doc with
                             | JObj d => match d !! "dependencies" with
                                         | Some (JObj deps) => size deps
                                         | _ => 0
                                         end
                             | _ => 0
                             end)) in H.
  vm_compute in H. discriminate.
Qed.

(** C3, at a failing input.  JupyterLab 2.3.1 is installed and the
    package manager fails in ts/webui: [build] raises the
    CalledProcessError, and in the state it leaves
    ts/jupyter_extension/package.json holds the patched manifest while
    the sidecar still holds the original one: [restore_package] did not
    run on this exit path. *)
Theorem C3_compile_failure_skips_restore :
  let E := Sample.env "linux" (Some "2.3.1") None (Sample.yarn_failing_in "ts/webui") in
  let G := Sample.globals "linux" in
  let s := Sample.start Sample.tree in
  load E = Ok G /\
  jupyter_lab_major_version E = "2" /\
  fst (build E G None s) = Raise (CalledProcessError 1 [_yarn_path G]) /\
  walk (fs s) (Path! "ts/jupyter_extension/package.json")
    = Some (File (JsonText Sample.extension_manifest)) /\
  walk (fs (snd (build E G None s))) (Path! "ts/jupyter_extension/package.json")
    = Some (File (JsonText Sample.patched_extension_manifest)) /\
  walk (fs (snd (build E G None s))) (Path! "ts/jupyter_extension/.package_default.json")
    = Some (File (JsonText Sample.extension_manifest)).
Proof.
  vm_compute. repeat match goal with |- _ /\ _ => split end; reflexivity.
Qed.

(** ** C4: a failure of the optional module *)

(** In a development build the failure is caught where it is raised:
    the two package-manager runs of the extension, wrapped as in
    [compile_ts], return after two yellow lines, the second with the
    trace. *)
Lemma extension_failure_caught (E : Env) (G : Globals) (s s1 : state) (e : exn) :
  (_yarn E G "ts/jupyter_extension" [] ;;
   _yarn E G "ts/jupyter_extension" ["build"]) s = (Raise e, s1) ->
  try_except
    (_yarn E G "ts/jupyter_extension" [] ;;
     _yarn E G "ts/jupyter_extension" ["build"])
    (fun e =>
       _print E "Failed to build JupyterLab extension, skip for develop mode" yellow ;;
       _print E (format_exc e) yellow) s
  = (_print E "Failed to build JupyterLab extension, skip for develop mode" yellow ;;
     _print E (format_exc e) yellow) s1.
Proof. intros H. unfold try_except. by rewrite H. Qed.

(** In a release build nothing catches it. *)
Lemma extension_failure_propagates (E : Env) (G : Globals) (release : option string)
    (s s0 s1 : state) (e : exn) (k : M unit) :
  truthy release = true ->
  (_print E "Building NNI manager" cyan ;;
   _yarn E G "ts/nni_manager" [] ;;
   _yarn E G "ts/nni_manager" ["build"] ;;
   rmtree (Path! "ts/nni_manager/dist/config") true ;;
   copytree (Path! "ts/nni_manager/config") (Path! "ts/nni_manager/dist/config") ;;
   _print E "Building web UI" cyan ;;
   _yarn E G "ts/webui" [] ;;
   _yarn E G "ts/webui" ["build"] ;;
   _print E "Building JupyterLab extension" cyan) s = (Ok tt, s0) ->
  (_yarn E G "ts/jupyter_extension" [] ;;
   _yarn E G "ts/jupyter_extension" ["build"]) s0 = (Raise e, s1) ->
  (compile_ts E G release ;; k) s = (Raise e, s1).
Proof.
  intros Hrel Hfront Hfail. unfold compile_ts. rewrite Hrel.
  repeat (apply bind_inv_Ok in Hfront as ([] & ? & Hstep & Hfront);
          rewrite bind_assoc, (bind_Ok _ _ _ _ _ Hstep); clear Hstep).
  rewrite bind_assoc, (bind_Ok _ _ _ _ _ Hfront).
  by apply bind_Raise.
Qed.

(** C4, at a failing input.  JupyterLab 2.3.1 is installed, this is a
    development build (release is None) and the package manager fails in
    ts/jupyter_extension without producing ts/jupyter_extension/build.
    [compile_ts] catches the failure and logs it, the symlink strategy
    starts, and the build raises FileNotFoundError in the legacy arm of
    the notebook extension; on win32 the copy strategy raises in the same
    arm.  With JupyterLab 3 the same build returns. *)
Theorem C4_develop_build_raises_in_legacy_arm :
  let yarn := Sample.yarn_failing_in "ts/jupyter_extension" in
  let E := Sample.env "linux" (Some "2.3.1") None yarn in
  let G := Sample.globals "linux" in
  let s := Sample.start Sample.tree in
  let Ew := Sample.env "win32" (Some "2.3.1") None yarn in
  let Gw := Sample.globals "win32" in
  let sw := Sample.start Sample.windows_tree in
  let E3 := Sample.env "linux" (Some "3.0.14") None yarn in
  (load E = Ok G /\
   fst (build E G None s)
     = Raise (FileNotFoundError (Path! "nni_node/jupyter-extension/extensions")) /\
   In (Printed (ESC +:+ "[1;33m# Failed to build JupyterLab extension, skip for develop mode "
                +:+ ESC +:+ "[0m"))
      (trace (snd (build E G None s))) /\
   In (Printed (ESC +:+ "[1;33m# " +:+ format_exc (CalledProcessError 1 [_yarn_path G])
                +:+ " " +:+ ESC +:+ "[0m"))
      (trace (snd (build E G None s))) /\
   In (Printed (ESC +:+ "[1;36m# Creating symlinks " +:+ ESC +:+ "[0m"))
      (trace (snd (build E G None s)))) /\
  (load Ew = Ok Gw /\
   fst (build Ew Gw None sw)
     = Raise (FileNotFoundError (Path! "ts/jupyter_extension/build")) /\
   In (Printed "Copying files") (trace (snd (build Ew Gw None sw)))) /\
  (load E3 = Ok G /\ fst (build E3 G None s) = Ok tt).
Proof.
  vm_compute.
  repeat match goal with |- _ /\ _ => split end;
    try reflexivity; repeat (first [left; reflexivity | right]).
Qed.

(** ** C9: the notebook-extension arm of the two strategies *)

Lemma symlink_jupyter_by_arm (E : Env) (s : state) :
  symlink_jupyter E s
  = match symlink_jupyter_arm E (fs s) with
    | legacy_arm =>
        (_symlink (Path! "ts/jupyter_extension/build") (Path! "nni_node/jupyter-extension") ;;
         _symlink (Path (os_path_join (sys_exec_prefix E) "share/jupyter/lab/extensions"))
                  (Path! "nni_node/jupyter-extension/extensions")) s
    | newer_arm =>
        _symlink (Path! "ts/jupyter_extension/dist") (Path! "nni_node/jupyter-extension") s
    | no_arm => (Ok tt, s)
    end.
Proof.
  unfold symlink_jupyter, symlink_jupyter_arm.
  destruct (String.eqb (jupyter_lab_major_version E) "2"); [reflexivity|].
  unfold exists_. unfold bind at 1 2. unfold get_fs, ret at 1.
  by destruct (is_Some_node _).
Qed.

Lemma copy_jupyter_by_arm (E : Env) (version : option string) (s : state) :
  copy_jupyter E version s
  = match copy_jupyter_arm E version (fs s) with
    | legacy_arm =>
        (copytree (Path! "ts/jupyter_extension/build")
                  (Path! "nni_node/jupyter-extension/build") ;;
         copytree (Path (os_path_join (sys_exec_prefix E) "share/jupyter/lab/extensions"))
                  (Path! "nni_node/jupyter-extension/extensions")) s
    | newer_arm =>
        copytree (Path! "ts/jupyter_extension/dist") (Path! "nni_node/jupyter-extension") s
    | no_arm => (Ok tt, s)
    end.
Proof.
  unfold copy_jupyter, copy_jupyter_arm.
  destruct (String.eqb (jupyter_lab_major_version E) "2"); [reflexivity|].
  destruct (truthy version); [reflexivity|].
  unfold exists_. unfold bind at 1 2. unfold get_fs, ret at 1. cbn [orb].
  by destruct (is_Some_node _).
Qed.

(** C9, at a failing input.  JupyterLab 3, version "1.0", and no
    ts/jupyter_extension/dist: the copy strategy takes the arm that
    copies dist/ and raises FileNotFoundError, the symlink strategy takes
    no arm and returns. *)
Lemma C9_counterexample :
  let E := Sample.env "linux" (Some "3.0.14") None Sample.yarn_ok in
  let s := Sample.start Sample.prepared_tree in
  copy_jupyter_arm E (Some "1.0") (fs s) <> symlink_jupyter_arm E (fs s) /\
  copy_jupyter E (Some "1.0") s
    = (Raise (FileNotFoundError (Path! "ts/jupyter_extension/dist")), s) /\
  symlink_jupyter E s = (Ok tt, s).
Proof.
  vm_compute. split; [discriminate|]. split; reflexivity.
Qed.

(** C9, amended.  Each strategy runs the arm its conditions select.
    Both select the legacy arm exactly when the major version is "2".
    Otherwise the symlink strategy handles dist/ exactly when it exists,
    and the copy strategy handles it when the version is non-empty or
    dist/ exists: the two select the same arm whenever the version is
    empty or None, the major version is "2", or dist/ exists. *)
Theorem C9_same_arm_unless_release_without_dist
    (E : Env) (version : option string) (t : node) :
  (forall s,
     symlink_jupyter E s
     = match symlink_jupyter_arm E (fs s) with
       | legacy_arm =>
           (_symlink (Path! "ts/jupyter_extension/build")
                     (Path! "nni_node/jupyter-extension") ;;
            _symlink (Path (os_path_join (sys_exec_prefix E) "share/jupyter/lab/extensions"))
                     (Path! "nni_node/jupyter-extension/extensions")) s
       | newer_arm =>
           _symlink (Path! "ts/jupyter_extension/dist") (Path! "nni_node/jupyter-extension") s
       | no_arm => (Ok tt, s)
       end) /\
  (forall s,
     copy_jupyter E version s
     = match copy_jupyter_arm E version (fs s) with
       | legacy_arm =>
           (copytree (Path! "ts/jupyter_extension/build")
                     (Path! "nni_node/jupyter-extension/build") ;;
            copytree (Path (os_path_join (sys_exec_prefix E) "share/jupyter/lab/extensions"))
                     (Path! "nni_node/jupyter-extension/extensions")) s
       | newer_arm =>
           copytree (Path! "ts/jupyter_extension/dist") (Path! "nni_node/jupyter-extension") s
       | no_arm => (Ok tt, s)
       end) /\
  (symlink_jupyter_arm E t = legacy_arm <-> jupyter_lab_major_version E = "2") /\
  (copy_jupyter_arm E version t = legacy_arm <-> jupyter_lab_major_version E = "2") /\
  (jupyter_lab_major_version E <> "2" ->
   (symlink_jupyter_arm E t = newer_arm
    <-> is_Some_node (stat t (Path! "ts/jupyter_extension/dist")) = true) /\
   (copy_jupyter_arm E version t = newer_arm
    <-> truthy version = true
        \/ is_Some_node (stat t (Path! "ts/jupyter_extension/dist")) = true)) /\
  (truthy version = false \/ jupyter_lab_major_version E = "2"
   \/ is_Some_node (stat t (Path! "ts/jupyter_extension/dist")) = true ->
   copy_jupyter_arm E version t = symlink_jupyter_arm E t).
Proof.
  split; [apply symlink_jupyter_by_arm|].
  split; [intros s; apply copy_jupyter_by_arm|].
  unfold symlink_jupyter_arm, copy_jupyter_arm.
  destruct (String.eqb_spec (jupyter_lab_major_version E) "2") as [H2|H2].
  - repeat split; try done. 
  - destruct (truthy version) eqn:Hv,
      (is_Some_node (stat t (Path! "ts/jupyter_extension/dist"))) eqn:Hd; cbn [orb].
    all: repeat split; try done; try intuition congruence.
Qed.

Lemma C9_same_arm_unless_release_without_dist_witness :
  let E := Sample.env "linux" (Some "3.0.14") None Sample.yarn_ok in
  let t := Sample.prepared_tree in
  jupyter_lab_major_version E <> "2" /\
  (truthy None = false \/ jupyter_lab_major_version E = "2"
   \/ is_Some_node (stat t (Path! "ts/jupyter_extension/dist")) = true) /\
  (copy_jupyter_arm E (Some "1.0") t = newer_arm
   <-> truthy (Some "1.0") = true
       \/ is_Some_node (stat t (Path! "ts/jupyter_extension/dist")) = true) /\
  copy_jupyter_arm E None t = symlink_jupyter_arm E t.
Proof.
  intros E t.
  assert (H2 : jupyter_lab_major_version E <> "2") by (vm_compute; discriminate).
  assert (H : truthy None = false \/ jupyter_lab_major_version E = "2"
              \/ is_Some_node (stat t (Path! "ts/jupyter_extension/dist")) = true)
    by (left; reflexivity).
  split; [exact H2|]. split; [exact H|]. split.
  - exact (proj2 (proj1 (proj2 (proj2 (proj2 (proj2
             (C9_same_arm_unless_release_without_dist E (Some "1.0") t))))) H2)).
  - exact (proj2 (proj2 (proj2 (proj2 (proj2
             (C9_same_arm_unless_release_without_dist E None t))))) H).
Defined.

(** ** C10: a global-toolchain development build *)

(** C10.  With GLOBAL_TOOLCHAIN set and an empty or absent release,
    [build] skips [download_toolchain]: it is the rest of the sequence,
    and no request is made whatever the outcome.  [prepare_nni_node]
    still copies the executable from toolchain/node/<in-archive path>:
    when no component of that path is a symbolic link, the build returns
    only if the path is a regular file before the build, and raises
    otherwise. *)
Theorem C10_global_toolchain_needs_local_node
    (E : Env) (G : Globals) (release : option string) (s : state) :
  load E = Ok G ->
  truthy (environ_get E "GLOBAL_TOOLCHAIN") = true ->
  truthy release = false ->
  build E G release s
  = (prepare_nni_node G ;;
     update_package E ;;
     compile_ts E G release ;;
     (if String.eqb (sys_platform E) "win32"
      then copy_nni_node E G release
      else symlink_nni_node E) ;;
     restore_package E) s /\
  downloads (trace (snd (build E G release s))) = downloads (trace s) /\
  (linkfree (fs s) (Path2 "toolchain/node" (node_executable_in_tarball G)) = true ->
   (fst (build E G release s) = Ok tt ->
    is_File (walk (fs s) (Path2 "toolchain/node" (node_executable_in_tarball G))) = true) /\
   (is_File (walk (fs s) (Path2 "toolchain/node" (node_executable_in_tarball G))) = false ->
    exists e, fst (build E G release s) = Raise e)).
Proof.
  intros Hload Hglobal Hrel.
  assert (Hbuild : build E G release s
    = (prepare_nni_node G ;;
       update_package E ;;
       compile_ts E G release ;;
       (if String.eqb (sys_platform E) "win32"
        then copy_nni_node E G release
        else symlink_nni_node E) ;;
       restore_package E) s).
  { unfold build. rewrite Hglobal, Hrel. reflexivity. }
  split; [exact Hbuild|]. split.
  - rewrite Hbuild.
    apply (preserves_bind (I := fun s' => downloads (trace s') = downloads (trace s)));
      [apply quiet_prepare_nni_node | intros _ | reflexivity].
    apply preserves_bind; [apply quiet_update_package | intros _].
    apply preserves_bind; [apply quiet_compile_ts | intros _].
    apply preserves_bind; [|intros _; apply quiet_restore_package].
    destruct (String.eqb (sys_platform E) "win32");
      [apply quiet_copy_nni_node | apply quiet_symlink_nni_node].
  - intros Hfree.
    assert (Hsrc : exists r, Path2 "toolchain/node" (node_executable_in_tarball G)
                             = "toolchain" :: r).
    { destruct (platform_node_src _ _ (load_platform _ _ Hload)) as [-> | ->]; eauto. }
    destruct Hsrc as [r Hsrc].
    assert (Hok : fst (build E G release s) = Ok tt ->
                  is_File (walk (fs s) (Path2 "toolchain/node"
                                          (node_executable_in_tarball G))) = true).
    { rewrite Hbuild. intros Hfst.
      destruct ((prepare_nni_node G ;; update_package E ;; compile_ts E G release ;;
                 (if String.eqb (sys_platform E) "win32"
                  then copy_nni_node E G release else symlink_nni_node E) ;;
                 restore_package E) s) as [res s'] eqn:Hrun.
      cbn [fst] in Hfst. subst res.
      apply bind_inv_Ok in Hrun as ([] & s1 & Hprep & _).
      rewrite Hsrc in Hfree |- *.
      by eapply prepare_nni_node_inv. }
    split; [exact Hok|].
    intros Hnot. destruct (fst (build E G release s)) as [[]|e] eqn:Hres; [|eauto].
    rewrite Hok in Hnot by reflexivity. discriminate.
Qed.

Lemma C10_global_toolchain_needs_local_node_witness :
  let E := Sample.env "linux" (Some "3.0.14") (Some "1") Sample.yarn_ok in
  let G := Sample.globals "linux" in
  let s := Sample.start Sample.fresh_tree in
  downloads (trace (snd (build E G None s))) = [] /\
  exists e, fst (build E G None s) = Raise e.
Proof.
  intros E G s.
  assert (Hload : load E = Ok G) by (vm_compute; reflexivity).
  assert (Hglobal : truthy (environ_get E "GLOBAL_TOOLCHAIN") = true)
    by (vm_compute; reflexivity).
  assert (Hrel : truthy None = false) by reflexivity.
  destruct (C10_global_toolchain_needs_local_node E G None s Hload Hglobal Hrel)
    as (_ & Hquiet & Hneeds).
  split; [exact Hquiet|].
  apply Hneeds; vm_compute; reflexivity.
Defined.

(** ** C6: [clean] *)

(** Where the generated files are: below ts/nni_manager or ts/webui,
    apart from nni_node and toolchain. *)
Lemma generated_files_paths :
  Forall (fun g =>
            Path g <> [] /\
            (parent (Path g) = Path! "ts/nni_manager"
             \/ parent (Path g) = Path! "ts/webui") /\
            diverge (Path! "nni_node") (Path g) = true /\
            diverge (Path! "toolchain") (Path g) = true)
         generated_files.
Proof.
  unfold generated_files.
  repeat (constructor;
          [split; [vm_compute; discriminate|];
           split; [vm_compute; first [by left | by right]|];
           split; vm_compute; reflexivity|]).
  constructor.
Qed.

(** C6.  When ts/nni_manager and ts/webui are not reached through
    symbolic links, [clean] returns; afterwards nothing is at any path of
    [generated_files] (no file, directory or link), a directory nni_node
    is gone (what else may be at that name is left), and the toolchain
    is as before when [clean_all] is false and gone, if it was a
    directory, when [clean_all] is true. *)
Theorem C6_clean_removes_generated (clean_all : bool) (s : state) :
  linkfree (fs s) (Path! "ts/nni_manager") = true ->
  linkfree (fs s) (Path! "ts/webui") = true ->
  exists s',
    clean clean_all s = (Ok tt, s') /\
    (forall g, In g generated_files ->
       walk (fs s') (Path g) = None /\ lstat (fs s') (Path g) = None) /\
    walk (fs s') (Path! "nni_node")
      = (if is_Dir (walk (fs s) (Path! "nni_node")) then None
         else walk (fs s) (Path! "nni_node")) /\
    (clean_all = false ->
     walk (fs s') (Path! "toolchain") = walk (fs s) (Path! "toolchain")) /\
    (clean_all = true ->
     walk (fs s') (Path! "toolchain")
       = (if is_Dir (walk (fs s) (Path! "toolchain")) then None
          else walk (fs s) (Path! "toolchain"))).
Proof.
  intros Hmgr Hweb. unfold clean.
  rewrite (bind_Ok _ _ _ _ _ (rmtree_top_exact "nni_node" s)).
  set (s1 := if is_Dir (walk (fs s) ["nni_node"])
             then State (del (fs s) ["nni_node"]) (trace s) else s).
  assert (Hfree1 : forall p, linkfree (fs s) p = true -> linkfree (fs s1) p = true).
  { intros p Hp. unfold s1. destruct (is_Dir _); [by apply linkfree_del | exact Hp]. }
  assert (Hnni1 : walk (fs s1) ["nni_node"]
                  = if is_Dir (walk (fs s) ["nni_node"]) then None
                    else walk (fs s) ["nni_node"]).
  { unfold s1. destruct (is_Dir _); [by apply walk_del_same | reflexivity]. }
  assert (Htc1 : walk (fs s1) ["toolchain"] = walk (fs s) ["toolchain"]).
  { unfold s1. destruct (is_Dir _); [by apply walk_del_diverge | reflexivity]. }
  clearbody s1.
  destruct (clean_loop generated_files s1) as (s2 & Hloop & _ & Hgone & _ & Hframe & Hfree2).
  { eapply Forall_impl; [exact generated_files_paths|].
    intros g (Hne & [-> | ->] & _); split; auto. }
  rewrite (bind_Ok _ _ _ _ _ Hloop).
  assert (Hnni2 : walk (fs s2) ["nni_node"] = walk (fs s1) ["nni_node"]).
  { apply Hframe. intros g Hg.
    pose proof generated_files_paths as Hall. rewrite Forall_forall in Hall.
    apply Hall. by apply list_elem_of_In. }
  assert (Htc2 : walk (fs s2) ["toolchain"] = walk (fs s1) ["toolchain"]).
  { apply Hframe. intros g Hg.
    pose proof generated_files_paths as Hall. rewrite Forall_forall in Hall.
    apply Hall. by apply list_elem_of_In. }
  assert (Hpar2 : forall g, In g generated_files ->
                            linkfree (fs s2) (parent (Path g)) = true).
  { intros g Hg. pose proof generated_files_paths as Hall.
    rewrite Forall_forall in Hall.
    destruct (Hall g) as (_ & [-> | ->] & _); [by apply list_elem_of_In|..]; auto. }
  destruct clean_all; cbn [when].
  - rewrite rmtree_top_exact. eexists. split; [reflexivity|].
    split; [|split; [|split]].
    + intros g Hg.
      assert (Hw : walk (fs (if is_Dir (walk (fs s2) ["toolchain"])
                             then State (del (fs s2) ["toolchain"]) (trace s2) else s2))
                        (Path g) = None).
      { destruct (is_Dir (walk (fs s2) ["toolchain"])); [apply walk_del_None|]; by apply Hgone. }
      split; [exact Hw|]. rewrite lstat_real; [exact Hw|].
      destruct (is_Dir (walk (fs s2) ["toolchain"])); [apply linkfree_del|]; by apply Hpar2.
    + rewrite <- Hnni1, <- Hnni2.
      destruct (is_Dir (walk (fs s2) ["toolchain"])); [by apply walk_del_diverge | reflexivity].
    + discriminate.
    + intros _. rewrite <- Htc1, <- Htc2.
      destruct (is_Dir (walk (fs s2) ["toolchain"])); [by apply walk_del_same | reflexivity].
  - exists s2. split; [reflexivity|]. split; [|split; [|split]].
    + intros g Hg. split; [by apply Hgone|].
      rewrite lstat_real; [by apply Hgone | by apply Hpar2].
    + by rewrite Hnni2.
    + intros _. by rewrite Htc2.
    + discriminate.
Qed.

Lemma C6_clean_removes_generated_witness :
  let s := Sample.start Sample.prepared_tree in
  exists s',
    clean false s = (Ok tt, s') /\
    walk (fs s') (Path! "ts/nni_manager/dist") = None /\
    walk (fs s') (Path! "nni_node") = None /\
    walk (fs s') (Path! "toolchain") = Some Sample.toolchain.
Proof.
  intros s.
  destruct (C6_clean_removes_generated false s) as (s' & Hrun & Hgone & Hnni & Htc & _);
    [vm_compute; reflexivity..|].
  exists s'. split; [exact Hrun|]. split; [|split].
  - apply (Hgone "ts/nni_manager/dist"). by left.
  - exact Hnni.
  - by rewrite Htc.
Defined.

(** ** C8: what the copy strategy writes *)

(** C8.  ts/nni_manager/dist is a directory with entries [es], the
    source manifest ts/nni_manager/package.json is a regular file, the
    output directory nni_node is a directory that holds no symbolic
    link, and the package manager leaves the source manifest alone.
    Then, when the copy loop returns, every entry of dist that is a
    directory or a regular file is in nni_node under its name as it is in
    dist, except the regular file nni_manager.tsbuildinfo, which is not
    written; names that are no entry of dist, and everything outside
    nni_node, are as before.  [write_manifest] writes one file,
    nni_node/package.json.  And after the whole of [copy_nni_node],
    returned or raised, the source manifest holds what it held. *)
Theorem C8_copy_strategy_frame
    (E : Env) (G : Globals) (version : option string) (s : state)
    (es : gmap string node) (c : content) :
  walk (fs s) (Path! "ts/nni_manager/dist") = Some (Dir es) ->
  walk (fs s) (Path! "ts/nni_manager/package.json") = Some (File c) ->
  plain_dir "nni_node" (fs s) ->
  (forall argv env t,
     walk (snd (subprocess E argv "ts/nni_manager" env t))
          (Path! "ts/nni_manager/package.json")
     = walk t (Path! "ts/nni_manager/package.json")) ->
  (forall s',
     copy_dist_entries s = (Ok tt, s') ->
     (forall nm n, es !! nm = Some n -> entry_copied (fs s) (fs s') nm n) /\
     (forall nm, es !! nm = None ->
        walk (fs s') ["nni_node"; nm] = walk (fs s) ["nni_node"; nm]) /\
     (forall a r, a <> "nni_node" -> walk (fs s') (a :: r) = walk (fs s) (a :: r))) /\
  (forall s1 s1',
     plain_dir "nni_node" (fs s1) ->
     write_manifest E version s1 = (Ok tt, s1') ->
     exists doc,
       s1' = State (put (fs s1) (Path! "nni_node/package.json") (File (JsonText doc)))
                   (trace s1)) /\
  walk (fs (snd (copy_nni_node E G version s))) (Path! "ts/nni_manager/package.json")
  = Some (File c).
Proof.
  intros Hdist Hman Hplain Hyarn. split; [|split].
  - intros s' Hrun. unfold copy_dist_entries in Hrun.
    rewrite (bind_Ok _ _ _ _ _ (iterdir_run _ _ _ Hdist)) in Hrun.
    destruct (copy_loop (map fst (map_to_list es)) s
                (NoDup_fst_map_to_list es) Hplain) as (_ & _ & Hframe & Hentry).
    rewrite Hrun in Hframe, Hentry. cbn [fst snd] in Hframe, Hentry.
    assert (Hin : forall nm, nm ∈ map fst (map_to_list es) <-> is_Some (es !! nm)).
    { intros nm. rewrite list_elem_of_fmap. split.
      - intros ([nm' n] & -> & Hin). apply elem_of_map_to_list in Hin. by exists n.
      - intros [n Hn]. exists (nm, n). split; [done|]. by apply elem_of_map_to_list. }
    split; [|split].
    + intros nm n Hn. apply Hentry; [done | by apply Hin |].
      change ["ts"; "nni_manager"; "dist"; nm] with (["ts"; "nni_manager"; "dist"] ++ [nm]).
      by rewrite walk_snoc, Hdist.
    + intros nm Hnone. apply Hframe. intros nm' Hin'. apply diverge_child.
      intros ->. apply Hin in Hin' as [n Hn]. congruence.
    + intros a r Ha. apply Hframe. intros nm _. cbn [diverge].
      by destruct (String.eqb_spec a "nni_node").
  - intros s1 s1' Hp1 Hrun. unfold write_manifest in Hrun.
    apply bind_inv_Ok in Hrun as (doc & s2 & Hload & Hrun).
    pose proof (json_load_state _ _ _ _ _ Hload) as ->.
    apply bind_inv_Ok in Hrun as (doc' & s3 & Hset & Hrun).
    assert (s3 = s1) as ->.
    { destruct (truthy version); [by eapply setitem_state|].
      unfold ret in Hset. congruence. }
    unfold json_dump in Hrun. apply write_file_inv in Hrun as (q & Hq & _ & ->).
    rewrite (plain_dir_locate _ _ _ _ Hp1) in Hq. injection Hq as <-. by exists doc'.
  - apply copy_nni_node_keeps_manifest; [exact Hyarn | by split].
Qed.

Lemma C8_copy_strategy_frame_witness :
  let E := Sample.env "linux" (Some "3.0.14") None Sample.yarn_ok in
  let G := Sample.globals "linux" in
  let s := Sample.start Sample.prepared_tree in
  fst (copy_dist_entries s) = Ok tt /\
  walk (fs (snd (copy_dist_entries s))) (Path! "nni_node/main.js")
  = Some (File (Raw "main")) /\
  walk (fs (snd (copy_dist_entries s))) (Path! "nni_node/nni_manager.tsbuildinfo") = None /\
  walk (fs (snd (copy_nni_node E G (Some "2.0") s))) (Path! "ts/nni_manager/package.json")
  = Some (File (JsonText Sample.manager_manifest)).
Proof.
  intros E G s.
  assert (Hplain : plain_dir "nni_node" (fs s)).
  { apply (plain_dir_intro _ _ Sample.output); [vm_compute; reflexivity|].
    apply map_Forall_to_list. vm_compute. repeat constructor. }
  destruct (C8_copy_strategy_frame E G (Some "2.0") s Sample.dist
              (JsonText Sample.manager_manifest))
    as (Hloop & _ & Hkeep); [vm_compute; reflexivity.. | exact Hplain | done |].
  assert (Hok : fst (copy_dist_entries s) = Ok tt) by (vm_compute; reflexivity).
  split; [exact Hok|].
  destruct (copy_dist_entries s) as [r s'] eqn:Hrun. cbn [fst snd] in *. subst r.
  destruct (Hloop s' eq_refl) as (Hentry & _ & _).
  split; [|split; [|exact Hkeep]].
  - apply (Hentry "main.js" (File (Raw "main"))). vm_compute. reflexivity.
  - rewrite (Hentry "nni_manager.tsbuildinfo" (File (Raw "build-cache")))
      by (vm_compute; reflexivity).
    vm_compute. reflexivity.
Defined.

(** ** C5: the toolchain is fetched once *)

(** C5.  When the runtime executable is a regular file at
    toolchain/node/<path in the archive>, [download_toolchain] returns
    at once and the state is the one it started in: no request, no
    write.  And a first call that returns leaves the executable there,
    provided the module loaded on this platform, toolchain is no symbolic
    link, and the archive served for the runtime holds the executable as
    a regular file: so a second call right after is the identity, two
    calls in a row end where one does, and the two requests (runtime,
    then package manager) are made once, or not at all when the
    executable was there from the start. *)
Theorem C5_download_toolchain_idempotent (E : Env) (G : Globals) (s : state) :
  (is_File (stat (fs s) (Path2 "toolchain/node" (node_executable_in_tarball G))) = true ->
   download_toolchain E G s = (Ok tt, s)) /\
  (forall s1,
     load E = Ok G ->
     is_Symlink (walk (fs s) ["toolchain"]) = false ->
     (forall r ms,
        requests_get E (node_download_url G) = Some r ->
        node_extractor G (resp_content r) = Ok ms ->
        exists nm c,
          (nm, MFile c) ∈ ms /\
          Path nm = Path (node_spec G) ++ Path (node_executable_in_tarball G)) ->
     download_toolchain E G s = (Ok tt, s1) ->
     download_toolchain E G s1 = (Ok tt, s1) /\
     (download_toolchain E G ;; download_toolchain E G) s = (Ok tt, s1) /\
     downloads (trace s1)
     = downloads (trace s)
       ++ (if is_File (stat (fs s) (Path2 "toolchain/node" (node_executable_in_tarball G)))
           then []
           else [HttpGet (node_download_url G); HttpGet (yarn_download_url G)])).
Proof.
  split; [apply download_toolchain_present|].
  intros s1 Hload Htop Harch Hrun.
  assert (Hagain : download_toolchain E G s1 = (Ok tt, s1) /\
            downloads (trace s1)
            = downloads (trace s)
              ++ (if is_File (stat (fs s)
                        (Path2 "toolchain/node" (node_executable_in_tarball G)))
                  then []
                  else [HttpGet (node_download_url G); HttpGet (yarn_download_url G)])).
  { destruct (is_File (stat (fs s) (Path2 "toolchain/node" (node_executable_in_tarball G))))
      eqn:Hexe.
    - rewrite (download_toolchain_present E G s Hexe) in Hrun.
      injection Hrun as <-. split; [by apply download_toolchain_present|].
      by rewrite app_nil_r.
    - destruct (platform_layout _ _ (load_platform _ _ Hload))
        as (spec & rel & Hnm & Hspec & Hpath & Hsn & _).
      rewrite Hpath in Hexe.
      destruct (download_toolchain_fetches E G spec rel s s1 Hspec Hpath Hsn) as (Hf & Htr);
        try done.
      { intros r ms Hr Hms. destruct (Harch r ms Hr Hms) as (nm & c & Hin & HP).
        exists nm, c. split; [done|]. by rewrite HP. }
      split; [|exact Htr]. apply download_toolchain_present. rewrite Hpath.
      destruct (walk (fs s1) ("toolchain" :: "node" :: rel)) as [[c| |]|] eqn:Hw;
        try discriminate.
      by rewrite (stat_walk _ _ _ Hw). }
  destruct Hagain as (Hagain & Htr). split; [exact Hagain|]. split; [|exact Htr].
  by rewrite (bind_Ok _ _ _ _ _ Hrun).
Qed.

Lemma C5_download_toolchain_idempotent_witness :
  let E := Sample.online in
  let G := Sample.globals "linux" in
  let s := Sample.start Sample.fresh_tree in
  let s1 := snd (download_toolchain E G s) in
  fst (download_toolchain E G s) = Ok tt /\
  download_toolchain E G s1 = (Ok tt, s1) /\
  (download_toolchain E G ;; download_toolchain E G) s = (Ok tt, s1) /\
  downloads (trace s1) = [HttpGet Sample.node_url; HttpGet Sample.yarn_url].
Proof.
  intros E G s s1.
  assert (Hok : fst (download_toolchain E G s) = Ok tt) by (vm_compute; reflexivity).
  split; [exact Hok|].
  destruct (C5_download_toolchain_idempotent E G s) as (_ & Htwice).
  destruct (Htwice s1) as (Hagain & Hseq & Htr).
  - vm_compute. reflexivity.
  - vm_compute. reflexivity.
  - intros r ms Hr Hms. vm_compute in Hr. injection Hr as <-.
    vm_compute in Hms. injection Hms as <-.
    exists "node-v16.3.0-linux-x64/bin/node", (Raw "node-binary").
    split; [|vm_compute; reflexivity].
    apply elem_of_cons. right. apply elem_of_cons. right. apply elem_of_cons. by left.
  - unfold s1. destruct (download_toolchain E G s) as [r s'].
    cbn [fst snd] in *. by subst r.
  - split; [exact Hagain|]. split; [exact Hseq|].
    rewrite Htr. vm_compute. reflexivity.
Defined.

(** * Further properties of the script *)

(** ** Versions *)

Lemma append_empty_r (s : string) : s +:+ "" = s.
Proof.
  induction s as [|c s IH]; [reflexivity|].
  change (String c (s +:+ "") = String c s). by rewrite IH.
Qed.

Lemma append_append (s t u : string) : (s +:+ t) +:+ u = s +:+ (t +:+ u).
Proof.
  induction s as [|c s IH]; [reflexivity|].
  change (String c ((s +:+ t) +:+ u) = String c (s +:+ (t +:+ u))). by rewrite IH.
Qed.

Lemma append_zeros_tail k : forall s, exists tail, Str.append_zeros k s = s +:+ tail.
Proof.
  induction k as [|k IH]; intros s; cbn [Str.append_zeros].
  - exists "". by rewrite append_empty_r.
  - destruct (IH (s +:+ ".0")) as (tail & ->). exists (".0" +:+ tail).
    by rewrite append_append.
Qed.

(** X1.  Padding is idempotent: a padded version has three parts or
    more, so padding it again changes nothing; and padding only adds at
    the end, the given version is how the padded one starts. *)
Theorem X1_pad_version_idempotent (version : string) :
  pad_version (pad_version version) = pad_version version /\
  exists tail, pad_version version = version +:+ tail.
Proof.
  split.
  - rewrite (pad_version_zeros (pad_version version)).
    rewrite (pad_version_zeros version) at 1.
    rewrite split_append_zeros.
    replace (3 - (3 - length (Str.split "." version) + length (Str.split "." version)))
      with 0 by lia.
    reflexivity.
  - rewrite pad_version_zeros. apply append_zeros_tail.
Qed.

Lemma hd_split_cons sep c s :
  List.hd "" (Str.split sep (String c s))
  = if Ascii.eqb c sep then "" else String c (List.hd "" (Str.split sep s)).
Proof.
  cbn [Str.split]. destruct (Ascii.eqb c sep); [reflexivity|].
  destruct (Str.split sep s) eqn:Hs; [|reflexivity].
  by apply split_nonempty in Hs.
Qed.

Lemma hd_split_empty sep s :
  List.hd "" (Str.split sep s) = "" <-> s = "" \/ exists s', s = String sep s'.
Proof.
  destruct s as [|c s].
  - split; [by left | reflexivity].
  - rewrite hd_split_cons. destruct (Ascii.eqb_spec c sep) as [->|Hne].
    + split; [right; by exists s | reflexivity].
    + split; [discriminate|]. intros [H | (s' & H)]; [discriminate|].
      injection H as H _. contradiction.
Qed.

(** X2.  The legacy arm of the notebook integration is taken exactly
    when JupyterLab can be imported and its version is "2" or starts
    with "2.": a failed import counts as "3.x", and "20.1" or "2rc1" are
    not major version 2. *)
Theorem X2_legacy_major_version (E : Env) :
  jupyter_lab_major_version E = "2" <->
  exists v, jupyterlab_version E = Some v /\ (v = "2" \/ String.prefix "2." v = true).
Proof.
  unfold jupyter_lab_major_version, _get_jupyter_lab_version.
  assert (Hv : forall v, List.hd "" (Str.split "." v) = "2"
                 <-> v = "2" \/ String.prefix "2." v = true).
  { intros [|c v].
    - split; [discriminate | intros [H|H]; [discriminate | vm_compute in H; discriminate]].
    - rewrite hd_split_cons. destruct (Ascii.eqb_spec c ".") as [->|Hne].
      + split; [discriminate | intros [H|H]; [discriminate|]].
        cbn [String.prefix] in H.
        destruct (Ascii.ascii_dec "2" ".") as [Hc|]; discriminate.
      + split.
        * intros H. injection H as -> H. apply hd_split_empty in H as [-> | (s' & ->)].
          -- by left.
          -- right. vm_compute. by destruct s'.
        * intros [H | H].
          -- injection H as -> ->. reflexivity.
          -- cbn [String.prefix] in H. destruct (Ascii.ascii_dec "2" c) as [<-|]; [|discriminate].
             destruct v as [|c' v]; [discriminate|]. cbn [String.prefix] in H.
             destruct (Ascii.ascii_dec "." c') as [<-|]; [|discriminate].
             reflexivity. }
  destruct (jupyterlab_version E) as [v|].
  - rewrite Hv. split; [intros H; by exists v | by intros (v' & [= <-] & H)].
  - split; [discriminate | by intros (v' & [=] & _)].
Qed.

(** ** Cleaning *)

Lemma del_absent p : forall t, walk t p = None -> del t p = t.
Proof.
  induction p as [|c p IH]; intros t Hw; [discriminate|].
  destruct t as [?|es|?]; try reflexivity. cbn [walk] in Hw. cbn [del].
  destruct p as [|c' p'].
  - destruct (es !! c) as [m|] eqn:Hc; [discriminate|]. by rewrite delete_id.
  - destruct (es !! c) as [m|] eqn:Hc; [|reflexivity].
    rewrite (IH m Hw). by rewrite insert_id.
Qed.

Lemma state_eq (s s' : state) : fs s' = fs s -> trace s' = trace s -> s' = s.
Proof. destruct s, s'. cbn. by intros -> ->. Qed.

(** A round of the loop of [clean] on a path where nothing is. *)
Lemma clean_round_absent p s :
  p <> [] -> linkfree (fs s) (parent p) = true -> walk (fs s) p = None ->
  (l <- is_symlink p ;;
   f <- (if l then ret true else is_file p) ;;
   if f then unlink p
   else d <- is_dir p ;; if d then rmtree p false else ret tt) s = (Ok tt, s).
Proof.
  intros Hne Hfree Hnone.
  destruct (clean_round p s Hne Hfree) as (s' & Hrun & Htr & Hfs).
  rewrite Hrun. f_equal. apply state_eq; [|exact Htr].
  destruct Hfs as [-> | [_ ->]]; [by apply del_absent | reflexivity].
Qed.

Lemma clean_loop_absent (l : list string) s :
  Forall (fun g => Path g <> [] /\ linkfree (fs s) (parent (Path g)) = true
                   /\ walk (fs s) (Path g) = None) l ->
  for_ l
    (fun file_or_dir =>
       let path := Path file_or_dir in
       l <- is_symlink path ;;
       f <- (if l then ret true else is_file path) ;;
       if f then unlink path
       else d <- is_dir path ;; if d then rmtree path false else ret tt) s
  = (Ok tt, s).
Proof.
  induction l as [|g l IH]; intros Hall; [reflexivity|].
  apply Forall_cons in Hall as [(Hne & Hfree & Hnone) Hall].
  cbn [for_]. cbv zeta.
  rewrite (bind_Ok _ _ _ _ _ (clean_round_absent _ _ Hne Hfree Hnone)).
  by apply IH.
Qed.

(** What a run of [clean] does, all of it. *)
Lemma clean_run (clean_all : bool) (s : state) :
  linkfree (fs s) ["ts"; "nni_manager"] = true ->
  linkfree (fs s) ["ts"; "webui"] = true ->
  exists s',
    clean clean_all s = (Ok tt, s') /\
    trace s' = trace s /\
    (forall g, In g generated_files -> walk (fs s') (Path g) = None) /\
    (forall p, walk (fs s) p = None -> walk (fs s') p = None) /\
    (forall p, diverge p ["nni_node"] = true ->
               (clean_all = true -> diverge p ["toolchain"] = true) ->
               (forall g, In g generated_files -> diverge p (Path g) = true) ->
               walk (fs s') p = walk (fs s) p) /\
    (forall p, linkfree (fs s) p = true -> linkfree (fs s') p = true) /\
    is_Dir (walk (fs s') ["nni_node"]) = false /\
    (clean_all = true -> is_Dir (walk (fs s') ["toolchain"]) = false).
Proof.
  intros Hmgr Hweb. unfold clean.
  rewrite (bind_Ok _ _ _ _ _ (rmtree_top_exact "nni_node" s)).
  set (s1 := if is_Dir (walk (fs s) ["nni_node"])
             then State (del (fs s) ["nni_node"]) (trace s) else s).
  assert (Htr1 : trace s1 = trace s).
  { unfold s1. by destruct (is_Dir _). }
  assert (Hfree1 : forall p, linkfree (fs s) p = true -> linkfree (fs s1) p = true).
  { intros p Hp. unfold s1. destruct (is_Dir _); [by apply linkfree_del | exact Hp]. }
  assert (Hnni1 : is_Dir (walk (fs s1) ["nni_node"]) = false).
  { unfold s1. destruct (is_Dir (walk (fs s) ["nni_node"])) eqn:Hd; [|exact Hd].
    cbn [fs]. by rewrite walk_del_same. }
  assert (Hnone1 : forall p, walk (fs s) p = None -> walk (fs s1) p = None).
  { intros p Hp. unfold s1. destruct (is_Dir _); [by apply walk_del_None | exact Hp]. }
  assert (Hframe1 : forall p, diverge p ["nni_node"] = true ->
                              walk (fs s1) p = walk (fs s) p).
  { intros p Hp. unfold s1. destruct (is_Dir _); [by apply walk_del_diverge | reflexivity]. }
  clearbody s1.
  pose proof generated_files_paths as Hall. rewrite Forall_forall in Hall.
  destruct (clean_loop generated_files s1)
    as (s2 & Hloop & Htr2 & Hgone & Hnone2 & Hframe & Hfree2).
  { eapply Forall_impl; [exact generated_files_paths|].
    intros g (Hne & [-> | ->] & _); split; auto. }
  rewrite (bind_Ok _ _ _ _ _ Hloop).
  assert (Hnni2 : is_Dir (walk (fs s2) ["nni_node"]) = false).
  { rewrite Hframe; [exact Hnni1|]. intros g Hg. apply Hall. by apply list_elem_of_In. }
  destruct clean_all; cbn [when].
  - rewrite rmtree_top_exact. eexists. split; [reflexivity|].
    set (s3 := if is_Dir (walk (fs s2) ["toolchain"])
               then State (del (fs s2) ["toolchain"]) (trace s2) else s2).
    assert (Hstep : trace s3 = trace s2 /\
              (forall p, walk (fs s2) p = None -> walk (fs s3) p = None) /\
              (forall p, diverge p ["toolchain"] = true -> walk (fs s3) p = walk (fs s2) p) /\
              (forall p, linkfree (fs s2) p = true -> linkfree (fs s3) p = true) /\
              is_Dir (walk (fs s3) ["toolchain"]) = false).
    { unfold s3. destruct (is_Dir (walk (fs s2) ["toolchain"])) eqn:Hd; cbn [fs trace].
      - split; [done|]. split; [intros p; apply walk_del_None|].
        split; [intros p; apply walk_del_diverge|].
        split; [intros p; apply linkfree_del|]. by rewrite walk_del_same.
      - by rewrite Hd. }
    clearbody s3. destruct Hstep as (Htr3 & Hnone3 & Hframe3 & Hfree3 & Htc3).
    split; [by rewrite Htr3, Htr2|]. split; [intros g Hg; by apply Hnone3, Hgone|].
    split; [intros p Hp; by apply Hnone3, Hnone2, Hnone1|].
    split; [intros p H1 H2 H3; rewrite Hframe3, Hframe, Hframe1; auto|].
    split; [intros p Hp; by apply Hfree3, Hfree2, Hfree1|].
    split; [|done]. rewrite Hframe3; [exact Hnni2 | reflexivity].
  - exists s2. split; [reflexivity|]. split; [by rewrite Htr2|].
    split; [exact Hgone|]. split; [intros p Hp; by apply Hnone2, Hnone1|].
    split; [intros p H1 _ H3; rewrite Hframe, Hframe1; auto|].
    split; [intros p Hp; by apply Hfree2, Hfree1|].
    split; [exact Hnni2 | discriminate].
Qed.

(** X3.  [clean] is silent and removes only what it lists: where the
    two module directories are reached through no symbolic link, it
    returns with the trace as it was (nothing printed, requested or
    run), every path that is neither at or below nni_node, a generated
    path, or (with [clean_all]) toolchain holds what it held, and
    nothing is created: what was absent is absent. *)
Theorem X3_clean_frame (clean_all : bool) (s : state) :
  linkfree (fs s) ["ts"; "nni_manager"] = true ->
  linkfree (fs s) ["ts"; "webui"] = true ->
  exists s',
    clean clean_all s = (Ok tt, s') /\
    trace s' = trace s /\
    (forall p, diverge p ["nni_node"] = true ->
               (clean_all = true -> diverge p ["toolchain"] = true) ->
               (forall g, In g generated_files -> diverge p (Path g) = true) ->
               walk (fs s') p = walk (fs s) p) /\
    (forall p, walk (fs s) p = None -> walk (fs s') p = None).
Proof.
  intros Hmgr Hweb.
  destruct (clean_run clean_all s Hmgr Hweb) as (s' & Hrun & Htr & _ & Hnone & Hframe & _).
  exists s'. auto.
Qed.

Lemma X3_clean_frame_witness :
  let s := Sample.start Sample.prepared_tree in
  exists s',
    clean true s = (Ok tt, s') /\
    trace s' = [] /\
    walk (fs s') ["ts"; "nni_manager"; "package.json"]
    = Some (File (JsonText Sample.manager_manifest)) /\
    walk (fs s') ["ts"; "nni_manager"; "config"; "default.yml"] = Some (File (Raw "config")).
Proof.
  intros s.
  destruct (X3_clean_frame true s) as (s' & Hrun & Htr & Hframe & _);
    [vm_compute; reflexivity..|].
  exists s'. split; [exact Hrun|]. split; [exact Htr|].
  split; (rewrite Hframe; [vm_compute; reflexivity | reflexivity | reflexivity |]);
    intros g Hg; vm_compute in Hg;
    repeat (destruct Hg as [<- | Hg]; [vm_compute; reflexivity|]); destruct Hg.
Defined.

(** X4.  [clean] is idempotent: a second run right after the first
    finds nothing to remove, returns, and leaves the state of the first
    run. *)
Theorem X4_clean_idempotent (clean_all : bool) (s : state) :
  linkfree (fs s) ["ts"; "nni_manager"] = true ->
  linkfree (fs s) ["ts"; "webui"] = true ->
  exists s',
    clean clean_all s = (Ok tt, s') /\
    clean clean_all s' = (Ok tt, s') /\
    (clean clean_all ;; clean clean_all) s = (Ok tt, s').
Proof.
  intros Hmgr Hweb.
  destruct (clean_run clean_all s Hmgr Hweb)
    as (s' & Hrun & _ & Hgone & _ & _ & Hfree & Hnni & Htc).
  assert (Habsent : Forall (fun g => Path g <> []
                       /\ linkfree (fs s') (parent (Path g)) = true
                       /\ walk (fs s') (Path g) = None) generated_files).
  { pose proof generated_files_paths as Hall. rewrite Forall_forall in Hall.
    apply Forall_forall. intros g Hg. destruct (Hall g Hg) as (Hne & Hpar & _).
    split; [exact Hne|]. split; [|apply Hgone; by apply list_elem_of_In].
    destruct Hpar as [-> | ->]; by apply Hfree. }
  assert (Hagain : clean clean_all s' = (Ok tt, s')).
  { unfold clean.
    rewrite (bind_Ok _ _ _ _ _ (rmtree_top_exact "nni_node" s')), Hnni.
    rewrite (bind_Ok _ _ _ _ _ (clean_loop_absent generated_files s' Habsent)).
    destruct clean_all; cbn [when]; [|reflexivity].
    by rewrite rmtree_top_exact, Htc. }
  exists s'. split; [exact Hrun|]. split; [exact Hagain|].
  by rewrite (bind_Ok _ _ _ _ _ Hrun).
Qed.

Lemma X4_clean_idempotent_witness :
  let s := Sample.start Sample.prepared_tree in
  exists s',
    clean true s = (Ok tt, s') /\
    clean true s' = (Ok tt, s') /\
    (clean true ;; clean true) s = (Ok tt, s').
Proof.
  intros s. apply (X4_clean_idempotent true s); vm_compute; reflexivity.
Defined.

(** ** The output directory *)

Lemma walk_put_child p : forall t m c x,
  walk t p = Some (Dir m) -> walk (put t (p ++ [c]) x) p = Some (Dir (<[c := x]> m)).
Proof.
  induction p as [|a p IH]; intros t m c x Hw.
  - cbn [walk] in Hw. injection Hw as ->. cbn [app put walk].
    by destruct (m !! c).
  - destruct t as [?|es|?]; try discriminate. cbn [walk] in Hw.
    destruct (es !! a) as [n|] eqn:Ha; [|discriminate].
    cbn [app put]. rewrite Ha. cbn [walk]. rewrite lookup_insert_eq. by apply IH.
Qed.

Lemma platform_node_dst platform P :
  platform_branch platform = Ok P ->
  Path2 "nni_node" (node_executable P) = ["nni_node"; node_executable P] /\
  exists r, Path2 "toolchain/node" (node_executable_in_tarball P) = "toolchain" :: r.
Proof.
  unfold platform_branch.
  destruct (String.eqb platform "linux" || String.eqb platform "darwin").
  - intros H. injection H as <-. split; [vm_compute; reflexivity|].
    eexists. vm_compute. reflexivity.
  - destruct (String.eqb platform "win32"); [|discriminate].
    intros H. injection H as <-. split; [vm_compute; reflexivity|].
    eexists. vm_compute. reflexivity.
Qed.

Lemma stat_absent t p :
  p <> [] -> is_Dir (walk t (parent p)) = true -> walk t p = None -> stat t p = None.
Proof.
  intros Hne Hd Hw. unfold stat.
  rewrite locate_parent; [exact Hw | exact Hne | exact Hd | right; by rewrite Hw].
Qed.

Lemma copy_run src dst s :
  copy src dst s
  = copyfile src (if is_Dir (stat (fs s) dst) then child dst (name src) else dst) s.
Proof. reflexivity. Qed.

(** X5.  [prepare_nni_node] makes a clean output directory: when it
    returns, nni_node is a directory that holds two regular files and
    nothing else, the package marker __init__.py and a copy of the
    runtime executable of the toolchain; whatever nni_node held before is
    gone, everything outside nni_node is as it was, and nothing was
    printed or run.  Stated for a toolchain executable that is reached
    through no symbolic link. *)
Theorem X5_prepare_nni_node_clean_directory
    (platform : string) (G : Globals) (s s' : state) :
  platform_branch platform = Ok (plat G) ->
  linkfree (fs s) (Path2 "toolchain/node" (node_executable_in_tarball G)) = true ->
  prepare_nni_node G s = (Ok tt, s') ->
  exists c,
    walk (fs s) (Path2 "toolchain/node" (node_executable_in_tarball G)) = Some (File c) /\
    walk (fs s') ["nni_node"]
    = Some (Dir (<[node_executable G := File c]>
                   {["__init__.py" :=
                       File (Raw (QUOTE +:+ QUOTE +:+ QUOTE +:+ "NNI node.js modules."
                                  +:+ QUOTE +:+ QUOTE +:+ QUOTE +:+ LF))]})) /\
    (forall a r, a <> "nni_node" -> walk (fs s') (a :: r) = walk (fs s) (a :: r)) /\
    trace s' = trace s.
Proof.
  intros Hplat Hfree Hrun.
  destruct (platform_node_dst _ _ Hplat) as (Hdst & r & Hsrc).
  unfold prepare_nni_node in Hrun. rewrite Hsrc, Hdst in Hrun. rewrite Hsrc in *.
  cbv zeta in Hrun.
  rewrite (bind_Ok _ _ _ _ _ (rmtree_top_exact "nni_node" s)) in Hrun.
  set (s1 := if is_Dir (walk (fs s) ["nni_node"])
             then State (del (fs s) ["nni_node"]) (trace s) else s) in *.
  assert (Hs1 : trace s1 = trace s /\
            (forall p, diverge p ["nni_node"] = true -> walk (fs s1) p = walk (fs s) p) /\
            linkfree (fs s1) ("toolchain" :: r) = true).
  { unfold s1. destruct (is_Dir _); cbn [fs trace]; [|done].
    split; [done|]. split; [intros p; apply walk_del_diverge | by apply linkfree_del]. }
  clearbody s1. destruct Hs1 as (Htr1 & Hframe1 & Hfree1).
  apply bind_inv_Ok in Hrun as ([] & s2 & H2 & Hrun).
  apply bind_inv_Ok in Hrun as ([] & s3 & H3 & Hrun).
  apply mkdir_new_inv in H2 as (q & Hq & Hnone & ->).
  pose proof (locate_single_root _ _ _ Hq) as Hroot.
  apply locate_single in Hq as ->.
  set (t2 := put (fs s1) ["nni_node"] (Dir ∅)) in *.
  assert (Hnni2 : walk t2 ["nni_node"] = Some (Dir ∅)).
  { apply walk_put_same; [done | exact Hroot]. }
  set (doc := File (Raw (QUOTE +:+ QUOTE +:+ QUOTE +:+ "NNI node.js modules."
                         +:+ QUOTE +:+ QUOTE +:+ QUOTE +:+ LF))) in *.
  assert (Hinit : walk t2 ["nni_node"; "__init__.py"] = None).
  { change ["nni_node"; "__init__.py"] with (["nni_node"] ++ ["__init__.py"]).
    by rewrite walk_snoc, Hnni2. }
  rewrite write_file_run in H3; cbn [fs trace] in *.
  2: done.
  2: { change (parent ["nni_node"; "__init__.py"]) with ["nni_node"]. by rewrite Hnni2. }
  2, 3: by rewrite Hinit.
  set (t3 := put t2 ["nni_node"; "__init__.py"] doc) in *.
  assert (s3 = State t3 (trace s1)) as -> by (unfold t3, doc; congruence). clear H3.
  assert (Hnni3 : walk t3 ["nni_node"] = Some (Dir {["__init__.py" := doc]})).
  { apply (walk_put_child ["nni_node"] t2 ∅ "__init__.py" doc Hnni2). }
  assert (Hplain3 : plain_dir "nni_node" t3).
  { apply (plain_dir_intro _ _ _ Hnni3). apply map_Forall_singleton. reflexivity. }
  assert (Hsrc3 : stat t3 ("toolchain" :: r) = walk (fs s) ("toolchain" :: r)).
  { rewrite stat_real.
    - unfold t3, t2. rewrite !walk_put_diverge by reflexivity. by apply Hframe1.
    - unfold t3, t2. by rewrite !linkfree_put_diverge by reflexivity. }
  rewrite copy_run in Hrun.
  change (fs {| fs := t3; trace := trace s1 |}) with t3 in Hrun.
  set (exe := node_executable G) in *.
  assert (Hexe : walk t3 ["nni_node"; exe] = (if decide (exe = "__init__.py")
                                              then Some doc else None)).
  { change ["nni_node"; exe] with (["nni_node"] ++ [exe]). rewrite walk_snoc, Hnni3.
    destruct (decide (exe = "__init__.py")) as [->|Hne].
    - by rewrite lookup_singleton_eq.
    - by rewrite lookup_singleton_ne. }
  assert (Hd : is_Dir (stat t3 ["nni_node"; exe]) = false).
  { destruct (walk t3 ["nni_node"; exe]) as [x|] eqn:Hw.
    - rewrite (stat_walk _ _ _ Hw).
      + destruct (decide (exe = "__init__.py")); [|discriminate]. by injection Hexe as ->.
      + destruct (decide (exe = "__init__.py")); [|discriminate]. by injection Hexe as ->.
    - rewrite stat_absent; [done | done | | exact Hw].
      change (parent ["nni_node"; exe]) with ["nni_node"]. by rewrite Hnni3. }
  rewrite Hd in Hrun.
  rewrite copyfile_run in Hrun by exact Hplain3.
  change (fs {| fs := t3; trace := trace s1 |}) with t3 in Hrun.
  change (trace {| fs := t3; trace := trace s1 |}) with (trace s1) in Hrun.
  destruct (samefile t3 ("toolchain" :: r) ["nni_node"; exe]); [discriminate|].
  rewrite Hsrc3 in Hrun.
  destruct (walk (fs s) ("toolchain" :: r)) as [[c| |]|] eqn:Hc; try discriminate.
  destruct (is_Dir (walk t3 ["nni_node"; exe])); [discriminate|].
  assert (s' = State (put t3 ["nni_node"; exe] (File c)) (trace s1)) as -> by congruence.
  clear Hrun. cbn [fs trace]. exists c. split; [reflexivity|].
  split; [|split; [|exact Htr1]].
  - exact (walk_put_child ["nni_node"] t3 _ exe (File c) Hnni3).
  - intros a r' Ha.
    assert (Hdv : forall nm, diverge (a :: r') ("nni_node" :: nm) = true).
    { intros nm. cbn [diverge]. by destruct (String.eqb_spec a "nni_node"). }
    unfold t3, t2. rewrite !walk_put_diverge by apply Hdv. apply Hframe1, Hdv.
Qed.

Lemma X5_prepare_nni_node_clean_directory_witness :
  let G := Sample.globals "linux" in
  let s := Sample.start Sample.prepared_tree in
  let s' := snd (prepare_nni_node G s) in
  fst (prepare_nni_node G s) = Ok tt /\
  walk (fs s') ["nni_node"; "node"] = Some (File (Raw "node-binary")) /\
  walk (fs s') ["ts"] = Some Sample.ts.
Proof.
  intros G s s'.
  assert (Hok : fst (prepare_nni_node G s) = Ok tt) by (vm_compute; reflexivity).
  split; [exact Hok|].
  destruct (X5_prepare_nni_node_clean_directory "linux" G s s')
    as (c & Hc & Hnni & Hframe & _).
  - vm_compute. reflexivity.
  - vm_compute. reflexivity.
  - unfold s'. destruct (prepare_nni_node G s) as [r s2]. cbn [fst snd] in *. by subst r.
  - split.
    + change ["nni_node"; "node"] with (["nni_node"] ++ ["node"]).
      rewrite walk_snoc, Hnni. change (node_executable G) with "node".
      rewrite lookup_insert_eq. vm_compute in Hc. by injection Hc as <-.
    + rewrite Hframe by discriminate. vm_compute. reflexivity.
Defined.

(** X6.  Where nni_node is there and is no directory (a regular file,
    or a symbolic link), [prepare_nni_node] does not replace it: the
    removal ignores its error, creating the directory raises
    FileExistsError, and the state is the one before the call. *)
Theorem X6_prepare_nni_node_conflict (G : Globals) (s : state) :
  is_Some_node (walk (fs s) ["nni_node"]) = true ->
  is_Dir (walk (fs s) ["nni_node"]) = false ->
  prepare_nni_node G s = (Raise (FileExistsError ["nni_node"]), s).
Proof.
  intros Hsome Hd. unfold prepare_nni_node.
  rewrite (bind_Ok _ _ _ _ _ (rmtree_top_exact "nni_node" s)), Hd.
  apply bind_Raise. unfold mkdir, try_except, mknode, bind, get_fs.
  destruct (walk (fs s) ["nni_node"]) as [x|] eqn:Hw; [|discriminate].
  rewrite (locate_walk _ false _ x Hw) by by left.
  rewrite Hw. reflexivity.
Qed.

Lemma X6_prepare_nni_node_conflict_witness :
  let s := Sample.start (Sample.dir [("nni_node", File (Raw "stray")); ("ts", Sample.ts)]) in
  prepare_nni_node (Sample.globals "linux") s = (Raise (FileExistsError ["nni_node"]), s).
Proof.
  intros s. apply X6_prepare_nni_node_conflict; vm_compute; reflexivity.
Defined.

(** ** Downloads that fail *)

Lemma mkdir_top_run c s :
  is_Dir (Some (fs s)) = true ->
  is_Symlink (walk (fs s) [c]) = false ->
  is_File (walk (fs s) [c]) = false ->
  mkdir [c] true s
  = (Ok tt, if is_Dir (walk (fs s) [c]) then s
            else State (put (fs s) [c] (Dir ∅)) (trace s)).
Proof.
  intros Hroot Hl Hf. unfold mkdir, try_except, mknode, bind, get_fs.
  rewrite (locate_parent (fs s) false [c]) by (done || by left).
  destruct (walk (fs s) [c]) as [x|] eqn:Hw; [|reflexivity].
  unfold raise, is_dir, bind, get_fs, ret. cbn [andb].
  rewrite (stat_walk _ _ _ Hw Hl). by destruct x.
Qed.

Lemma _print_run E msg col :
  exists line, forall s, _print E msg col s = (Ok tt, State (fs s) (trace s ++ [Printed line])).
Proof.
  unfold _print, print, emit. destruct (String.eqb (sys_platform E) "win32"); eauto.
Qed.

Lemma requests_get_run E url s :
  requests_get_ E url s
  = (match requests_get E url with
     | Some r => Ok r
     | None => Raise (ConnectionError url)
     end, State (fs s) (trace s ++ [HttpGet url])).
Proof. unfold requests_get_, bind, emit. by destruct (requests_get E url). Qed.

(** X7.  A first request that fails stops [download_toolchain] before
    anything is unpacked.  The executable is not there, toolchain is a
    directory or absent, and the request for the runtime is not answered
    or answered with a status from 400 to 599: then the call raises
    ConnectionError, respectively HTTPError with that status; the trace
    has gained the announcement and that one request (the package
    manager is not asked for); and the tree is as it was, except that
    toolchain is now an empty directory where it was absent. *)
Theorem X7_download_toolchain_request_fails (E : Env) (G : Globals) (s : state) :
  is_File (stat (fs s) (Path2 "toolchain/node" (node_executable_in_tarball G))) = false ->
  is_Dir (Some (fs s)) = true ->
  is_Symlink (walk (fs s) ["toolchain"]) = false ->
  is_File (walk (fs s) ["toolchain"]) = false ->
  match requests_get E (node_download_url G) with
  | None => True
  | Some r => (400 <=? status_code r)%Z && (status_code r <? 600)%Z = true
  end ->
  exists line,
    download_toolchain E G s
    = (Raise match requests_get E (node_download_url G) with
             | None => ConnectionError (node_download_url G)
             | Some r => HTTPError (status_code r)
             end,
       State (if is_Dir (walk (fs s) ["toolchain"]) then fs s
              else put (fs s) ["toolchain"] (Dir ∅))
             (trace s ++ [Printed line; HttpGet (node_download_url G)])).
Proof.
  intros Habs Hroot Hl Hf Hreq.
  destruct (_print_run E ("Downloading node.js from " +:+ node_download_url G) cyan)
    as (line & Hprint).
  exists line. unfold download_toolchain.
  rewrite (bind_Ok _ _ _ _ _ (is_file_run _ s)), Habs.
  rewrite (bind_Ok _ _ _ _ _ (mkdir_top_run "toolchain" s Hroot Hl Hf)).
  rewrite (bind_Ok _ _ _ _ _ (Hprint _)).
  pose proof (requests_get_run E (node_download_url G)
                (State (fs (if is_Dir (walk (fs s) ["toolchain"]) then s
                            else State (put (fs s) ["toolchain"] (Dir ∅)) (trace s)))
                       (trace (if is_Dir (walk (fs s) ["toolchain"]) then s
                               else State (put (fs s) ["toolchain"] (Dir ∅)) (trace s))
                        ++ [Printed line]))) as Hget.
  cbn [fs trace] in Hget.
  replace (fs (if is_Dir (walk (fs s) ["toolchain"]) then s
               else State (put (fs s) ["toolchain"] (Dir ∅)) (trace s)))
    with (if is_Dir (walk (fs s) ["toolchain"]) then fs s
          else put (fs s) ["toolchain"] (Dir ∅)) in *
    by by destruct (is_Dir (walk (fs s) ["toolchain"])).
  replace (trace (if is_Dir (walk (fs s) ["toolchain"]) then s
                  else State (put (fs s) ["toolchain"] (Dir ∅)) (trace s)))
    with (trace s) in * by by destruct (is_Dir (walk (fs s) ["toolchain"])).
  rewrite <- app_assoc in Hget. cbn [app] in Hget.
  destruct (requests_get E (node_download_url G)) as [r|].
  - rewrite (bind_Ok _ _ _ _ _ Hget). apply bind_Raise.
    unfold raise_for_status. by rewrite Hreq.
  - by apply bind_Raise.
Qed.

Lemma X7_download_toolchain_request_fails_witness :
  let E := Sample.env "linux" None None Sample.yarn_ok in
  let s := Sample.start Sample.fresh_tree in
  exists line,
    download_toolchain E (Sample.globals "linux") s
    = (Raise (ConnectionError Sample.node_url),
       State (put Sample.fresh_tree ["toolchain"] (Dir ∅))
             [Printed line; HttpGet Sample.node_url]).
Proof.
  intros E s.
  destruct (X7_download_toolchain_request_fails E (Sample.globals "linux") s)
    as (line & Hrun); [vm_compute; reflexivity.. | exact I |].
  exists line. exact Hrun.
Defined.

(** ** The extension manifest, when something is missing *)

(** X8.  [update_package] saves before it looks: with major version 2,
    a manifest that lacks "scripts", or after it "dependencies", or after
    them "jupyterlab", makes the call raise KeyError with that key; by
    then the sidecar .package_default.json holds the manifest as loaded,
    package.json itself has not been written, and nothing was printed. *)
Theorem X8_update_package_missing_key
    (E : Env) (s : state) (c : content) (d : gmap string json) :
  jupyter_lab_major_version E = "2" ->
  walk (fs s) ["ts"; "jupyter_extension"; "package.json"] = Some (File c) ->
  json_load E ["ts"; "jupyter_extension"; "package.json"] s = (Ok (JObj d), s) ->
  is_Dir (walk (fs s) ["ts"; "jupyter_extension"; ".package_default.json"]) = false ->
  is_Symlink (walk (fs s) ["ts"; "jupyter_extension"; ".package_default.json"]) = false ->
  forall key,
    (key = "scripts" /\ d !! "scripts" = None) \/
    (key = "dependencies" /\ (exists sc, d !! "scripts" = Some (JObj sc))
     /\ d !! "dependencies" = None) \/
    (key = "jupyterlab" /\ (exists sc, d !! "scripts" = Some (JObj sc))
     /\ (exists dp, d !! "dependencies" = Some (JObj dp))
     /\ d !! "jupyterlab" = None) ->
    update_package E s
    = (Raise (KeyError key),
       State (put (fs s) ["ts"; "jupyter_extension"; ".package_default.json"]
                  (File (JsonText (JObj d))))
             (trace s)).
Proof.
  intros Hmajor Hpkg Hload Hd Hl key Hkey.
  set (pkg := ["ts"; "jupyter_extension"; "package.json"]) in *.
  set (side := ["ts"; "jupyter_extension"; ".package_default.json"]) in *.
  assert (Hpar : is_Dir (walk (fs s) (parent side)) = true).
  { change (parent side) with (parent pkg). by eapply walk_parent. }
  unfold update_package. rewrite Hmajor. change ("2" =? "2")%string with true.
  rewrite when_true. fold pkg side.
  rewrite (bind_Ok _ _ _ _ _ Hload).
  unfold json_dump at 1.
  rewrite (bind_Ok _ _ _ _ _
             (write_file_run side (JsonText (JObj d)) s ltac:(done) Hpar Hl Hd)).
  set (s_a := State (put (fs s) side (File (JsonText (JObj d)))) (trace s)).
  clearbody s_a.
  destruct Hkey as [[-> Hsc] | [(-> & [sc Hsc] & Hdp) | (-> & [sc Hsc] & [dp Hdp] & Hjl)]].
  - apply bind_Raise. unfold getitem. by rewrite Hsc.
  - unfold getitem at 1, bind at 1, ret at 1. rewrite Hsc.
    unfold setitem at 1, bind at 1, ret at 1.
    unfold setitem at 1, bind at 1, ret at 1.
    apply bind_Raise. unfold getitem.
    rewrite lookup_insert_ne by discriminate. by rewrite Hdp.
  - unfold getitem at 1, bind at 1, ret at 1. rewrite Hsc.
    unfold setitem at 1, bind at 1, ret at 1.
    unfold setitem at 1, bind at 1, ret at 1.
    unfold getitem at 1, bind at 1, ret at 1.
    rewrite lookup_insert_ne by discriminate. rewrite Hdp.
    unfold setitem at 1, bind at 1, ret at 1.
    unfold setitem at 1, bind at 1, ret at 1.
    unfold getitem at 1, bind at 1, ret at 1.
    rewrite lookup_insert_eq.
    unfold setitem at 1, bind at 1, ret at 1.
    unfold setitem at 1, bind at 1, ret at 1.
    apply bind_Raise. unfold getitem.
    rewrite !lookup_insert_ne by discriminate. by rewrite Hjl.
Qed.

Lemma X8_update_package_missing_key_witness :
  let E := Sample.env "linux" (Some "2.3.1") None Sample.yarn_ok in
  let bare := Sample.obj [("name", JStr "nni-jupyter-extension")] in
  let s := Sample.start
             (Sample.dir [("ts", Sample.dir [("jupyter_extension",
                Sample.dir [("package.json", File (JsonText bare))])])]) in
  exists t',
    update_package E s = (Raise (KeyError "scripts"), State t' []) /\
    walk t' ["ts"; "jupyter_extension"; ".package_default.json"] = Some (File (JsonText bare)) /\
    walk t' ["ts"; "jupyter_extension"; "package.json"] = Some (File (JsonText bare)).
Proof.
  intros E bare s. eexists. split.
  - apply (X8_update_package_missing_key E s (JsonText bare)
             (list_to_map [("name", JStr "nni-jupyter-extension")])).
    + vm_compute. reflexivity.
    + vm_compute. reflexivity.
    + vm_compute. reflexivity.
    + vm_compute. reflexivity.
    + vm_compute. reflexivity.
    + left. split; [reflexivity | vm_compute; reflexivity].
  - split; vm_compute; reflexivity.
Defined.

(** X9.  [restore_package] needs the sidecar and uses it up.  With
    major version 2 and no .package_default.json in the extension
    directory the call raises FileNotFoundError and changes nothing, not
    even the trace; and since a restore that returns has removed the
    sidecar, a second restore right after it raises that error. *)
Theorem X9_restore_package_needs_sidecar (E : Env) (s : state) :
  jupyter_lab_major_version E = "2" ->
  is_Dir (walk (fs s) ["ts"; "jupyter_extension"]) = true ->
  (walk (fs s) ["ts"; "jupyter_extension"; ".package_default.json"] = None ->
   restore_package E s
   = (Raise (FileNotFoundError ["ts"; "jupyter_extension"; ".package_default.json"]), s)) /\
  (forall j c,
     walk (fs s) ["ts"; "jupyter_extension"; ".package_default.json"]
     = Some (File (JsonText j)) ->
     walk (fs s) ["ts"; "jupyter_extension"; "package.json"] = Some (File c) ->
     exists s1,
       restore_package E s = (Ok tt, s1) /\
       restore_package E s1
       = (Raise (FileNotFoundError ["ts"; "jupyter_extension"; ".package_default.json"]),
          s1)).
Proof.
  intros Hmajor Hdir.
  set (pkg := ["ts"; "jupyter_extension"; "package.json"]) in *.
  set (side := ["ts"; "jupyter_extension"; ".package_default.json"]) in *.
  assert (Habsent : forall s0,
            is_Dir (walk (fs s0) ["ts"; "jupyter_extension"]) = true ->
            walk (fs s0) side = None ->
            restore_package E s0 = (Raise (FileNotFoundError side), s0)).
  { intros s0 Hd Hnone. unfold restore_package.
    rewrite Hmajor. change ("2" =? "2")%string with true. rewrite when_true.
    apply bind_Raise. unfold json_load. apply bind_Raise.
    unfold read_file, bind, get_fs. fold side.
    by rewrite (stat_absent _ side ltac:(done) Hd Hnone). }
  split; [by apply Habsent|].
  intros j c Hside Hpkg.
  pose proof (restore_package_post E Hmajor s j Hside (ex_intro _ c Hpkg)) as Hrun.
  eexists. split; [exact Hrun|]. apply Habsent; cbn [fs].
  - rewrite (same_kind_Dir _ _ (walk_del_above _ ["ts"; "jupyter_extension"]
                                  ".package_default.json" [])).
    rewrite (same_kind_Dir _ _ (walk_put_above _ ["ts"; "jupyter_extension"]
                                  "package.json" [] _)).
    exact Hdir.
  - by apply walk_del_same.
Qed.

Lemma X9_restore_package_needs_sidecar_witness :
  let E := Sample.env "linux" (Some "2.3.1") None Sample.yarn_ok in
  let s := Sample.start Sample.tree in
  let s_u := snd (update_package E s) in
  restore_package E s
  = (Raise (FileNotFoundError ["ts"; "jupyter_extension"; ".package_default.json"]), s) /\
  exists s1,
    restore_package E s_u = (Ok tt, s1) /\
    restore_package E s1
    = (Raise (FileNotFoundError ["ts"; "jupyter_extension"; ".package_default.json"]), s1).
Proof.
  intros E s s_u. split.
  - destruct (X9_restore_package_needs_sidecar E s) as (Habsent & _);
      [vm_compute; reflexivity.. |].
    apply Habsent. vm_compute. reflexivity.
  - destruct (X9_restore_package_needs_sidecar E s_u) as (_ & Htwice);
      [vm_compute; reflexivity.. |].
    apply (Htwice Sample.extension_manifest (JsonText Sample.patched_extension_manifest));
      vm_compute; reflexivity.
Defined.

(** ** The processes a build starts *)

Create HintDb still.

Section Still.

Variable d : list event.

Let I (s : state) : Prop := runs (trace s) = d.

Lemma still_set_fs t : preserves I (set_fs t).
Proof. by intros s Hs. Qed.

Lemma still_emit ev : is_Run ev = false -> preserves I (emit ev).
Proof.
  intros Hev s Hs. unfold I, emit, runs in *. cbn [snd trace].
  rewrite List.filter_app. cbn [List.filter]. rewrite Hev. by rewrite app_nil_r.
Qed.

#[local] Hint Resolve still_set_fs still_emit : still.

Ltac still := preserve; auto with still.

Lemma still_is_symlink p : preserves I (is_symlink p).
Proof. unfold is_symlink. still. Qed.
Lemma still_is_file p : preserves I (is_file p).
Proof. unfold is_file. still. Qed.
Lemma still_is_dir p : preserves I (is_dir p).
Proof. unfold is_dir. still. Qed.
Lemma still_exists_ p : preserves I (exists_ p).
Proof. unfold exists_. still. Qed.
Lemma still_unlink p : preserves I (unlink p).
Proof. unfold unlink. still. Qed.
Lemma still_rmtree p b : preserves I (rmtree p b).
Proof. unfold rmtree. still. Qed.
Lemma still_mknode p x : preserves I (mknode p x).
Proof. unfold mknode. still. Qed.
#[local] Hint Resolve still_is_symlink still_is_file still_is_dir still_exists_
  still_unlink still_rmtree still_mknode : still.
Lemma still_mkdir p b : preserves I (mkdir p b).
Proof. unfold mkdir. still. Qed.
Lemma still_makedirs_parents p : preserves I (makedirs_parents p).
Proof. unfold makedirs_parents. still. Qed.
Lemma still_symlink_to p q b : preserves I (symlink_to p q b).
Proof. unfold symlink_to. still. Qed.
Lemma still_read_file p : preserves I (read_file p).
Proof. unfold read_file. still. Qed.
Lemma still_write_file p c : preserves I (write_file p c).
Proof. unfold write_file. still. Qed.
#[local] Hint Resolve still_mkdir still_makedirs_parents still_symlink_to still_read_file
  still_write_file : still.
Lemma still_copyfile p q : preserves I (copyfile p q).
Proof. unfold copyfile. still. Qed.
#[local] Hint Resolve still_copyfile : still.
Lemma still_copy p q : preserves I (copy p q).
Proof. unfold copy. still. Qed.
Lemma still_copytree p q : preserves I (copytree p q).
Proof. unfold copytree. still. Qed.
Lemma still_iterdir p : preserves I (iterdir p).
Proof. unfold iterdir. still. Qed.
Lemma still_rename E p q : preserves I (rename E p q).
Proof. unfold rename. still. Qed.
Lemma still_extract_member p m : preserves I (extract_member p m).
Proof. unfold extract_member. still. Qed.
#[local] Hint Resolve still_copy still_copytree still_iterdir still_rename
  still_extract_member : still.
Lemma still_extractall ms p : preserves I (extractall ms p).
Proof. unfold extractall. still. Qed.
Lemma still_raise_for_status r : preserves I (raise_for_status r).
Proof. unfold raise_for_status. still. Qed.
Lemma still_requests_get_ E url : preserves I (requests_get_ E url).
Proof. unfold requests_get_. still. Qed.
Lemma still_json_load E p : preserves I (json_load E p).
Proof. unfold json_load. still. Qed.
Lemma still_json_dump doc p : preserves I (json_dump doc p).
Proof. unfold json_dump. still. Qed.
Lemma still_getitem doc k : preserves I (getitem doc k).
Proof. unfold getitem. still. Qed.
Lemma still_setitem doc k v : preserves I (setitem doc k v).
Proof. unfold setitem. still. Qed.
Lemma still_print line : preserves I (print line).
Proof. unfold print. still. Qed.
#[local] Hint Resolve still_extractall still_raise_for_status still_requests_get_
  still_json_load still_json_dump still_getitem still_setitem still_print : still.

Variable E : Env.
Variable G : Globals.

Lemma still__print msg c : preserves I (_print E msg c).
Proof. unfold _print. still. Qed.
Lemma still__symlink p q : preserves I (_symlink p q).
Proof. unfold _symlink. still. Qed.
#[local] Hint Resolve still__print still__symlink : still.
Lemma still_download_toolchain : preserves I (download_toolchain E G).
Proof. unfold download_toolchain. still. Qed.
Lemma still_update_package : preserves I (update_package E).
Proof. unfold update_package. still. Qed.
Lemma still_restore_package : preserves I (restore_package E).
Proof. unfold restore_package. still. Qed.
Lemma still_prepare_nni_node : preserves I (prepare_nni_node G).
Proof. unfold prepare_nni_node. still. Qed.
Lemma still_symlink_jupyter : preserves I (symlink_jupyter E).
Proof. unfold symlink_jupyter. still. Qed.
Lemma still_copy_jupyter version : preserves I (copy_jupyter E version).
Proof. unfold copy_jupyter. still. Qed.
Lemma still_copy_dist_entries : preserves I copy_dist_entries.
Proof. unfold copy_dist_entries, copy_entry. still. Qed.
Lemma still_write_manifest version : preserves I (write_manifest E version).
Proof. unfold write_manifest. still. Qed.
#[local] Hint Resolve still_symlink_jupyter : still.
Lemma still_symlink_nni_node : preserves I (symlink_nni_node E).
Proof. unfold symlink_nni_node. still. Qed.

End Still.

Section RunsPrefix.

Variable E : Env.
Variable G : Globals.

(** A computation that starts nothing. *)
Lemma runs_prefix_still {A} (m : M A) :
  (forall d, preserves (fun s => runs (trace s) = d) m) -> runs_prefix [] 0 m.
Proof.
  intros Hm s. exists 0. split; [done|]. split; [|intros; lia].
  rewrite app_nil_r. by apply (Hm (runs (trace s)) s).
Qed.

Lemma runs_prefix_bind {A B} l1 l2 n (m : M A) (k : A -> M B) :
  runs_prefix l1 (length l1) m ->
  (forall a, runs_prefix l2 n (k a)) ->
  runs_prefix (l1 ++ l2) (length l1 + n) (bind m k).
Proof.
  intros Hm Hk s. destruct (Hm s) as (k1 & Hle1 & Hr1 & Hall1). unfold bind.
  destruct (m s) as [[a|e] s1]; cbn [fst snd] in *.
  - specialize (Hall1 a eq_refl). assert (k1 = length l1) as -> by lia.
    rewrite firstn_all in Hr1.
    destruct (Hk a s1) as (k2 & Hle2 & Hr2 & Hall2).
    exists (length l1 + k2). split; [rewrite length_app; lia|]. split.
    + rewrite Hr2, Hr1, <- app_assoc. f_equal.
      by rewrite firstn_app_2.
    + intros b Hb. specialize (Hall2 b Hb). lia.
  - exists k1. split; [rewrite length_app; lia|]. split; [|discriminate].
    rewrite Hr1. f_equal. rewrite firstn_app.
    replace (k1 - length l1) with 0 by lia. by rewrite firstn_O, app_nil_r.
Qed.

(** The same, where the first part starts nothing. *)
Lemma runs_prefix_seq {A B} l n (m : M A) (k : A -> M B) :
  runs_prefix [] 0 m -> (forall a, runs_prefix l n (k a)) -> runs_prefix l n (bind m k).
Proof. intros Hm Hk. by apply (runs_prefix_bind [] l n m k). Qed.

(** And where the second part starts nothing. *)
Lemma runs_prefix_then {A B} l (m : M A) (k : A -> M B) :
  runs_prefix l (length l) m -> (forall a, runs_prefix [] 0 (k a)) ->
  runs_prefix l (length l) (bind m k).
Proof.
  intros Hm Hk. pose proof (runs_prefix_bind l [] 0 m k Hm Hk) as H.
  by rewrite app_nil_r, Nat.add_0_r in H.
Qed.

Lemma runs_prefix_weaken {A} l n n' (m : M A) :
  n' <= n -> runs_prefix l n m -> runs_prefix l n' m.
Proof.
  intros Hn Hm s. destruct (Hm s) as (k & Hle & Hr & Hall).
  exists k. split; [done|]. split; [done|]. intros a Ha. specialize (Hall a Ha). lia.
Qed.

(** [try: m  except Exception: handler], with a handler that starts
    nothing: how far [m] got is no longer known from the return. *)
Lemma runs_prefix_try_except {A} l n (m : M A) (handler : exn -> M A) :
  runs_prefix l n m -> (forall e, runs_prefix [] 0 (handler e)) ->
  runs_prefix l 0 (try_except m handler).
Proof.
  intros Hm Hh s. destruct (Hm s) as (k & Hle & Hr & _). unfold try_except.
  destruct (m s) as [[a|e] s1]; cbn [fst snd] in *.
  - exists k. split; [done|]. split; [done|]. intros; lia.
  - destruct (Hh e s1) as (k' & _ & Hr' & _). exists k. split; [done|].
    split; [|intros; lia]. rewrite Hr', Hr. by rewrite firstn_nil, app_nil_r.
Qed.

(** [_yarn] starts its process, whatever comes of it. *)
Lemma runs_prefix_yarn path args :
  runs_prefix [yarn_event E G path args] 1 (_yarn E G path args).
Proof.
  intros s. exists 1. split; [done|]. split; [|intros; lia].
  unfold _yarn, yarn_event. cbn [firstn].
  assert (Hrun : forall argv env,
            runs (trace (snd (subprocess_run E argv path env s)))
            = runs (trace s) ++ [Run argv path env]).
  { intros argv env.
    assert (Htr : trace (snd (subprocess_run E argv path env s))
                  = trace s ++ [Run argv path env]).
    { unfold subprocess_run, emit, bind, get_fs, set_fs, ret, raise. cbn [fs trace].
      by destruct (fst (subprocess E argv path env (fs s))) as [[| |]|]. }
    rewrite Htr. unfold runs. by rewrite List.filter_app. }
  destruct (truthy (environ_get E "GLOBAL_TOOLCHAIN")); apply Hrun.
Qed.

Lemma runs_prefix_compile_ts release :
  runs_prefix (compile_commands E G) (if truthy release then 6 else 4)
    (compile_ts E G release).
Proof.
  unfold compile_ts, compile_commands.
  apply runs_prefix_seq; [apply runs_prefix_still; intros; apply still__print | intros _].
  replace (if truthy release then 6 else 4)
    with (1 + (1 + (1 + (1 + (if truthy release then 2 else 0)))))
    by by destruct (truthy release).
  apply (runs_prefix_bind [_] _ _); [apply runs_prefix_yarn | intros _].
  apply (runs_prefix_bind [_] _ _); [apply runs_prefix_yarn | intros _].
  apply runs_prefix_seq; [apply runs_prefix_still; intros; apply still_rmtree | intros _].
  apply runs_prefix_seq; [apply runs_prefix_still; intros; apply still_copytree | intros _].
  apply runs_prefix_seq; [apply runs_prefix_still; intros; apply still__print | intros _].
  apply (runs_prefix_bind [_] _ _); [apply runs_prefix_yarn | intros _].
  apply (runs_prefix_bind [_] _ _); [apply runs_prefix_yarn | intros _].
  apply runs_prefix_seq; [apply runs_prefix_still; intros; apply still__print | intros _].
  assert (Hext : runs_prefix [yarn_event E G "ts/jupyter_extension" [];
                              yarn_event E G "ts/jupyter_extension" ["build"]] 2
                   (_yarn E G "ts/jupyter_extension" [] ;;
                    _yarn E G "ts/jupyter_extension" ["build"])).
  { apply (runs_prefix_bind [_] [_] 1); [apply runs_prefix_yarn | intros _].
    apply runs_prefix_yarn. }
  destruct (truthy release); [exact Hext|].
  apply (runs_prefix_try_except _ 2); [exact Hext | intros e].
  apply runs_prefix_seq; [|intros _]; apply runs_prefix_still; intros; apply still__print.
Qed.

Lemma runs_prefix_copy_nni_node version :
  runs_prefix [yarn_event E G "ts/nni_manager" ["--prod"; "--cwd"; cwd E +:+ "/nni_node"]] 1
    (copy_nni_node E G version).
Proof.
  unfold copy_nni_node.
  apply runs_prefix_seq; [apply runs_prefix_still; intros; apply still__print | intros _].
  apply runs_prefix_seq;
    [apply runs_prefix_still; intros; apply still_copy_dist_entries | intros _].
  apply runs_prefix_seq;
    [apply runs_prefix_still; intros; apply still_write_manifest | intros _].
  apply (runs_prefix_then [_]); [apply runs_prefix_yarn | intros _].
  apply runs_prefix_seq; [|intros _]; apply runs_prefix_still; intros;
    [apply still_copytree | apply still_copy_jupyter].
Qed.

(** The assembler [build] chooses, and [restore_package] after it. *)
Lemma runs_prefix_assemble release :
  runs_prefix (assemble_commands E G release) (length (assemble_commands E G release))
    ((if truthy release || String.eqb (sys_platform E) "win32"
      then copy_nni_node E G release
      else symlink_nni_node E) ;;
     restore_package E).
Proof.
  unfold assemble_commands.
  destruct (truthy release || String.eqb (sys_platform E) "win32").
  - apply (runs_prefix_then [_]); [apply runs_prefix_copy_nni_node | intros _].
    apply runs_prefix_still; intros; apply still_restore_package.
  - apply runs_prefix_seq; [|intros _]; apply runs_prefix_still; intros;
      [apply still_symlink_nni_node | apply still_restore_package].
Qed.

(** Two phases, the second entered only when the first returned. *)
Let two_phase {A} (l1 : list event) (n1 : nat) (l2 : list event) (m : M A) : Prop :=
  forall s, exists k j,
    k <= length l1 /\ j <= length l2 /\
    runs (trace (snd (m s))) = runs (trace s) ++ firstn k l1 ++ firstn j l2 /\
    (0 < j -> n1 <= k) /\
    (forall a, fst (m s) = Ok a -> n1 <= k /\ j = length l2).

Lemma two_phase_bind {A B} l1 n1 l2 (m : M A) (k : A -> M B) :
  runs_prefix l1 n1 m -> (forall a, runs_prefix l2 (length l2) (k a)) ->
  two_phase l1 n1 l2 (bind m k).
Proof.
  intros Hm Hk s. destruct (Hm s) as (k1 & Hle1 & Hr1 & Hall1). unfold bind.
  destruct (m s) as [[a|e] s1]; cbn [fst snd] in *.
  - destruct (Hk a s1) as (k2 & Hle2 & Hr2 & Hall2).
    exists k1, k2. split; [done|]. split; [done|]. split; [|split].
    + by rewrite Hr2, Hr1, <- app_assoc.
    + intros _. by apply (Hall1 a).
    + intros b Hb. split; [by apply (Hall1 a)|]. specialize (Hall2 b Hb). lia.
  - exists k1, 0. split; [done|]. split; [lia|]. split; [|split].
    + by rewrite firstn_O, app_nil_r.
    + lia.
    + discriminate.
Qed.

Lemma two_phase_seq {A B} l1 n1 l2 (m : M A) (k : A -> M B) :
  runs_prefix [] 0 m -> (forall a, two_phase l1 n1 l2 (k a)) ->
  two_phase l1 n1 l2 (bind m k).
Proof.
  intros Hm Hk s. destruct (Hm s) as (k0 & _ & Hr0 & _). unfold bind.
  rewrite firstn_nil, app_nil_r in Hr0.
  destruct (m s) as [[a|e] s1]; cbn [fst snd] in *.
  - destruct (Hk a s1) as (k1 & j & H). rewrite Hr0 in H. by exists k1, j.
  - exists 0, 0. split; [lia|]. split; [lia|]. split; [|split].
    + by rewrite !firstn_O, !app_nil_r.
    + lia.
    + discriminate.
Qed.

Lemma two_phase_build release :
  two_phase (compile_commands E G) (if truthy release then 6 else 4)
    (assemble_commands E G release) (build E G release).
Proof.
  unfold build.
  apply two_phase_seq.
  { destruct (truthy release || negb (truthy (environ_get E "GLOBAL_TOOLCHAIN")));
      cbn [when]; apply runs_prefix_still; intros;
      [apply still_download_toolchain | apply preserves_ret]. }
  intros _. apply two_phase_seq;
    [apply runs_prefix_still; intros; apply still_prepare_nni_node | intros _].
  apply two_phase_seq;
    [apply runs_prefix_still; intros; apply still_update_package | intros _].
  apply two_phase_bind; [apply runs_prefix_compile_ts | intros _].
  apply runs_prefix_assemble.
Qed.

End RunsPrefix.


(** X11.  Of a whole [build], the processes started are package-manager
    commands only: a beginning of the six of [compile_ts], and after
    them the production reinstall of the copy strategy, at most.  The
    reinstall is started only if [compile_ts] returned, and only in a
    release build or on Windows; downloading, preparing the output
    directory, patching and restoring the manifest, and the symlink
    strategy start nothing. *)
Theorem X11_build_commands (E : Env) (G : Globals) (release : option string) (s : state) :
  exists k j,
    k <= 6 /\ j <= length (assemble_commands E G release) /\
    runs (trace (snd (build E G release s)))
    = runs (trace s) ++ firstn k (compile_commands E G)
      ++ firstn j (assemble_commands E G release) /\
    (0 < j -> (if truthy release then 6 else 4) <= k) /\
    (fst (build E G release s) = Ok tt ->
     (if truthy release then 6 else 4) <= k /\ j = length (assemble_commands E G release)).
Proof.
  destruct (two_phase_build E G release s) as (k & j & Hk & Hj & Hr & Hj0 & Hall).
  exists k, j. split; [exact Hk|]. split; [exact Hj|]. split; [exact Hr|].
  split; [exact Hj0|]. intros Hok. by apply (Hall tt).
Qed.


Lemma X11_build_commands_witness :
  let E := Sample.env "win32" (Some "3.0.14") None (Sample.yarn_failing_in "ts/webui") in
  let G := Sample.globals "win32" in
  let s := Sample.start Sample.windows_tree in
  exists k,
    k <= 6 /\
    runs (trace (snd (build E G None s))) = firstn k (compile_commands E G).
Proof.
  intros E G s.
  destruct (X11_build_commands E G None s) as (k & j & Hk & Hj & Hr & Hj0 & _).
  exists k. split; [exact Hk|].
  destruct j as [|j].
  - rewrite firstn_O, app_nil_r in Hr. exact Hr.
  - exfalso. specialize (Hj0 ltac:(lia)). cbn [truthy] in Hj0.
    assert (Hlen : length (runs (trace (snd (build E G None s)))) = 3)
      by (vm_compute; reflexivity).
    rewrite Hr, !length_app, length_firstn in Hlen.
    change (length (compile_commands E G)) with 6 in Hlen.
    change (length (runs (trace s))) with 0 in Hlen. lia.
Defined.

(** ** The symlink strategy *)

Lemma put_through_leaf P : forall t n a r x,
  walk t P = Some n -> is_Dir (Some n) = false -> put t (P ++ a :: r) x = t.
Proof.
  induction P as [|b P IH]; intros t n a r x Hw Hn.
  - cbn [walk] in Hw. injection Hw as ->. by destruct n.
  - destruct t as [?|es|?]; try discriminate. cbn [walk] in Hw.
    cbn [app put]. destruct (es !! b) as [m|] eqn:Hm; [|discriminate].
    rewrite (IH m n a r x Hw Hn). by rewrite insert_id.
Qed.

(** What is there stays, when a node is created where nothing was: a
    link or a file as it is, a directory as a directory. *)
Lemma put_absent_keeps t q x p n :
  walk t q = None -> walk t p = Some n -> is_Dir (Some n) = false ->
  walk (put t q x) p = Some n.
Proof.
  intros Hq Hp Hn.
  destruct (path_trichotomy p q) as [Hd | [[[|a r] ->] | (a & r & ->)]].
  - by rewrite walk_put_diverge.
  - rewrite app_nil_r in Hq. congruence.
  - by rewrite (put_through_leaf _ _ _ _ _ _ Hp Hn).
  - rewrite walk_app, Hq in Hp. discriminate.
Qed.

Lemma put_absent_keeps_Dir t q x p :
  walk t q = None -> is_Dir (walk t p) = true -> is_Dir (walk (put t q x) p) = true.
Proof.
  intros Hq Hp.
  destruct (path_trichotomy p q) as [Hd | [[[|a r] ->] | (a & r & ->)]].
  - by rewrite walk_put_diverge.
  - rewrite app_nil_r in Hq. by rewrite Hq in Hp.
  - by rewrite (same_kind_Dir _ _ (walk_put_above t p a r x)).
  - rewrite walk_app, Hq in Hp. discriminate.
Qed.

Section Creates.

(** A property of the tree that creating a node keeps. *)
Variable Q : node -> Prop.
Hypothesis Q_put : forall t q x, walk t q = None -> Q t -> Q (put t q x).

Let I (s : state) : Prop := Q (fs s).

Lemma creates_mknode p x : preserves I (mknode p x).
Proof.
  intros s Hs. unfold mknode, bind, get_fs.
  destruct (locate (fs s) false p) as [q|]; [|exact Hs].
  destruct (walk (fs s) q) eqn:Hq; [exact Hs|].
  unfold I. cbn [snd set_fs fs]. by apply Q_put.
Qed.

Lemma creates_emit ev : preserves I (emit ev).
Proof. by intros s Hs. Qed.

Lemma creates__print E msg col : preserves I (_print E msg col).
Proof. unfold _print, print. preserve; apply creates_emit. Qed.

Lemma creates__symlink target link : preserves I (_symlink target link).
Proof. unfold _symlink, is_dir, symlink_to. preserve. apply creates_mknode. Qed.

Lemma creates_symlink_jupyter E : preserves I (symlink_jupyter E).
Proof. unfold symlink_jupyter, exists_. preserve; apply creates__symlink. Qed.

End Creates.

Lemma _symlink_keeps_link p tgt target link :
  preserves (fun s => walk (fs s) p = Some (Symlink tgt)) (_symlink target link).
Proof.
  apply (creates__symlink (fun t => walk t p = Some (Symlink tgt))).
  intros t q x Hq Hp. by apply put_absent_keeps.
Qed.

Lemma symlink_jupyter_keeps_link E p tgt :
  preserves (fun s => walk (fs s) p = Some (Symlink tgt)) (symlink_jupyter E).
Proof.
  apply (creates_symlink_jupyter (fun t => walk t p = Some (Symlink tgt))).
  intros t q x Hq Hp. by apply put_absent_keeps.
Qed.

Lemma _symlink_inv target link s s' :
  _symlink target link s = (Ok tt, s') ->
  exists q, locate (fs s) false link = Some q /\ walk (fs s) q = None /\
            s' = State (put (fs s) q (Symlink target)) (trace s).
Proof.
  unfold _symlink, is_dir, symlink_to. unfold bind at 1 2. unfold get_fs, ret.
  apply mknode_inv.
Qed.

(** A link made directly in nni_node, when nni_node is a directory. *)
Lemma _symlink_top target nm s s' :
  is_Dir (walk (fs s) ["nni_node"]) = true ->
  _symlink target ["nni_node"; nm] s = (Ok tt, s') ->
  walk (fs s) ["nni_node"; nm] = None /\
  s' = State (put (fs s) ["nni_node"; nm] (Symlink target)) (trace s) /\
  walk (fs s') ["nni_node"; nm] = Some (Symlink target) /\
  is_Dir (walk (fs s') ["nni_node"]) = true.
Proof.
  intros Hd Hrun. apply _symlink_inv in Hrun as (q & Hq & Hnone & ->).
  rewrite (locate_parent _ false ["nni_node"; nm]) in Hq by (done || by left).
  injection Hq as <-. split; [exact Hnone|]. split; [reflexivity|]. cbn [fs]. split.
  - by apply walk_put_same.
  - by apply put_absent_keeps_Dir.
Qed.

Lemma symlink_loop (names : list string) : forall s s',
  is_Dir (walk (fs s) ["nni_node"]) = true ->
  for_ names
    (fun nm => _symlink (child ["ts"; "nni_manager"; "dist"] nm) (child ["nni_node"] nm)) s
  = (Ok tt, s') ->
  is_Dir (walk (fs s') ["nni_node"]) = true /\
  trace s' = trace s /\
  (forall nm, nm ∈ names ->
     walk (fs s') ["nni_node"; nm] = Some (Symlink ["ts"; "nni_manager"; "dist"; nm])) /\
  (forall a r, a <> "nni_node" -> walk (fs s') (a :: r) = walk (fs s) (a :: r)).
Proof.
  induction names as [|nm names IH]; intros s s' Hd Hrun.
  - cbn [for_] in Hrun. unfold ret in Hrun. injection Hrun as <-.
    split; [done|]. split; [done|]. split; [|done]. intros nm Hin.
    by apply elem_of_nil in Hin.
  - cbn [for_] in Hrun. apply bind_inv_Ok in Hrun as ([] & s1 & Hhead & Hrest).
    cbn [child app] in Hhead.
    destruct (_symlink_top _ _ _ _ Hd Hhead) as (_ & Hs1 & Hlink & Hd1).
    destruct (IH s1 s' Hd1 Hrest) as (Hd' & Htr & Hlinks & Hframe).
    split; [exact Hd'|]. split; [by rewrite Htr, Hs1|]. split.
    + intros nm' Hin. apply elem_of_cons in Hin as [-> | Hin]; [|by apply Hlinks].
      pose proof (preserves_for
        (I := fun s => walk (fs s) ["nni_node"; nm]
                       = Some (Symlink ["ts"; "nni_manager"; "dist"; nm]))
        names
        (fun nm => _symlink (child ["ts"; "nni_manager"; "dist"] nm) (child ["nni_node"] nm))
        (fun x => _symlink_keeps_link _ _ _ _) s1 Hlink) as Hkeep.
      by rewrite Hrest in Hkeep.
    + intros a r Ha. rewrite Hframe by exact Ha. rewrite Hs1. cbn [fs].
      apply walk_put_diverge. cbn [diverge]. by destruct (String.eqb_spec a "nni_node").
Qed.

(** X12.  What the symlink strategy leaves in nni_node.  The build
    output of the manager is a directory and nni_node is a directory;
    then, when [symlink_nni_node] returns, every entry of the build
    output has a symbolic link of its name in nni_node that stands for
    that entry (the build cache nni_manager.tsbuildinfo included, which
    the copy strategy leaves out), package.json and node_modules are
    links to those of the manager, static is a link to the build of the
    web UI, and one line was printed.  Unless the major version of
    JupyterLab is 2, nothing outside nni_node has changed. *)
Theorem X12_symlink_nni_node_links (E : Env) (s s' : state) (es : gmap string node) :
  walk (fs s) ["ts"; "nni_manager"; "dist"] = Some (Dir es) ->
  is_Dir (walk (fs s) ["nni_node"]) = true ->
  symlink_nni_node E s = (Ok tt, s') ->
  (forall nm, is_Some (es !! nm) ->
     walk (fs s') ["nni_node"; nm] = Some (Symlink ["ts"; "nni_manager"; "dist"; nm])) /\
  walk (fs s') ["nni_node"; "package.json"]
  = Some (Symlink ["ts"; "nni_manager"; "package.json"]) /\
  walk (fs s') ["nni_node"; "node_modules"]
  = Some (Symlink ["ts"; "nni_manager"; "node_modules"]) /\
  walk (fs s') ["nni_node"; "static"] = Some (Symlink ["ts"; "webui"; "build"]) /\
  (exists line, trace s' = trace s ++ [Printed line]) /\
  (jupyter_lab_major_version E <> "2" ->
   forall a r, a <> "nni_node" -> walk (fs s') (a :: r) = walk (fs s) (a :: r)).
Proof.
  intros Hdist Hd Hrun. unfold symlink_nni_node in Hrun.
  destruct (_print_run E "Creating symlinks" cyan) as (line & Hprint).
  rewrite (bind_Ok _ _ _ _ _ (Hprint s)) in Hrun.
  set (s0 := State (fs s) (trace s ++ [Printed line])) in *.
  rewrite (bind_Ok _ _ _ _ _ (iterdir_run _ es s0 Hdist)) in Hrun.
  apply bind_inv_Ok in Hrun as ([] & s1 & Hloop & Hrun).
  apply bind_inv_Ok in Hrun as ([] & s2 & H2 & Hrun).
  apply bind_inv_Ok in Hrun as ([] & s3 & H3 & Hrun).
  apply bind_inv_Ok in Hrun as ([] & s4 & H4 & Hjup).
  destruct (symlink_loop _ s0 s1 Hd Hloop) as (Hd1 & Htr1 & Hlinks1 & Hframe1).
  assert (Hk2 : forall p t, walk (fs s1) p = Some (Symlink t) ->
                            walk (fs s2) p = Some (Symlink t)).
  { intros p t. apply (preserves_run _ _ _ _ _ (_symlink_keeps_link p t _ _) H2). }
  assert (Hk3 : forall p t, walk (fs s2) p = Some (Symlink t) ->
                            walk (fs s3) p = Some (Symlink t)).
  { intros p t. apply (preserves_run _ _ _ _ _ (_symlink_keeps_link p t _ _) H3). }
  assert (Hk4 : forall p t, walk (fs s3) p = Some (Symlink t) ->
                            walk (fs s4) p = Some (Symlink t)).
  { intros p t. apply (preserves_run _ _ _ _ _ (_symlink_keeps_link p t _ _) H4). }
  assert (Hk5 : forall p t, walk (fs s4) p = Some (Symlink t) ->
                            walk (fs s') p = Some (Symlink t)).
  { intros p t. apply (preserves_run _ _ _ _ _ (symlink_jupyter_keeps_link E p t) Hjup). }
  destruct (_symlink_top _ _ _ _ Hd1 H2) as (_ & Hs2 & Hl2 & Hd2).
  destruct (_symlink_top _ _ _ _ Hd2 H3) as (_ & Hs3 & Hl3 & Hd3).
  destruct (_symlink_top _ _ _ _ Hd3 H4) as (_ & Hs4 & Hl4 & Hd4).
  assert (Hout : forall t q x a r, a <> "nni_node" ->
                   walk (put t ("nni_node" :: q) x) (a :: r) = walk t (a :: r)).
  { intros t q x a r Ha. apply walk_put_diverge. cbn [diverge].
    by destruct (String.eqb_spec a "nni_node"). }
  assert (Htr4 : trace s4 = trace s ++ [Printed line]).
  { rewrite Hs4, Hs3, Hs2. cbn [trace]. by rewrite Htr1. }
  split; [|split; [|split; [|split; [|split]]]].
  - intros nm Hnm. apply Hk5, Hk4, Hk3, Hk2, Hlinks1.
    apply list_elem_of_fmap. destruct Hnm as [n Hn]. exists (nm, n).
    split; [done|]. by apply elem_of_map_to_list.
  - by apply Hk5, Hk4, Hk3.
  - by apply Hk5, Hk4.
  - by apply Hk5.
  - exists line. rewrite <- Htr4.
    assert (Hquiet : forall tr, preserves (fun s => trace s = tr) (symlink_jupyter E)).
    { intros tr. unfold symlink_jupyter, exists_, _symlink, is_dir, symlink_to, mknode.
      preserve; by intros ? ?. }
    apply (preserves_run _ _ _ _ _ (Hquiet (trace s4)) Hjup). reflexivity.
  - intros Hmajor a r Ha.
    assert (Hfs4 : walk (fs s4) (a :: r) = walk (fs s) (a :: r)).
    { rewrite Hs4. cbn [fs]. rewrite Hout by exact Ha.
      rewrite Hs3. cbn [fs]. rewrite Hout by exact Ha.
      rewrite Hs2. cbn [fs]. rewrite Hout by exact Ha.
      by rewrite Hframe1. }
    rewrite <- Hfs4. revert Hjup. unfold symlink_jupyter.
    destruct (String.eqb_spec (jupyter_lab_major_version E) "2") as [|_]; [done|].
    unfold exists_, bind at 1 2, get_fs, ret.
    destruct (is_Some_node (stat (fs s4) ["ts"; "jupyter_extension"; "dist"])).
    + intros Hj. destruct (_symlink_top _ _ _ _ Hd4 Hj) as (_ & -> & _).
      cbn [fs]. by apply Hout.
    + intros Hj. by injection Hj as <-.
Qed.

Lemma X12_symlink_nni_node_links_witness :
  let E := Sample.env "linux" (Some "3.0.14") None Sample.yarn_ok in
  let s := Sample.start
             (Sample.dir [("toolchain", Sample.toolchain); ("ts", Sample.ts);
                          ("nni_node", Sample.dir [])]) in
  let s' := snd (symlink_nni_node E s) in
  fst (symlink_nni_node E s) = Ok tt /\
  walk (fs s') ["nni_node"; "nni_manager.tsbuildinfo"]
  = Some (Symlink ["ts"; "nni_manager"; "dist"; "nni_manager.tsbuildinfo"]) /\
  walk (fs s') ["nni_node"; "static"] = Some (Symlink ["ts"; "webui"; "build"]) /\
  walk (fs s') ["ts"] = Some Sample.ts.
Proof.
  intros E s s'.
  assert (Hok : fst (symlink_nni_node E s) = Ok tt) by (vm_compute; reflexivity).
  split; [exact Hok|].
  destruct (X12_symlink_nni_node_links E s s' Sample.dist)
    as (Hlinks & _ & _ & Hstatic & _ & Hframe).
  - vm_compute. reflexivity.
  - vm_compute. reflexivity.
  - unfold s'. destruct (symlink_nni_node E s) as [r s2]. cbn [fst snd] in *. by subst r.
  - split; [|split].
    + apply Hlinks. vm_compute. eauto.
    + exact Hstatic.
    + rewrite Hframe; [vm_compute; reflexivity | vm_compute; discriminate | discriminate].
Defined.





(** ** Entries that are there already *)

(** X14.  The copy loop over an output directory that is not empty:
    a directory of the build output whose name is taken in nni_node is
    not merged, the round raises FileExistsError and changes nothing; a
    regular file of the build output replaces a regular file of its
    name. *)
Theorem X14_copy_entry_existing (nm : string) (s : state) :
  plain_dir "nni_node" (fs s) ->
  (forall d,
     stat (fs s) ["ts"; "nni_manager"; "dist"; nm] = Some (Dir d) ->
     is_Some_node (walk (fs s) ["nni_node"; nm]) = true ->
     copy_entry nm s = (Raise (FileExistsError ["nni_node"; nm]), s)) /\
  (forall f old,
     walk (fs s) ["ts"; "nni_manager"; "dist"; nm] = Some (File f) ->
     nm <> "nni_manager.tsbuildinfo" ->
     walk (fs s) ["nni_node"; nm] = Some (File old) ->
     copy_entry nm s
     = (Ok tt, State (put (fs s) ["nni_node"; nm] (File f)) (trace s))).
Proof.
  intros Hplain. split.
  - intros d Hsrc Hdst. rewrite copy_entry_run by exact Hplain. rewrite Hsrc.
    cbn [is_Dir]. rewrite copytree_run by exact Hplain. rewrite Hsrc.
    by destruct (walk (fs s) ["nni_node"; nm]).
  - intros f old Hsrc Hne Hdst. rewrite copy_entry_run by exact Hplain.
    rewrite (stat_walk _ _ _ Hsrc) by reflexivity. cbn [is_Dir].
    destruct (String.eqb_spec nm "nni_manager.tsbuildinfo") as [|_]; [done|].
    rewrite copyfile_run by exact Hplain.
    rewrite (stat_walk _ _ _ Hsrc) by reflexivity. rewrite Hdst. cbn [is_Dir].
    unfold samefile.
    rewrite (locate_walk _ true _ _ Hsrc) by (by right).
    rewrite (plain_dir_locate _ _ true _ Hplain).
    rewrite Hsrc, Hdst. cbn [is_Some_node andb].
    by rewrite bool_decide_eq_false_2.
Qed.

Lemma X14_copy_entry_existing_witness :
  let s := Sample.start
             (Sample.dir [("ts", Sample.ts);
                          ("nni_node", Sample.dir [("common", Sample.dir []);
                                                   ("main.js", File (Raw "old"))])]) in
  copy_entry "common" s = (Raise (FileExistsError ["nni_node"; "common"]), s) /\
  fst (copy_entry "main.js" s) = Ok tt /\
  walk (fs (snd (copy_entry "main.js" s))) ["nni_node"; "main.js"] = Some (File (Raw "main")).
Proof.
  intros s.
  assert (Hplain : plain_dir "nni_node" (fs s)).
  { apply (plain_dir_intro _ _ (list_to_map [("common", Sample.dir []);
                                             ("main.js", File (Raw "old"))]));
      [vm_compute; reflexivity|].
    apply map_Forall_to_list. vm_compute. repeat constructor. }
  destruct (X14_copy_entry_existing "common" s Hplain) as (Hdir & _).
  destruct (X14_copy_entry_existing "main.js" s Hplain) as (_ & Hfile).
  split; [apply (Hdir (list_to_map [("log.js", File (Raw "log"))])); vm_compute; reflexivity|].
  rewrite (Hfile (Raw "main") (Raw "old")); [| vm_compute; reflexivity | discriminate
                                             | vm_compute; reflexivity].
  split; [reflexivity|]. cbn [snd fs]. apply walk_put_same; [done|].
  vm_compute. reflexivity.
Defined.

(** X15.  A development build copies the manifest as it is: with no
    version, or the empty one, [write_manifest] sets no field, and what
    it writes to nni_node/package.json is the document loaded from
    ts/nni_manager/package.json. *)
Theorem X15_write_manifest_without_version
    (E : Env) (version : option string) (s s' : state) :
  truthy version = false ->
  write_manifest E version s = (Ok tt, s') ->
  exists doc q,
    json_load E ["ts"; "nni_manager"; "package.json"] s = (Ok doc, s) /\
    locate (fs s) true ["nni_node"; "package.json"] = Some q /\
    s' = State (put (fs s) q (File (JsonText doc))) (trace s).
Proof.
  intros Hv Hrun. unfold write_manifest in Hrun. rewrite Hv in Hrun.
  apply bind_inv_Ok in Hrun as (doc & s1 & Hload & Hrun).
  pose proof (json_load_state _ _ _ _ _ Hload) as ->.
  unfold ret at 1 in Hrun. unfold bind at 1 in Hrun.
  unfold json_dump in Hrun. apply write_file_inv in Hrun as (q & Hq & _ & ->).
  by exists doc, q.
Qed.

Lemma X15_write_manifest_without_version_witness :
  let E := Sample.env "win32" (Some "3.0.14") None Sample.yarn_ok in
  let s := Sample.start Sample.prepared_tree in
  let s' := snd (write_manifest E (Some "") s) in
  walk (fs s') ["nni_node"; "package.json"] = Some (File (JsonText Sample.manager_manifest)).
Proof.
  intros E s s'.
  destruct (X15_write_manifest_without_version E (Some "") s s')
    as (doc & q & Hload & Hq & Hs').
  - reflexivity.
  - unfold s'. assert (Hok : fst (write_manifest E (Some "") s) = Ok tt)
      by (vm_compute; reflexivity).
    destruct (write_manifest E (Some "") s) as [r s2]. cbn [fst snd] in *. by subst r.
  - rewrite Hs'. cbn [fs]. vm_compute in Hq. injection Hq as <-.
    vm_compute in Hload. injection Hload as <-. vm_compute. reflexivity.
Defined.

(** ** The symlink strategy, a second time *)

Lemma _symlink_top_run target nm s :
  is_Dir (walk (fs s) ["nni_node"]) = true ->
  _symlink target ["nni_node"; nm] s
  = match walk (fs s) ["nni_node"; nm] with
    | None => (Ok tt, State (put (fs s) ["nni_node"; nm] (Symlink target)) (trace s))
    | Some _ => (Raise (FileExistsError ["nni_node"; nm]), s)
    end.
Proof.
  intros Hd. unfold _symlink, is_dir, symlink_to, mknode. unfold bind, get_fs, ret.
  rewrite (locate_parent _ false ["nni_node"; nm]) by (done || by left).
  by destruct (walk (fs s) ["nni_node"; nm]).
Qed.

Lemma _symlink_keeps_Dir p target link :
  preserves (fun s => is_Dir (walk (fs s) p) = true) (_symlink target link).
Proof.
  apply (creates__symlink (fun t => is_Dir (walk t p) = true)).
  intros t q x Hq Hp. by apply put_absent_keeps_Dir.
Qed.

Lemma symlink_jupyter_keeps_Dir E p :
  preserves (fun s => is_Dir (walk (fs s) p) = true) (symlink_jupyter E).
Proof.
  apply (creates_symlink_jupyter (fun t => is_Dir (walk t p) = true)).
  intros t q x Hq Hp. by apply put_absent_keeps_Dir.
Qed.

Lemma symlink_nni_node_keeps_Dir E p :
  preserves (fun s => is_Dir (walk (fs s) p) = true) (symlink_nni_node E).
Proof.
  unfold symlink_nni_node, iterdir. preserve;
    try apply _symlink_keeps_Dir; try apply symlink_jupyter_keeps_Dir.
  apply (creates__print (fun t => is_Dir (walk t p) = true)).
Qed.

Lemma symlink_nni_node_keeps_link E p tgt :
  preserves (fun s => walk (fs s) p = Some (Symlink tgt)) (symlink_nni_node E).
Proof.
  unfold symlink_nni_node, iterdir. preserve;
    try apply _symlink_keeps_link; try apply symlink_jupyter_keeps_link.
  apply (creates__print (fun t => walk t p = Some (Symlink tgt))).
Qed.

(** The loop of the symlink strategy returns, or raises FileExistsError
    for the link it could not make. *)
Lemma symlink_loop_outcome (names : list string) : forall s,
  is_Dir (walk (fs s) ["nni_node"]) = true ->
  (exists s1,
     for_ names
       (fun nm => _symlink (child ["ts"; "nni_manager"; "dist"] nm) (child ["nni_node"] nm)) s
     = (Ok tt, s1)) \/
  (exists nm s1,
     for_ names
       (fun nm => _symlink (child ["ts"; "nni_manager"; "dist"] nm) (child ["nni_node"] nm)) s
     = (Raise (FileExistsError ["nni_node"; nm]), s1)).
Proof.
  induction names as [|nm names IH]; intros s Hd.
  - left. by exists s.
  - cbn [for_]. unfold bind. cbn [child app]. rewrite _symlink_top_run by exact Hd.
    destruct (walk (fs s) ["nni_node"; nm]) eqn:Hw.
    + right. by exists nm, s.
    + apply IH. cbn [fs]. by apply put_absent_keeps_Dir.
Qed.

(** X16.  The symlink strategy cannot be repeated.  [_symlink] never
    replaces what is there, so after a [symlink_nni_node] that returned
    (from a directory nni_node and a build output that is a directory),
    a second one raises FileExistsError for an entry of nni_node: at the
    first entry of the build output that has its link, at the latest at
    package.json. *)
Theorem X16_symlink_nni_node_not_repeatable
    (E : Env) (s s' : state) (es : gmap string node) :
  walk (fs s) ["ts"; "nni_manager"; "dist"] = Some (Dir es) ->
  is_Dir (walk (fs s) ["nni_node"]) = true ->
  symlink_nni_node E s = (Ok tt, s') ->
  exists nm s'', symlink_nni_node E s' = (Raise (FileExistsError ["nni_node"; nm]), s'').
Proof.
  intros Hdist Hd Hrun.
  assert (Hd' : is_Dir (walk (fs s') ["nni_node"]) = true).
  { by apply (preserves_run _ _ _ _ _ (symlink_nni_node_keeps_Dir E _) Hrun). }
  assert (Hdist' : is_Dir (walk (fs s') ["ts"; "nni_manager"; "dist"]) = true).
  { apply (preserves_run _ _ _ _ _ (symlink_nni_node_keeps_Dir E _) Hrun). by rewrite Hdist. }
  assert (Hpkg : walk (fs s') ["nni_node"; "package.json"]
                 = Some (Symlink ["ts"; "nni_manager"; "package.json"])).
  { unfold symlink_nni_node in Hrun.
    apply bind_inv_Ok in Hrun as ([] & s0 & Hprint & Hrun).
    apply bind_inv_Ok in Hrun as (names & s0' & Hiter & Hrun).
    apply bind_inv_Ok in Hrun as ([] & s1 & Hloop & Hrun).
    apply bind_inv_Ok in Hrun as ([] & s2 & H2 & Hrun).
    apply bind_inv_Ok in Hrun as ([] & s3 & H3 & Hrun).
    apply bind_inv_Ok in Hrun as ([] & s4 & H4 & Hjup).
    assert (Hd1 : is_Dir (walk (fs s1) ["nni_node"]) = true).
    { apply (preserves_run _ _ _ _ _
               (preserves_for (I := fun s => is_Dir (walk (fs s) ["nni_node"]) = true) names _
                  (fun x => _symlink_keeps_Dir _ _ _)) Hloop).
      assert (fs s0' = fs s0) as ->.
      { revert Hiter. unfold iterdir, bind, get_fs.
        destruct (stat (fs s0) _) as [[?|?|?]|]; unfold ret, raise; congruence. }
      apply (_print_inv) in Hprint as (-> & _). exact Hd. }
    destruct (_symlink_top _ _ _ _ Hd1 H2) as (_ & _ & Hl2 & _).
    apply (preserves_run _ _ _ _ _ (symlink_jupyter_keeps_link E _ _) Hjup).
    apply (preserves_run _ _ _ _ _ (_symlink_keeps_link _ _ _ _) H4).
    apply (preserves_run _ _ _ _ _ (_symlink_keeps_link _ _ _ _) H3). exact Hl2. }
  clear Hrun. unfold symlink_nni_node.
  destruct (_print_run E "Creating symlinks" cyan) as (line & Hprint).
  rewrite (bind_Ok _ _ _ _ _ (Hprint s')).
  set (s0 := State (fs s') (trace s' ++ [Printed line])).
  destruct (walk (fs s') ["ts"; "nni_manager"; "dist"]) as [[?|es'|?]|] eqn:Hes';
    try discriminate.
  rewrite (bind_Ok _ _ _ _ _ (iterdir_run _ es' s0 Hes')).
  destruct (symlink_loop_outcome (map fst (map_to_list es')) s0 Hd')
    as [(s1 & Hloop) | (nm & s1 & Hloop)].
  - rewrite (bind_Ok _ _ _ _ _ Hloop).
    assert (Hd1 : is_Dir (walk (fs s1) ["nni_node"]) = true).
    { apply (preserves_run _ _ _ _ _
               (preserves_for (I := fun s => is_Dir (walk (fs s) ["nni_node"]) = true) _ _
                  (fun x => _symlink_keeps_Dir _ _ _)) Hloop). exact Hd'. }
    assert (Hpkg1 : walk (fs s1) ["nni_node"; "package.json"]
                    = Some (Symlink ["ts"; "nni_manager"; "package.json"])).
    { apply (preserves_run _ _ _ _ _
               (preserves_for
                  (I := fun s => walk (fs s) ["nni_node"; "package.json"]
                                 = Some (Symlink ["ts"; "nni_manager"; "package.json"])) _ _
                  (fun x => _symlink_keeps_link _ _ _ _)) Hloop). exact Hpkg. }
    exists "package.json", s1. apply bind_Raise.
    rewrite _symlink_top_run by exact Hd1. by rewrite Hpkg1.
  - exists nm, s1. by apply bind_Raise.
Qed.

Lemma X16_symlink_nni_node_not_repeatable_witness :
  let E := Sample.env "linux" (Some "3.0.14") None Sample.yarn_ok in
  let s := Sample.start
             (Sample.dir [("toolchain", Sample.toolchain); ("ts", Sample.ts);
                          ("nni_node", Sample.dir [])]) in
  let s' := snd (symlink_nni_node E s) in
  fst (symlink_nni_node E s) = Ok tt /\
  exists nm s'', symlink_nni_node E s' = (Raise (FileExistsError ["nni_node"; nm]), s'').
Proof.
  intros E s s'.
  assert (Hok : fst (symlink_nni_node E s) = Ok tt) by (vm_compute; reflexivity).
  split; [exact Hok|].
  apply (X16_symlink_nni_node_not_repeatable E s s' Sample.dist).
  - vm_compute. reflexivity.
  - vm_compute. reflexivity.
  - unfold s'. destruct (symlink_nni_node E s) as [r s2]. cbn [fst snd] in *. by subst r.
Defined.
